(** * LuckyBasket backend: relational core, purchase and draw procedures,
      and the HTTP handlers and background jobs built on them.

    The development is a shallow embedding.  The relational store is a
    record of tables, each table a list of rows in insertion order; the
    two PL/pgSQL procedures of [MASTER_SCHEMA.sql] and the JavaScript
    handlers are functions over that store.  A raised SQL exception is an
    explicit outcome; constraint checks of the schema are written out where
    a statement writes a value the constraint could refuse. *)

From Stdlib Require Import ZArith QArith Qabs String List Bool Lia.
From stdpp Require Import base option list gmap strings pretty.

Import ListNotations.
Local Open Scope string_scope.
Local Open Scope Z_scope.

(** ** Identifiers, time, money *)

(** UUID values.  [gen_random_uuid()] is modelled as a supply that never
    repeats: the store carries the next unused value. *)
Definition uuid := nat.
Bind Scope nat_scope with uuid.

(** TIMESTAMPTZ, as a point on the integer time line. *)
Definition timestamp := Z.

(** A DECIMAL(15,2) column holds a whole number of hundredths. *)
Definition money := Z.

(** The numeric value (in naira) of a stored amount. *)
Definition numeric_of_money (m : money) : Q := m # 100.

(** Rounding of a numeric to the nearest integer, ties away from zero, which
    is how the engine brings a numeric to a column's scale. *)
Definition round_half_away (q : Q) : Z :=
  let n := Qnum q in
  let d := Z.pos (Qden q) in
  Z.sgn n * ((2 * Z.abs n + d) / (2 * d)).

(** Assignment of a numeric to a DECIMAL(15,2) column: rounded to two
    fractional digits; a value that needs more than 13 integer digits
    raises "numeric field overflow" ([None]). *)
Definition store_money (q : Q) : option money :=
  let h := round_half_away (q * 100)%Q in
  if Z.abs h <? 10 ^ 15 then Some h else None.

(** ** JSON values of the settings document *)

(** A jsonb number: [dmant / 10 ^ dscale], the display scale kept as jsonb
    keeps it. *)
Record decimal := mkDecimal { dmant : Z; dscale : nat }.

Definition decimal_value (d : decimal) : Q :=
  dmant d # Pos.of_nat (Nat.pow 10 (dscale d)).

(** Scalar values of the settings document.  A key that is missing or holds
    JSON null is an absent key of the map.  Strings, arrays and objects are
    not modelled. *)
Inductive jval :=
| JNum (d : decimal)
| JBool (b : bool).

(** The [settings] column of the single [platform_settings] row. *)
Abbreviation settings_doc := (gmap string jval).

(** Outcome of [(settings->>key)::decimal]: the outer [None] is a raised
    cast error, the inner [None] is SQL NULL. *)
Definition sql_decimal_of (doc : settings_doc) (key : string) : option (option Q) :=
  match doc !! key with
  | None => Some None
  | Some (JNum d) => Some (Some (decimal_value d))
  | Some (JBool _) => None
  end.

(** Outcome of [(settings->>key)::INTEGER]: only the text of a number
    without fractional digits, within the int4 range, is accepted. *)
Definition sql_integer_of (doc : settings_doc) (key : string) : option (option Z) :=
  match doc !! key with
  | None => Some None
  | Some (JNum d) =>
      match dscale d with
      | O => if (- 2 ^ 31 <=? dmant d) && (dmant d <? 2 ^ 31)
             then Some (Some (dmant d)) else None
      | S _ => None
      end
  | Some (JBool _) => None
  end.

(** ** Rows *)

(** [profiles]. *)
Record profile := mkProfile {
  p_id : uuid;
  p_email : string;
  p_full_name : option string;
  p_is_verified : bool;
  p_referred_by : option uuid;
  p_verification_token : option string;
  p_verification_expires : option timestamp
}.

(** [wallets]. *)
Record wallet := mkWallet {
  w_id : uuid;
  w_user_id : uuid;
  w_balance : money;
  w_vendor_balance : money;
  w_is_locked : bool
}.

(** The [metadata] document of a transaction, by the statement that
    writes it. *)
Inductive tx_metadata :=
| MetaEmpty
| MetaPurchase (draw_id : uuid) (quantity : Z) (ticket_price : money)
| MetaPayout (draw_id : uuid) (total_revenue platform_fee platform_fee_percent vendor_payout : Q)
| MetaReferrerBonus (referee_id : uuid)
| MetaRefereeBonus
| MetaWebhook (source : string) (failure_reason : option string).

(** [transactions]. *)
Record transaction := mkTransaction {
  tx_id : uuid;
  tx_user_id : option uuid;
  tx_wallet_id : option uuid;
  tx_type : string;
  tx_amount : money;
  tx_fee : money;
  tx_status : string;
  tx_reference : string;
  tx_external_reference : option string;
  tx_balance_before : option money;
  tx_balance_after : option money;
  tx_completed_at : option timestamp;
  tx_metadata_doc : tx_metadata
}.

(** [draws].  The descriptive columns (description, media, category, items,
    notes) take no part in any procedure and are left out; [ticket_price],
    [total_tickets] and [sold_tickets] are taken as set. *)
Record draw := mkDraw {
  d_id : uuid;
  d_vendor_id : option uuid;
  d_title : string;
  d_ticket_price : money;
  d_total_tickets : Z;
  d_sold_tickets : Z;
  d_draw_type : string;
  d_status : string;
  d_draw_date : option timestamp;
  d_winner_id : option uuid;
  d_winning_ticket_id : option uuid;
  d_completed_at : option timestamp
}.

(** [tickets]. *)
Record ticket := mkTicket {
  t_id : uuid;
  t_draw_id : uuid;
  t_user_id : uuid;
  t_ticket_number : string;
  t_transaction_id : option uuid;
  t_is_winner : bool;
  t_created_at : timestamp;
  (** Modelled from the spec: the [slot_index] column ("optional slot_index
      (a UI-facing visual-grid position, unique per draw when used)"), which
      the ticket routes read and write and no schema file under src/
      declares. *)
  t_slot_index : option Z
}.

(** An entry of the [tickets] array a purchase returns. *)
Record ticket_ref := mkTicketRef { tr_id : uuid; tr_ticket_number : string }.

(** The [details] document of an audit-log row. *)
Inductive audit_details :=
| DetailsPurchased (quantity : Z) (total_cost : money) (ticket_numbers : list ticket_ref)
    (transaction_id : uuid) (new_total_sold : Z)
| DetailsExecuted (total_tickets : Z) (total_participants : nat) (random_seed : uuid)
    (all_ticket_ids : list uuid) (execution_timestamp : timestamp)
    (total_revenue platform_fee platform_fee_percent vendor_payout : Q)
| DetailsWinner (winner_id winning_ticket_id : uuid) (winning_ticket_number : string)
    (random_seed : uuid) (total_tickets_in_draw : Z) (total_participants : nat).

(** [draw_audit_log]. *)
Record audit_entry := mkAudit {
  a_draw_id : uuid;
  a_event_type : string;
  a_actor_id : option uuid;
  a_details : audit_details
}.

(** [notifications]. *)
Record notification := mkNotification {
  n_user_id : uuid;
  n_type : string;
  n_title : string;
  n_action_url : option string
}.

(** [referrals]. *)
Record referral := mkReferral {
  r_referrer_id : uuid;
  r_referred_id : uuid;
  r_status : string;
  r_referrer_bonus : option money;
  r_referred_bonus : option money;
  r_first_purchase_at : option timestamp
}.

(** [withdrawal_requests]. *)
Record withdrawal_request := mkWithdrawalRequest {
  wr_id : uuid;
  wr_vendor_id : uuid;
  wr_transaction_id : option uuid;
  wr_amount : money;
  wr_status : string;
  wr_admin_notes : option string;
  wr_processed_at : option timestamp
}.

(** ** The store *)

(** The tables, the ticket-number sequence and the uuid supply.  The record
    does not enforce keys: primary keys and the like are stated where a
    property needs them ([consistent] below), and references between tables
    are taken to point at existing rows, so that no statement is refused on
    a foreign key. *)
Record db := mkDb {
  profiles : list profile;
  wallets : list wallet;
  transactions : list transaction;
  platform_settings : option settings_doc;
  draws : list draw;
  tickets : list ticket;
  draw_audit_log : list audit_entry;
  notifications : list notification;
  referrals : list referral;
  withdrawal_requests : list withdrawal_request;
  ticket_number_seq : Z;
  uuid_supply : uuid
}.

(** Replacement of one table, the others kept. *)
Definition set_profiles (v : list profile) (s : db) : db :=
  mkDb v (wallets s) (transactions s) (platform_settings s) (draws s) (tickets s) (draw_audit_log s) (notifications s) (referrals s) (withdrawal_requests s) (ticket_number_seq s) (uuid_supply s).

Definition set_wallets (v : list wallet) (s : db) : db :=
  mkDb (profiles s) v (transactions s) (platform_settings s) (draws s) (tickets s) (draw_audit_log s) (notifications s) (referrals s) (withdrawal_requests s) (ticket_number_seq s) (uuid_supply s).

Definition set_transactions (v : list transaction) (s : db) : db :=
  mkDb (profiles s) (wallets s) v (platform_settings s) (draws s) (tickets s) (draw_audit_log s) (notifications s) (referrals s) (withdrawal_requests s) (ticket_number_seq s) (uuid_supply s).

Definition set_draws (v : list draw) (s : db) : db :=
  mkDb (profiles s) (wallets s) (transactions s) (platform_settings s) v (tickets s) (draw_audit_log s) (notifications s) (referrals s) (withdrawal_requests s) (ticket_number_seq s) (uuid_supply s).

Definition set_tickets (v : list ticket) (s : db) : db :=
  mkDb (profiles s) (wallets s) (transactions s) (platform_settings s) (draws s) v (draw_audit_log s) (notifications s) (referrals s) (withdrawal_requests s) (ticket_number_seq s) (uuid_supply s).

Definition set_draw_audit_log (v : list audit_entry) (s : db) : db :=
  mkDb (profiles s) (wallets s) (transactions s) (platform_settings s) (draws s) (tickets s) v (notifications s) (referrals s) (withdrawal_requests s) (ticket_number_seq s) (uuid_supply s).

Definition set_notifications (v : list notification) (s : db) : db :=
  mkDb (profiles s) (wallets s) (transactions s) (platform_settings s) (draws s) (tickets s) (draw_audit_log s) v (referrals s) (withdrawal_requests s) (ticket_number_seq s) (uuid_supply s).

Definition set_referrals (v : list referral) (s : db) : db :=
  mkDb (profiles s) (wallets s) (transactions s) (platform_settings s) (draws s) (tickets s) (draw_audit_log s) (notifications s) v (withdrawal_requests s) (ticket_number_seq s) (uuid_supply s).

Definition set_withdrawal_requests (v : list withdrawal_request) (s : db) : db :=
  mkDb (profiles s) (wallets s) (transactions s) (platform_settings s) (draws s) (tickets s) (draw_audit_log s) (notifications s) (referrals s) v (ticket_number_seq s) (uuid_supply s).

Definition set_ticket_number_seq (v : Z) (s : db) : db :=
  mkDb (profiles s) (wallets s) (transactions s) (platform_settings s) (draws s) (tickets s) (draw_audit_log s) (notifications s) (referrals s) (withdrawal_requests s) v (uuid_supply s).

Definition set_uuid_supply (v : uuid) (s : db) : db :=
  mkDb (profiles s) (wallets s) (transactions s) (platform_settings s) (draws s) (tickets s) (draw_audit_log s) (notifications s) (referrals s) (withdrawal_requests s) (ticket_number_seq s) v.

(** ** SQL primitives *)

(** What a call of a stored procedure leaves behind. *)
Inductive outcome (A : Type) :=
| Returned (result : A) (s : db)
    (** the function returned [result]; the statement commits store [s] *)
| Raised (sqlerrm : string).
    (** an exception left the function: nothing it wrote is kept *)
Arguments Returned {A} result s.
Arguments Raised {A} sqlerrm.

(** [gen_random_uuid()]. *)
Definition gen_random_uuid (s : db) : uuid * db :=
  (uuid_supply s, set_uuid_supply (S (uuid_supply s)) s).

(** [nextval('ticket_number_seq')]. *)
Definition nextval_ticket_number_seq (s : db) : Z * db :=
  (ticket_number_seq s, set_ticket_number_seq (ticket_number_seq s + 1) s).

(** [u::text], with the separators already removed. *)
Definition uuid_text (u : uuid) : string := pretty u.

(** [LPAD(str, n, '0')]: cut to the first [n] characters when longer. *)
Definition lpad0 (str : string) (n : nat) : string :=
  if (n <=? String.length str)%nat then String.substring 0 n str
  else String.concat "" (List.repeat "0" (n - String.length str)) ++ str.

(** ['LB-' || LPAD(nextval::text, 6, '0')]. *)
Definition format_ticket_number (v : Z) : string := "LB-" ++ lpad0 (pretty v) 6.

(** The CHECK constraints on text columns. *)
Definition one_of (allowed : list string) (v : string) : bool :=
  existsb (String.eqb v) allowed.

Definition notifications_type_check : string -> bool :=
  one_of ["welcome"; "referral"; "wallet"; "ticket"; "win"; "draw"; "kyc"; "system"].

Definition withdrawal_requests_status_check : string -> bool :=
  one_of ["pending"; "approved"; "rejected"; "processing"].

Definition transactions_type_check : string -> bool :=
  one_of ["topup"; "purchase"; "refund"; "withdrawal"; "bonus"; "reversal"; "transfer"; "payout"].

Definition transactions_status_check : string -> bool :=
  one_of ["pending"; "completed"; "failed"; "reversed"].

Definition draws_status_check : string -> bool :=
  one_of ["pending_review"; "active"; "completed"; "cancelled"; "rejected"].

Definition referrals_status_check : string -> bool :=
  one_of ["pending"; "completed"; "expired"].

(** [SELECT * FROM draws WHERE id = _]. *)
Definition find_draw (id : uuid) (s : db) : option draw :=
  List.find (fun d => Nat.eqb (d_id d) id) (draws s).

(** [SELECT * FROM wallets WHERE user_id = _]. *)
Definition find_wallet_of (user : uuid) (s : db) : option wallet :=
  List.find (fun w => Nat.eqb (w_user_id w) user) (wallets s).

(** [SELECT * FROM profiles WHERE id = _]. *)
Definition find_profile (id : uuid) (s : db) : option profile :=
  List.find (fun p => Nat.eqb (p_id p) id) (profiles s).

(** [UPDATE t SET ... WHERE cond]. *)
Definition update_where {A} (cond : A -> bool) (f : A -> A) (rows : list A) : list A :=
  List.map (fun r => if cond r then f r else r) rows.

Definition with_balance (b : money) (w : wallet) : wallet :=
  mkWallet (w_id w) (w_user_id w) b (w_vendor_balance w) (w_is_locked w).

Definition with_vendor_balance (b : money) (w : wallet) : wallet :=
  mkWallet (w_id w) (w_user_id w) (w_balance w) b (w_is_locked w).

Definition with_is_winner (t : ticket) : ticket :=
  mkTicket (t_id t) (t_draw_id t) (t_user_id t) (t_ticket_number t) (t_transaction_id t)
    true (t_created_at t) (t_slot_index t).

Definition with_slot_index (i : Z) (t : ticket) : ticket :=
  mkTicket (t_id t) (t_draw_id t) (t_user_id t) (t_ticket_number t) (t_transaction_id t)
    (t_is_winner t) (t_created_at t) (Some i).

Definition with_sold_tickets (n : Z) (d : draw) : draw :=
  mkDraw (d_id d) (d_vendor_id d) (d_title d) (d_ticket_price d) (d_total_tickets d) n
    (d_draw_type d) (d_status d) (d_draw_date d) (d_winner_id d) (d_winning_ticket_id d)
    (d_completed_at d).

Definition with_completion (winner winning_ticket : uuid) (now : timestamp) (d : draw) : draw :=
  mkDraw (d_id d) (d_vendor_id d) (d_title d) (d_ticket_price d) (d_total_tickets d)
    (d_sold_tickets d) (d_draw_type d) "completed" (d_draw_date d) (Some winner)
    (Some winning_ticket) (Some now).

Definition with_cancellation (now : timestamp) (d : draw) : draw :=
  mkDraw (d_id d) (d_vendor_id d) (d_title d) (d_ticket_price d) (d_total_tickets d)
    (d_sold_tickets d) (d_draw_type d) "cancelled" (d_draw_date d) (d_winner_id d)
    (d_winning_ticket_id d) (Some now).

(** [UPDATE wallets SET balance = v WHERE id = wid], the column's scale and
    CHECK (balance >= 0) applied; [None] when the statement raises. *)
Definition update_wallet_balance (wid : uuid) (v : Q) (s : db) : option db :=
  match store_money v with
  | None => None
  | Some b =>
      if b <? 0 then None
      else Some (set_wallets
                   (update_where (fun w => Nat.eqb (w_id w) wid) (with_balance b) (wallets s)) s)
  end.

(** [UPDATE wallets SET vendor_balance = v WHERE id = wid], likewise. *)
Definition update_wallet_vendor_balance (wid : uuid) (v : Q) (s : db) : option db :=
  match store_money v with
  | None => None
  | Some b =>
      if b <? 0 then None
      else Some (set_wallets
                   (update_where (fun w => Nat.eqb (w_id w) wid) (with_vendor_balance b)
                      (wallets s)) s)
  end.

(** [INSERT INTO transactions]: a new row at the end of the table. *)
Definition insert_transaction (t : transaction) (s : db) : db :=
  set_transactions (transactions s ++ [t]) s.

(** [INSERT INTO draw_audit_log]. *)
Definition insert_audit (a : audit_entry) (s : db) : db :=
  set_draw_audit_log (draw_audit_log s ++ [a]) s.

(** [ORDER BY created_at], rows of equal time kept in table order. *)
Fixpoint insert_by_created_at (t : ticket) (sorted : list ticket) : list ticket :=
  match sorted with
  | [] => [t]
  | u :: rest =>
      if t_created_at t <? t_created_at u then t :: u :: rest
      else u :: insert_by_created_at t rest
  end.

Definition order_by_created_at (ts : list ticket) : list ticket :=
  List.fold_left (fun acc t => insert_by_created_at t acc) ts [].

(** [COUNT(DISTINCT user_id)]. *)
Definition count_distinct (ids : list uuid) : nat := List.length (List.nodup Nat.eq_dec ids).

(** ** The draw-execution procedure *)

(** The JSON object [execute_draw] returns. *)
Inductive exec_result :=
| ExecRejected (message : string)
| ExecDone (winner_id winning_ticket_id : uuid) (winning_ticket_number : string)
    (total_tickets : Z) (total_participants : nat) (random_seed : uuid)
    (total_revenue platform_fee vendor_payout : Q).

Definition exec_success (r : exec_result) : bool :=
  match r with ExecRejected _ => false | ExecDone _ _ _ _ _ _ _ _ _ => true end.

(** The fee percentage in effect: [platformFee] of the settings row, 15.0
    when the row or the key is missing, and 15.0 again from the exception
    handler when the cast raises. *)
Definition platform_fee_percent (s : db) : Q :=
  match platform_settings s with
  | None => 15
  | Some doc =>
      match sql_decimal_of doc "platformFee" with
      | Some (Some p) => p
      | Some None => 15
      | None => 15
      end
  end.

(** Revenue, fee and payout as the procedure computes them, in unconstrained
    numerics.  The quotient [percent / 100] is taken exactly (the engine
    keeps at least sixteen significant digits of it). *)
Definition total_revenue_of (d : draw) : Q :=
  inject_Z (d_sold_tickets d) * numeric_of_money (d_ticket_price d).

Definition platform_fee_of (percent : Q) (d : draw) : Q :=
  total_revenue_of d * (percent / 100).

Definition vendor_payout_of (percent : Q) (d : draw) : Q :=
  total_revenue_of d - platform_fee_of percent d.

(** The row the credit block inserts into [transactions]. *)
Definition payout_transaction_of (now : timestamp) (v_draw : draw) (percent : Q)
    (v_vendor_wallet : wallet) (id ref : uuid) (amount : money) : transaction :=
  {| tx_id := id;
     tx_user_id := d_vendor_id v_draw;
     tx_wallet_id := Some (w_id v_vendor_wallet);
     tx_type := "payout";
     tx_amount := amount;
     tx_fee := 0;
     tx_status := "completed";
     tx_reference := "PAYOUT_" ++ uuid_text ref;
     tx_external_reference := None;
     tx_balance_before := Some (w_vendor_balance v_vendor_wallet);
     tx_balance_after :=
       store_money (numeric_of_money (w_vendor_balance v_vendor_wallet)
                    + vendor_payout_of percent v_draw);
     tx_completed_at := Some now;
     tx_metadata_doc :=
       MetaPayout (d_id v_draw) (total_revenue_of v_draw) (platform_fee_of percent v_draw)
         percent (vendor_payout_of percent v_draw) |}.

(** The block under "Credit Vendor Wallet": skipped when the vendor has no
    wallet row; [None] when a statement of it raises. *)
Definition credit_vendor (now : timestamp) (v_draw : draw) (percent : Q) (s : db) : option db :=
  match d_vendor_id v_draw ≫= fun v => find_wallet_of v s with
  | None => Some s
  | Some v_vendor_wallet =>
      let v_prev_vendor_bal := w_vendor_balance v_vendor_wallet in
      let v_new_vendor_bal :=
        (numeric_of_money v_prev_vendor_bal + vendor_payout_of percent v_draw)%Q in
      s1 ← update_wallet_vendor_balance (w_id v_vendor_wallet) v_new_vendor_bal s;
      amount ← store_money (vendor_payout_of percent v_draw);
      let '(id, s2) := gen_random_uuid s1 in
      let '(ref, s3) := gen_random_uuid s2 in
      Some (insert_transaction
              (payout_transaction_of now v_draw percent v_vendor_wallet id ref amount) s3)
  end.

(** [SELECT * FROM tickets WHERE draw_id = _]. *)
Definition draw_tickets_of (id : uuid) (s : db) : list ticket :=
  List.filter (fun t => Nat.eqb (t_draw_id t) id) (tickets s).

(** The two audit-log rows of an execution. *)
Definition executed_audit (now : timestamp) (_draw_id : uuid) (v_draw : draw) (percent : Q)
    (v_random_seed : uuid) (v_total_participants : nat) (v_all_ticket_ids : list uuid)
    : audit_entry :=
  {| a_draw_id := _draw_id;
     a_event_type := "draw_executed";
     a_actor_id := None;
     a_details :=
       DetailsExecuted (d_sold_tickets v_draw) v_total_participants v_random_seed
         v_all_ticket_ids now (total_revenue_of v_draw) (platform_fee_of percent v_draw)
         percent (vendor_payout_of percent v_draw) |}.

Definition winner_audit (_draw_id : uuid) (v_draw : draw) (v_winning_ticket : ticket)
    (v_random_seed : uuid) (v_total_participants : nat) : audit_entry :=
  {| a_draw_id := _draw_id;
     a_event_type := "winner_selected";
     a_actor_id := Some (t_user_id v_winning_ticket);
     a_details :=
       DetailsWinner (t_user_id v_winning_ticket) (t_id v_winning_ticket)
         (t_ticket_number v_winning_ticket) v_random_seed (d_sold_tickets v_draw)
         v_total_participants |}.

Section Procedures.

(** [md5] on text.  The procedure only sorts by its value, so the digest is
    kept abstract. *)
Variable md5 : string -> string.

(** [ORDER BY md5(id::text || seed::text) LIMIT 1].  Among rows of equal
    digest the engine may return any; the model takes the first in table
    order. *)
Fixpoint first_by_md5 (seed : uuid) (ts : list ticket) : option ticket :=
  match ts with
  | [] => None
  | t :: rest =>
      match first_by_md5 seed rest with
      | None => Some t
      | Some u =>
          if String.leb (md5 (uuid_text (t_id t) ++ uuid_text seed))
                        (md5 (uuid_text (t_id u) ++ uuid_text seed))
          then Some t else Some u
      end
  end.

(** [public.execute_draw(_draw_id)]. *)
Definition execute_draw (now : timestamp) (_draw_id : uuid) (s : db) : outcome exec_result :=
  match find_draw _draw_id s with
  | None => Returned (ExecRejected "Draw not found") s
  | Some v_draw =>
      if String.eqb (d_status v_draw) "completed" then
        Returned (ExecRejected "Draw already completed") s
      else if String.eqb (d_status v_draw) "cancelled" then
        Returned (ExecRejected "Draw is cancelled") s
      else if d_sold_tickets v_draw =? 0 then
        Returned (ExecRejected "No tickets sold for this draw") s
      else
        let '(v_random_seed, s1) := gen_random_uuid s in
        let draw_tickets := draw_tickets_of _draw_id s1 in
        let v_all_ticket_ids := List.map t_id (order_by_created_at draw_tickets) in
        let v_total_participants := count_distinct (List.map t_user_id draw_tickets) in
        match first_by_md5 v_random_seed draw_tickets with
        | None => Returned (ExecRejected "No tickets found for this draw") s1
        | Some v_winning_ticket =>
            let v_platform_fee_percent := platform_fee_percent s1 in
            let v_total_revenue := total_revenue_of v_draw in
            let v_platform_fee := platform_fee_of v_platform_fee_percent v_draw in
            let v_vendor_payout := vendor_payout_of v_platform_fee_percent v_draw in
            match credit_vendor now v_draw v_platform_fee_percent s1 with
            | None => Raised "vendor payout could not be stored"
            | Some s2 =>
                let s3 :=
                  set_tickets
                    (update_where (fun t => Nat.eqb (t_id t) (t_id v_winning_ticket))
                       with_is_winner (tickets s2)) s2 in
                let s4 :=
                  set_draws
                    (update_where (fun d => Nat.eqb (d_id d) _draw_id)
                       (with_completion (t_user_id v_winning_ticket) (t_id v_winning_ticket) now)
                       (draws s3)) s3 in
                let s5 :=
                  insert_audit
                    (executed_audit now _draw_id v_draw v_platform_fee_percent v_random_seed
                       v_total_participants v_all_ticket_ids) s4 in
                let s6 :=
                  insert_audit
                    (winner_audit _draw_id v_draw v_winning_ticket v_random_seed
                       v_total_participants) s5 in
                Returned
                  (ExecDone (t_user_id v_winning_ticket) (t_id v_winning_ticket)
                     (t_ticket_number v_winning_ticket) (d_sold_tickets v_draw)
                     v_total_participants v_random_seed v_total_revenue v_platform_fee
                     v_vendor_payout) s6
            end
        end
  end.

(** ** The ticket-purchase procedure *)

(** The JSON object [buy_tickets_v2] returns on success. *)
Record buy_success := mkBuySuccess {
  bs_tickets : list ticket_ref;
  bs_total_cost : money;
  bs_new_balance : option Q;
  bs_draw_completed : bool;
  bs_draw_result : option exec_result;
  bs_transaction_id : uuid;
  bs_referral_bonus_credited : option bool;
  bs_bonus_referrer : option Q;
  bs_bonus_referee : option Q;
  bs_referrer_id : option uuid
}.

Inductive buy_result :=
| BuyRejected (error : string)
| BuyDone (r : buy_success).

(** The per-purchase cap: [maxTicketsPerPurchase] of the settings row, 50
    when the row or the key is missing or the cast raises. *)
Definition max_tickets_per_purchase (s : db) : Z :=
  match platform_settings s with
  | None => 50
  | Some doc =>
      match sql_integer_of doc "maxTicketsPerPurchase" with
      | Some (Some n) => n
      | Some None => 50
      | None => 50
      end
  end.

(** UNIQUE (draw_id, ticket_number) on [tickets]: whether the draw already
    has a ticket of that number. *)
Definition ticket_number_taken (_draw_id : uuid) (v : string) (s : db) : bool :=
  existsb (fun t => Nat.eqb (t_draw_id t) _draw_id && String.eqb v (t_ticket_number t))
    (tickets s).

(** The FOR loop that issues the tickets: [n] rounds, each taking a fresh id
    and the next sequence value.  The random number computed first is
    always replaced, the sequence being part of the schema.  [None] when an
    INSERT is refused because the draw already has the number. *)
Fixpoint issue_tickets (n : nat) (now : timestamp) (_user_id _draw_id v_transaction_id : uuid)
    (v_tickets : list ticket_ref) (s : db) : option (list ticket_ref * db) :=
  match n with
  | O => Some (v_tickets, s)
  | S n' =>
      let '(v_ticket_id, s1) := gen_random_uuid s in
      let '(seq, s2) := nextval_ticket_number_seq s1 in
      let v_ticket_number := format_ticket_number seq in
      if ticket_number_taken _draw_id v_ticket_number s2 then None
      else
        let s3 :=
          set_tickets
            (tickets s2 ++
               [ {| t_id := v_ticket_id;
                    t_draw_id := _draw_id;
                    t_user_id := _user_id;
                    t_ticket_number := v_ticket_number;
                    t_transaction_id := Some v_transaction_id;
                    t_is_winner := false;
                    t_created_at := now;
                    t_slot_index := None |} ]) s2 in
        issue_tickets n' now _user_id _draw_id v_transaction_id
          (v_tickets ++ [mkTicketRef v_ticket_id v_ticket_number]) s3
  end.

(** [EXISTS (SELECT 1 FROM transactions WHERE user_id = _user_id AND type =
    'purchase' AND status = 'completed' AND id != v_transaction_id)]. *)
Definition other_completed_purchase (_user_id v_transaction_id : uuid) (s : db) : bool :=
  existsb
    (fun t =>
       bool_decide (tx_user_id t = Some _user_id)
       && String.eqb (tx_type t) "purchase"
       && String.eqb (tx_status t) "completed"
       && negb (Nat.eqb (tx_id t) v_transaction_id))
    (transactions s).

(** [v > 0] on a nullable numeric, read as an IF condition: NULL does not
    take the branch. *)
Definition is_positive (v : option Q) : bool :=
  match v with
  | Some q => 0 <? Qnum q
  | None => false
  end.

(** The local variables the referral block assigns. *)
Record referral_vars := mkReferralVars {
  v_referrer_bonus : option Q;
  v_referee_bonus : option Q;
  v_new_balance : option Q
}.

(** [COALESCE(x, 500)]. *)
Definition coalesce_500 (x : option Q) : option Q :=
  match x with
  | Some q => Some q
  | None => Some 500%Q
  end.

(** [SELECT COALESCE(..referralBonus.., 500), COALESCE(..referralBonusReferee.., 500)
    INTO v_referrer_bonus, v_referee_bonus FROM platform_settings WHERE id = 1]:
    no row leaves both targets NULL; [None] when a cast raises. *)
Definition select_referral_bonuses (s : db) : option (option Q * option Q) :=
  match platform_settings s with
  | None => Some (None, None)
  | Some doc =>
      a ← sql_decimal_of doc "referralBonus";
      b ← sql_decimal_of doc "referralBonusReferee";
      Some (coalesce_500 a, coalesce_500 b)
  end.

Definition bonus_transaction (id ref : uuid) (now : timestamp) (user wallet_id : uuid)
    (prefix : string) (amount : money) (meta : tx_metadata) : transaction :=
  {| tx_id := id;
     tx_user_id := Some user;
     tx_wallet_id := Some wallet_id;
     tx_type := "bonus";
     tx_amount := amount;
     tx_fee := 0;
     tx_status := "completed";
     tx_reference := prefix ++ uuid_text ref;
     tx_external_reference := None;
     tx_balance_before := None;
     tx_balance_after := None;
     tx_completed_at := Some now;
     tx_metadata_doc := meta |}.

(** [UPDATE wallets SET balance = balance + bonus WHERE id = wid] followed by
    the INSERT of the bonus transaction. *)
Definition credit_bonus (now : timestamp) (user wid : uuid) (prefix : string)
    (meta : tx_metadata) (bonus : Q) (s : db) : option db :=
  match List.find (fun w => Nat.eqb (w_id w) wid) (wallets s) with
  | None => None
  | Some w =>
      s1 ← update_wallet_balance wid (numeric_of_money (w_balance w) + bonus)%Q s;
      amount ← store_money bonus;
      let '(id, s2) := gen_random_uuid s1 in
      let '(ref, s3) := gen_random_uuid s2 in
      Some (insert_transaction (bonus_transaction id ref now user wid prefix amount meta) s3)
  end.

(** A nullable numeric brought to a DECIMAL(15,2) column: the outer [None]
    is a raised overflow. *)
Definition store_nullable_money (v : option Q) : option (option money) :=
  match v with
  | None => Some None
  | Some q => m ← store_money q; Some (Some m)
  end.

Definition with_referral_completed (rb fb : option money) (now : timestamp) (r : referral)
    : referral :=
  mkReferral (r_referrer_id r) (r_referred_id r) "completed" rb fb (Some now).

(** "Credit referrer": guarded by the referrer having a wallet and a
    positive bonus. *)
Definition credit_referrer (now : timestamp) (_user_id referred_by : uuid) (rb : option Q)
    (s : db) : option db :=
  match w_id <$> find_wallet_of referred_by s, rb with
  | Some v_referrer_wallet_id, Some b =>
      if is_positive rb
      then credit_bonus now referred_by v_referrer_wallet_id "REF_" (MetaReferrerBonus _user_id)
             b s
      else Some s
  | _, _ => Some s
  end.

(** "Credit referee (the new user)": guarded by a positive bonus. *)
Definition credit_referee (now : timestamp) (_user_id v_referee_wallet_id : uuid)
    (fb : option Q) (s : db) : option db :=
  match fb with
  | Some b =>
      if is_positive fb
      then credit_bonus now _user_id v_referee_wallet_id "WELCOME_" MetaRefereeBonus b s
      else Some s
  | None => Some s
  end.

(** "Update the referral record to completed". *)
Definition complete_referral (now : timestamp) (_user_id : uuid) (rb fb : option Q) (s : db)
    : option db :=
  match store_nullable_money rb, store_nullable_money fb with
  | Some rbm, Some fbm =>
      Some (set_referrals
              (update_where (fun r => Nat.eqb (r_referred_id r) _user_id)
                 (with_referral_completed rbm fbm now) (referrals s)) s)
  | _, _ => None
  end.

(** The inner block of the referral branch (the one that declares the two
    wallet ids).  It returns the variables as the block leaves them, and the
    store when it ran to its end; when a statement raises, the handler of
    the block swallows the error and what the block wrote is undone, while
    the variables keep what was assigned before the error. *)
Definition referral_block (now : timestamp) (_user_id referred_by : uuid) (v_wallet : wallet)
    (vars : referral_vars) (s : db) : referral_vars * option db :=
  match select_referral_bonuses s with
  | None => (vars, None)
  | Some (rb, fb) =>
      let vars1 := mkReferralVars rb fb (v_new_balance vars) in
      match credit_referrer now _user_id referred_by rb s with
      | None => (vars1, None)
      | Some s1 =>
          match credit_referee now _user_id (w_id v_wallet) fb s1 with
          | None => (vars1, None)
          | Some s2 =>
              let vars2 :=
                if is_positive fb
                then mkReferralVars rb fb
                       ((fun nb => (nb + default 0%Q fb)%Q) <$> v_new_balance vars)
                else vars1 in
              (vars2, complete_referral now _user_id rb fb s2)
          end
      end
  end.

(** The block "Process referral bonus if this is the user's first ticket
    purchase", from the SELECT of the profile to its exception handler. *)
Definition process_referral (now : timestamp) (_user_id v_transaction_id : uuid)
    (v_wallet : wallet) (vars : referral_vars) (s : db)
    : option profile * referral_vars * db :=
  match find_profile _user_id s with
  | None => (None, vars, s)
  | Some v_profile =>
      match p_referred_by v_profile with
      | None => (Some v_profile, vars, s)
      | Some referred_by =>
          if other_completed_purchase _user_id v_transaction_id s
          then (Some v_profile, vars, s)
          else
            match referral_block now _user_id referred_by v_wallet vars s with
            | (vars', Some s') => (Some v_profile, vars', s')
            | (vars', None) => (Some v_profile, vars', s)
            end
      end
  end.

(** [a AND b] of SQL, NULL written [None]. *)
Definition sql_and (a b : option bool) : option bool :=
  match a, b with
  | Some false, _ | _, Some false => Some false
  | Some true, Some true => Some true
  | _, _ => None
  end.

(** [v > 0] as a value: NULL for a NULL operand. *)
Definition sql_positive (v : option Q) : option bool :=
  (fun q => 0 <? Qnum q) <$> v.

(** The first half of [buy_tickets_v2]: the checks made before anything is
    written.  [inl] carries the error of the rejection, [inr] the locked
    draw and wallet rows. *)
Definition check_purchase (_user_id _draw_id : uuid) (_quantity : Z) (s : db)
    : string + draw * wallet :=
  let v_max_tickets_per_purchase := max_tickets_per_purchase s in
  if (_quantity <? 1) || (v_max_tickets_per_purchase <? _quantity) then
    inl ("Quantity must be between 1 and " ++ pretty v_max_tickets_per_purchase)
  else
    match find_draw _draw_id s with
    | None => inl "Draw not found"
    | Some v_draw =>
        if negb (String.eqb (d_status v_draw) "active") then
          inl "This draw is no longer active"
        else if bool_decide (d_vendor_id v_draw = Some _user_id) then
          inl "Vendors cannot participate in their own bundle"
        else if d_total_tickets v_draw <? d_sold_tickets v_draw + _quantity then
          inl ("Not enough tickets available. Only "
               ++ pretty (d_total_tickets v_draw - d_sold_tickets v_draw) ++ " remaining")
        else
          match find_wallet_of _user_id s with
          | None => inl "Wallet not found"
          | Some v_wallet =>
              if w_balance v_wallet <? d_ticket_price v_draw * _quantity then
                inl "Insufficient wallet balance"
              else if w_is_locked v_wallet then
                inl "Wallet is locked. Please contact support."
              else inr (v_draw, v_wallet)
          end
    end.

(** The row of the purchase in [transactions]. *)
Definition purchase_transaction_of (now : timestamp) (_user_id _draw_id : uuid) (_quantity : Z)
    (v_draw : draw) (v_wallet : wallet) (v_transaction_id ref : uuid) : transaction :=
  {| tx_id := v_transaction_id;
     tx_user_id := Some _user_id;
     tx_wallet_id := Some (w_id v_wallet);
     tx_type := "purchase";
     tx_amount := d_ticket_price v_draw * _quantity;
     tx_fee := 0;
     tx_status := "completed";
     tx_reference := "TKT_" ++ uuid_text ref;
     tx_external_reference := None;
     tx_balance_before := Some (w_balance v_wallet);
     tx_balance_after := Some (w_balance v_wallet - d_ticket_price v_draw * _quantity);
     tx_completed_at := Some now;
     tx_metadata_doc := MetaPurchase _draw_id _quantity (d_ticket_price v_draw) |}.

(** The statements from "Deduct wallet balance" to the audit-log entry of
    the purchase: the debit, the purchase transaction, the tickets, the new
    sold count, the log row.  It yields the transaction id, the tickets
    array and the store; [None] when a statement is refused, the debit by
    CHECK (balance >= 0) or a ticket by the uniqueness of its number within
    the draw. *)
Definition record_purchase (now : timestamp) (_user_id _draw_id : uuid) (_quantity : Z)
    (v_draw : draw) (v_wallet : wallet) (s : db) : option (uuid * list ticket_ref * db) :=
  let v_total_cost := d_ticket_price v_draw * _quantity in
  let v_prev_balance := w_balance v_wallet in
  let v_new_balance := v_prev_balance - v_total_cost in
  if v_new_balance <? 0 then None else
  let s1 :=
    set_wallets
      (update_where (fun w => Nat.eqb (w_id w) (w_id v_wallet)) (with_balance v_new_balance)
         (wallets s)) s in
  let '(v_transaction_id, s2) := gen_random_uuid s1 in
  let '(ref, s3) := gen_random_uuid s2 in
  let s4 :=
    insert_transaction
      (purchase_transaction_of now _user_id _draw_id _quantity v_draw v_wallet
         v_transaction_id ref) s3 in
  match issue_tickets (Z.to_nat _quantity) now _user_id _draw_id v_transaction_id [] s4 with
  | None => None
  | Some (v_tickets, s5) =>
      let v_new_sold := d_sold_tickets v_draw + _quantity in
      let s6 :=
        set_draws
          (update_where (fun d => Nat.eqb (d_id d) _draw_id) (with_sold_tickets v_new_sold)
             (draws s5)) s5 in
      Some (v_transaction_id, v_tickets,
            insert_audit
              {| a_draw_id := _draw_id;
                 a_event_type := "tickets_purchased";
                 a_actor_id := Some _user_id;
                 a_details :=
                   DetailsPurchased _quantity v_total_cost v_tickets v_transaction_id
                     v_new_sold |}
              s6)
  end.

(** The object returned at the end of a purchase. *)
Definition purchase_response (v_draw : draw) (_quantity : Z) (v_tickets : list ticket_ref)
    (v_transaction_id : uuid) (v_profile : option profile) (vars : referral_vars)
    (v_draw_completed : bool) (v_draw_result : option exec_result) : buy_result :=
  BuyDone
    {| bs_tickets := v_tickets;
       bs_total_cost := d_ticket_price v_draw * _quantity;
       bs_new_balance := v_new_balance vars;
       bs_draw_completed := v_draw_completed;
       bs_draw_result := v_draw_result;
       bs_transaction_id := v_transaction_id;
       bs_referral_bonus_credited :=
         sql_and (Some (bool_decide (is_Some (v_profile ≫= p_referred_by))))
           (sql_positive (v_referrer_bonus vars));
       bs_bonus_referrer := v_referrer_bonus vars;
       bs_bonus_referee := v_referee_bonus vars;
       bs_referrer_id := v_profile ≫= p_referred_by |}.

(** The variables of the referral block as declared, and [v_new_balance]
    as the debit has set it. *)
Definition initial_vars (v_draw : draw) (v_wallet : wallet) (_quantity : Z) : referral_vars :=
  mkReferralVars (Some 0%Q) (Some 0%Q)
    (Some (numeric_of_money (w_balance v_wallet - d_ticket_price v_draw * _quantity))).

(** [public.buy_tickets_v2(_user_id, _draw_id, _quantity)]: the checks, the
    purchase, the referral block, and the execution of a [slot_complete]
    draw that the purchase has filled. *)
Definition buy_tickets_v2 (now : timestamp) (_user_id _draw_id : uuid) (_quantity : Z) (s : db)
    : outcome buy_result :=
  match check_purchase _user_id _draw_id _quantity s with
  | inl error => Returned (BuyRejected error) s
  | inr (v_draw, v_wallet) =>
      match record_purchase now _user_id _draw_id _quantity v_draw v_wallet s with
      | None => Raised "a statement of the purchase was refused"
      | Some (v_transaction_id, v_tickets, s7) =>
          let '(v_profile, vars, s8) :=
            process_referral now _user_id v_transaction_id v_wallet
              (initial_vars v_draw v_wallet _quantity) s7 in
          if String.eqb (d_draw_type v_draw) "slot_complete"
             && (d_total_tickets v_draw <=? d_sold_tickets v_draw + _quantity)
          then
            match execute_draw now _draw_id s8 with
            | Returned r s9 =>
                Returned
                  (purchase_response v_draw _quantity v_tickets v_transaction_id v_profile
                     vars true (Some r)) s9
            | Raised e => Raised e
            end
          else
            Returned
              (purchase_response v_draw _quantity v_tickets v_transaction_id v_profile vars
                 false None) s8
      end
  end.

(** ** Integrity of the store *)

(** No value occurs twice. *)
Fixpoint distinct (ids : list uuid) : bool :=
  match ids with
  | [] => true
  | i :: rest => negb (existsb (Nat.eqb i) rest) && distinct rest
  end.

Definition draw_completed (id : uuid) (s : db) : bool :=
  match find_draw id s with
  | Some d => String.eqb (d_status d) "completed"
  | None => false
  end.

(** The facts about the tables that the procedures rely on and keep: the
    primary keys of [tickets] and [wallets], ticket and transaction ids
    older than the uuid supply, and the winner flag only on tickets of a
    completed draw. *)
Definition consistent (s : db) : bool :=
  distinct (List.map t_id (tickets s))
  && forallb (fun t => Nat.ltb (t_id t) (uuid_supply s)) (tickets s)
  && forallb (fun t => implb (t_is_winner t) (draw_completed (t_draw_id t) s)) (tickets s)
  && distinct (List.map w_id (wallets s))
  && forallb (fun t => Nat.ltb (tx_id t) (uuid_supply s)) (transactions s).

(** The numbers the next [n] values of the sequence give. *)
Definition upcoming_ticket_numbers (n : nat) (s : db) : list string :=
  List.map (fun k => format_ticket_number (ticket_number_seq s + Z.of_nat k)) (List.seq 0 n).

(** Whether the numbers [upcoming] can be given out one after the other
    next to the numbers [used]. *)
Fixpoint numbers_free (used upcoming : list string) : bool :=
  match upcoming with
  | [] => true
  | v :: rest => negb (existsb (String.eqb v) used) && numbers_free (used ++ [v]) rest
  end.

(** Whether the next [n] ticket numbers are new to the draw and differ from
    one another.  (From 1000000 on LPAD cuts the sequence value to its first
    six characters, so that numbers repeat.) *)
Definition ticket_numbers_free (id : uuid) (n : nat) (s : db) : bool :=
  numbers_free
    (List.map t_ticket_number (List.filter (fun t => Nat.eqb (t_draw_id t) id) (tickets s)))
    (upcoming_ticket_numbers n s).

(** The balance of the wallet with a given id. *)
Definition balance_of (wid : uuid) (s : db) : option money :=
  w_balance <$> List.find (fun w => Nat.eqb (w_id w) wid) (wallets s).

(** The balances by wallet id after one guarded bonus credit: with the
    guard open, the wallet [wid] holds its former balance plus the bonus,
    brought to the scale of the column. *)
Definition credited_balance (guard : bool) (wid : uuid) (bonus : option Q)
    (bal : uuid -> option money) (wid' : uuid) : option money :=
  if guard && Nat.eqb wid' wid
  then c ← bal wid; store_money (numeric_of_money c + default 0%Q bonus)
  else bal wid'.


(** The bonus rows of [transactions]. *)
Definition bonus_transactions (s : db) : list transaction :=
  List.filter (fun t => String.eqb (tx_type t) "bonus") (transactions s).


(** A ticket row without its winner flag. *)
Definition ticket_core (t : ticket)
    : uuid * uuid * uuid * string * option uuid * timestamp * option Z :=
  (t_id t, t_draw_id t, t_user_id t, t_ticket_number t, t_transaction_id t, t_created_at t,
   t_slot_index t).

(** The entry of the returned [tickets] array for a row. *)
Definition ticket_ref_of (t : ticket) : ticket_ref := mkTicketRef (t_id t) (t_ticket_number t).

(** The tables no statement of the two procedures writes. *)
Definition untouched (s : db)
    : list profile * option settings_doc * list notification * list withdrawal_request :=
  (profiles s, platform_settings s, notifications s, withdrawal_requests s).


(** ** The JavaScript side

    A call through the store client never throws: it answers with the rows
    or with an error, and each call commits on its own.  JavaScript numbers
    are taken as exact rationals. *)

(** [.single()]: the row when exactly one matches, an error otherwise. *)
Definition single {A} (rows : list A) : option A :=
  match rows with
  | [r] => Some r
  | _ => None
  end.

(** [a || b] on optional text: the empty string is falsy. *)
Definition js_or (a b : option string) : option string :=
  match a with
  | Some x => if String.eqb x "" then b else Some x
  | None => b
  end.

(** [config.key || fallback] read as a number: 0 and [false] are falsy,
    [true] counts as 1. *)
Definition js_or_default (v : option jval) (fallback : Q) : Q :=
  match v with
  | Some (JNum d) => if Qnum (decimal_value d) =? 0 then fallback else decimal_value d
  | Some (JBool true) => 1
  | Some (JBool false) => fallback
  | None => fallback
  end.

(** [x < config.key] and [x > config.key] without a fallback: a missing
    key compares false both ways. *)
Definition js_number (v : option jval) : option Q :=
  match v with
  | Some (JNum d) => Some (decimal_value d)
  | Some (JBool true) => Some 1%Q
  | Some (JBool false) => Some 0%Q
  | None => None
  end.

Definition Qltb (a b : Q) : bool := negb (Qle_bool b a).

Definition js_lt (a : Q) (b : option Q) : bool :=
  match b with Some q => Qltb a q | None => false end.

Definition js_gt (a : Q) (b : option Q) : bool :=
  match b with Some q => Qltb q a | None => false end.

(** [settingsRow?.settings || fallback]. *)
Definition config_or (fallback : settings_doc) (s : db) : settings_doc :=
  match platform_settings s with
  | Some doc => doc
  | None => fallback
  end.

Definition jnum (n : Z) : jval := JNum (mkDecimal n 0).

(** [INSERT INTO notifications], refused when [type] is outside the
    column's CHECK list. *)
Definition insert_notification (n : notification) (s : db) : option db :=
  if notifications_type_check (n_type n)
  then Some (set_notifications (notifications s ++ [n]) s)
  else None.

(** [createNotification(userId, {type, title, actionUrl})]: a failed insert
    is logged and the caller goes on. *)
Definition createNotification (userId : uuid) (type title : string) (actionUrl : option string)
    (s : db) : db :=
  match insert_notification (mkNotification userId type title actionUrl) s with
  | Some s' => s'
  | None => s
  end.

(** *** The draw scheduler *)

(** The rows the tick selects: active timer draws whose [draw_date] is not
    after the current time. *)
Definition expired_timer_draws (now : timestamp) (s : db) : list draw :=
  List.filter
    (fun d =>
       String.eqb (d_status d) "active"
       && String.eqb (d_draw_type d) "timer"
       && match d_draw_date d with Some t => t <=? now | None => false end)
    (draws s).

(** The body of the loop over the selected rows.  [draw] is the row as
    selected at the start of the tick. *)
Definition scheduler_process_draw (now : timestamp) (s : db) (draw : draw) : db :=
  if d_sold_tickets draw =? 0 then
    set_draws
      (update_where (fun d => Nat.eqb (d_id d) (d_id draw)) (with_cancellation now) (draws s)) s
  else
    match execute_draw now (d_id draw) s with
    | Raised _ => s
    | Returned (ExecRejected _) s' => s'
    | Returned (ExecDone winner_id _ _ _ _ _ _ _ _) s' =>
        match insert_notification (mkNotification winner_id "draw_won" "You Won!" None) s' with
        | Some s'' => s''
        | None => s'
        end
    end.

(** One run of the function scheduled every minute. *)
Definition drawScheduler_tick (now : timestamp) (s : db) : db :=
  List.fold_left (scheduler_process_draw now) (expired_timer_draws now s) s.

(** *** POST /api/tickets/buy *)

(** The [quantity] field of the body after [parseInt]. *)
Inductive js_quantity :=
| QtyAbsent
| QtyInt (n : Z)
| QtyNaN.

Record buy_request := mkBuyRequest {
  rq_draw_id : option uuid;
  rq_quantity : js_quantity;
  rq_slot_indices : option (list Z)
    (** [Some] when the field is present and is an array *)
}.

(** [slot_indices && Array.isArray(slot_indices) ? slot_indices.length :
    parseInt(quantity)], [None] standing for NaN. *)
Definition requested_qty (rq : buy_request) : option Z :=
  match rq_slot_indices rq with
  | Some slots => Some (Z.of_nat (List.length slots))
  | None =>
      match rq_quantity rq with
      | QtyAbsent => Some 1
      | QtyInt n => Some n
      | QtyNaN => None
      end
  end.

(** The tickets of the draw that already hold one of the requested slots. *)
Definition taken_slots (draw_id : uuid) (slots : list Z) (s : db) : list ticket :=
  List.filter
    (fun t =>
       Nat.eqb (t_draw_id t) draw_id
       && match t_slot_index t with
          | Some i => existsb (Z.eqb i) slots
          | None => false
          end)
    (tickets s).

(** Modelled from the spec: the uniqueness of a slot within its draw
    ("unique per draw when used"), which no schema file under src/ declares.
    Under it [UPDATE tickets SET slot_index = i WHERE id = tid] is refused
    when another ticket of the same draw holds slot [i]. *)
Definition update_ticket_slot (tid : uuid) (i : Z) (s : db) : db :=
  let clash (t : ticket) :=
    existsb
      (fun u =>
         negb (Nat.eqb (t_id u) tid)
         && Nat.eqb (t_draw_id u) (t_draw_id t)
         && bool_decide (t_slot_index u = Some i))
      (tickets s) in
  if existsb (fun t => Nat.eqb (t_id t) tid && clash t) (tickets s) then s
  else
    set_tickets (update_where (fun t => Nat.eqb (t_id t) tid) (with_slot_index i) (tickets s)) s.

(** The loop that binds the requested slots to the created tickets, in
    order, as far as both lists go. *)
Fixpoint assign_slots (created : list ticket_ref) (slots : list Z) (s : db) : db :=
  match created, slots with
  | t :: created', i :: slots' => assign_slots created' slots' (update_ticket_slot (tr_id t) i s)
  | _, _ => s
  end.

(** The notifications sent after a purchase: to the buyer, to both parties
    of a credited referral, and to winner and vendor when the purchase has
    completed the draw. *)
Definition purchase_notifications (userId draw_id : uuid) (qty : Z) (r : buy_success) (s : db)
    : db :=
  let draw := single (List.filter (fun d => Nat.eqb (d_id d) draw_id) (draws s)) in
  let s1 :=
    createNotification userId "ticket"
      (pretty qty ++ (if 1 <? qty then " Tickets Purchased!" else " Ticket Purchased!"))
      (Some ("/draws/" ++ uuid_text draw_id)) s in
  let s2 :=
    if bool_decide (bs_referral_bonus_credited r = Some true) then
      let s' :=
        match bs_referrer_id r with
        | Some referrer =>
            if is_positive (bs_bonus_referrer r)
            then createNotification referrer "referral" "Referral Bonus Received!"
                   (Some "/wallet") s1
            else s1
        | None => s1
        end in
      if is_positive (bs_bonus_referee r)
      then createNotification userId "referral" "Welcome Bonus Received!" (Some "/wallet") s'
      else s'
    else s1 in
  match bs_draw_completed r, bs_draw_result r with
  | true, Some (ExecDone winnerId _ _ _ _ _ _ _ _) =>
      let s3 := createNotification winnerId "win" "You Won!" (Some "/winners") s2 in
      match draw ≫= d_vendor_id with
      | Some vendor =>
          createNotification vendor "draw" "Draw Completed!" (Some "/vendor/bundles") s3
      | None => s3
      end
  | _, _ => s2
  end.

(** The handler, after the authentication and verification middleware
    have let the request through.  It answers with the HTTP status and
    leaves the store it has written. *)
Definition post_tickets_buy (now : timestamp) (userId : uuid) (rq : buy_request) (s : db)
    : nat * db :=
  match rq_draw_id rq with
  | None => (400%nat, s)
  | Some draw_id =>
      let config := config_or {[ "maxTicketsPerPurchase" := jnum 50 ]} s in
      match requested_qty rq with
      | None => (400%nat, s)
      | Some qty =>
          if (qty <? 1)
             || Qltb (js_or_default (config !! "maxTicketsPerPurchase") 50) (inject_Z qty)
          then (400%nat, s)
          else
            let slots_refused :=
              match rq_slot_indices rq with
              | Some slots =>
                  negb (Nat.eqb (List.length (List.nodup Z.eq_dec slots)) (List.length slots))
                  || negb (Nat.eqb (List.length (taken_slots draw_id slots s)) 0)
              | None => false
              end in
            if slots_refused then (400%nat, s)
            else
              match buy_tickets_v2 now userId draw_id qty s with
              | Raised _ => (400%nat, s)
              | Returned (BuyRejected _) s1 => (400%nat, s1)
              | Returned (BuyDone result) s1 =>
                  let s2 :=
                    match rq_slot_indices rq with
                    | Some slots => assign_slots (bs_tickets result) slots s1
                    | None => s1
                    end in
                  (200%nat, purchase_notifications userId draw_id qty result s2)
              end
      end
  end.

(** *** POST /api/webhooks/flutterwave *)

(** The fields of a gateway payload the handlers read. *)
Record payload := mkPayload {
  wp_id : option string;
  wp_tx_ref : option string;
  wp_txRef : option string;
  wp_amount : option Q;
  wp_status : option string;
  wp_customer_email : option string;
  wp_payment_type : option string;
  wp_reference : option string;
  wp_complete_message : option string;
  wp_completeMessage : option string;
  wp_meta_user_id : option uuid
}.

(** The request body: the [event] and ["event.type"] fields, the [data]
    object when there is one, and the body's own fields read as a payload
    (the legacy flat envelope). *)
Record webhook_body := mkWebhookBody {
  wb_event : option string;
  wb_event_type : option string;
  wb_data : option payload;
  wb_flat : payload
}.

(** What the process is configured with and what the gateway answers to
    [verifyTransaction]: inputs of the model. *)
Record gateway_env := mkGatewayEnv {
  env_FLW_WEBHOOK_SECRET : option string;
  env_test_key : bool;
    (** FLUTTERWAVE_SECRET_KEY contains "TEST" *)
  env_verification : option payload
    (** the verified record, [None] when verification fails *)
}.

(** How an asynchronous handler ends. *)
Inductive js_end :=
| Completed (s : db)
| Thrown (s : db).

(** [verifyWebhookSignature(webhookHash)]. *)
Definition verifyWebhookSignature (env : gateway_env) (webhookHash : option string) : bool :=
  match js_or (env_FLW_WEBHOOK_SECRET env) None with
  | None => false
  | Some secretHash =>
      match js_or webhookHash None with
      | None => false
      | Some h => String.eqb h secretHash
      end
  end.

(** The normalisation of the payload: [tx_ref] and [reference] take the
    first non-empty of their spellings. *)
Definition normalize (data : payload) : payload :=
  mkPayload (wp_id data) (js_or (wp_tx_ref data) (wp_txRef data)) (wp_txRef data)
    (wp_amount data) (wp_status data) (wp_customer_email data) (wp_payment_type data)
    (js_or (wp_reference data) (js_or (wp_txRef data) (wp_tx_ref data)))
    (wp_complete_message data) (wp_completeMessage data) (wp_meta_user_id data).

Definition amount_or_zero (a : option Q) : Q := default 0%Q a.

(** [String(transactionId)]. *)
Definition id_text (id : option string) : string := default "undefined" id.

(** An INSERT or UPDATE on [transactions] as the client issues it: refused
    on a NULL or duplicate [reference] and on values outside the CHECK
    lists. *)
Definition insert_transaction_checked (reference : option string) (mk : string -> transaction)
    (s : db) : option db :=
  match reference with
  | None => None
  | Some ref =>
      let t := mk ref in
      if existsb (fun u => String.eqb (tx_reference u) ref) (transactions s) then None
      else if transactions_type_check (tx_type t) && transactions_status_check (tx_status t)
      then Some (insert_transaction t s)
      else None
  end.

Definition with_tx_completed (amount : option money) (ext : option string)
    (before after : option money) (now : timestamp) (meta : tx_metadata) (t : transaction)
    : transaction :=
  mkTransaction (tx_id t) (tx_user_id t) (tx_wallet_id t) (tx_type t)
    (default (tx_amount t) amount) (tx_fee t) "completed" (tx_reference t)
    (match ext with Some e => Some e | None => tx_external_reference t end)
    (match before with Some b => Some b | None => tx_balance_before t end)
    (match after with Some a => Some a | None => tx_balance_after t end)
    (Some now) meta.

Definition with_tx_failed (meta : tx_metadata) (t : transaction) : transaction :=
  mkTransaction (tx_id t) (tx_user_id t) (tx_wallet_id t) (tx_type t) (tx_amount t) (tx_fee t)
    "failed" (tx_reference t) (tx_external_reference t) (tx_balance_before t)
    (tx_balance_after t) (tx_completed_at t) meta.

(** [handleChargeCompleted(data)]. *)
Definition handleChargeCompleted (env : gateway_env) (now : timestamp) (data : payload) (s : db)
    : js_end :=
  let transactionId := wp_id data in
  let tx_ref := js_or (wp_tx_ref data) (wp_txRef data) in
  match
    match env_verification env with
    | Some verified => Some (verified, amount_or_zero (wp_amount verified), wp_tx_ref verified)
    | None =>
        if env_test_key env then Some (data, amount_or_zero (wp_amount data), tx_ref) else None
    end
  with
  | None => Completed s
  | Some (verifiedData, verifiedAmount, verifiedTxRef) =>
      let effectiveTxRef := js_or verifiedTxRef tx_ref in
      let existingTx :=
        effectiveTxRef ≫= fun ref =>
          single (List.filter (fun t => String.eqb (tx_reference t) ref) (transactions s)) in
      if bool_decide ((tx_status <$> existingTx) = Some "completed") then Completed s
      else
        let by_tx := existingTx ≫= tx_user_id in
        let metaUserId :=
          match wp_meta_user_id data with
          | Some u => Some u
          | None => wp_meta_user_id verifiedData
          end in
        let by_meta :=
          match by_tx with
          | Some u => Some u
          | None =>
              metaUserId ≫= fun m =>
                w_user_id <$> single (List.filter (fun w => Nat.eqb (w_user_id w) m) (wallets s))
          end in
        let customerEmail := js_or (wp_customer_email data) (wp_customer_email verifiedData) in
        let userId :=
          match by_meta with
          | Some u => Some u
          | None =>
              customerEmail ≫= fun e =>
                p_id <$> single (List.filter (fun p => String.eqb (p_email p) e) (profiles s))
          end in
        match userId with
        | None => Completed s
        | Some userId =>
            match single (List.filter (fun w => Nat.eqb (w_user_id w) userId) (wallets s)) with
            | None => Completed s
            | Some wallet =>
                let existingCompletedTx :=
                  single
                    (List.filter
                       (fun t =>
                          bool_decide (tx_wallet_id t = Some (w_id wallet))
                          && bool_decide (tx_external_reference t = Some (id_text transactionId))
                          && String.eqb (tx_status t) "completed")
                       (transactions s)) in
                match existingCompletedTx with
                | Some _ => Completed s
                | None =>
                    let previousBalance := numeric_of_money (w_balance wallet) in
                    let newBalance := (previousBalance + verifiedAmount)%Q in
                    match update_wallet_balance (w_id wallet) newBalance s with
                    | None => Thrown s
                    | Some s1 =>
                        let meta := MetaWebhook "webhook" None in
                        let pendingTx :=
                          effectiveTxRef ≫= fun ref =>
                            single
                              (List.filter
                                 (fun t =>
                                    String.eqb (tx_reference t) ref
                                    && String.eqb (tx_status t) "pending")
                                 (transactions s1)) in
                        let s2 :=
                          match pendingTx with
                          | Some p =>
                              match store_money verifiedAmount with
                              | Some amount =>
                                  set_transactions
                                    (update_where (fun t => Nat.eqb (tx_id t) (tx_id p))
                                       (with_tx_completed (Some amount)
                                          (Some (id_text transactionId))
                                          (Some (w_balance wallet)) (store_money newBalance)
                                          now meta)
                                       (transactions s1)) s1
                              | None => s1
                              end
                          | None =>
                              match store_money verifiedAmount with
                              | Some amount =>
                                  let '(id, s') := gen_random_uuid s1 in
                                  default s'
                                    (insert_transaction_checked effectiveTxRef
                                       (fun ref =>
                                          {| tx_id := id;
                                             tx_user_id := Some userId;
                                             tx_wallet_id := Some (w_id wallet);
                                             tx_type := "topup";
                                             tx_amount := amount;
                                             tx_fee := 0;
                                             tx_status := "completed";
                                             tx_reference := ref;
                                             tx_external_reference :=
                                               Some (id_text transactionId);
                                             tx_balance_before := Some (w_balance wallet);
                                             tx_balance_after := store_money newBalance;
                                             tx_completed_at := Some now;
                                             tx_metadata_doc := meta |}) s')
                              | None => s1
                              end
                          end in
                        Completed (createNotification userId "wallet" "Wallet Funded"
                                     (Some "/wallet") s2)
                    end
                end
            end
        end
  end.

(** [UPDATE withdrawal_requests SET status = v, ... WHERE transaction_id =
    txid]: the statement fails as a whole, leaving every row as it was, when
    [v] is outside the column's CHECK list. *)
Definition update_withdrawal_request (txid : uuid) (v : string)
    (f : withdrawal_request -> withdrawal_request) (s : db) : db :=
  let hit (r : withdrawal_request) := bool_decide (wr_transaction_id r = Some txid) in
  if existsb hit (withdrawal_requests s) && negb (withdrawal_requests_status_check v) then s
  else set_withdrawal_requests (update_where hit f (withdrawal_requests s)) s.

Definition with_wr_completed (now : timestamp) (r : withdrawal_request) : withdrawal_request :=
  mkWithdrawalRequest (wr_id r) (wr_vendor_id r) (wr_transaction_id r) (wr_amount r)
    "completed" (wr_admin_notes r) (Some now).

Definition with_wr_failed (notes : string) (r : withdrawal_request) : withdrawal_request :=
  mkWithdrawalRequest (wr_id r) (wr_vendor_id r) (wr_transaction_id r) (wr_amount r)
    "failed" (Some notes) (wr_processed_at r).

(** The withdrawal transaction a transfer event refers to. *)
Definition find_withdrawal (reference : string) (s : db) : option transaction :=
  single
    (List.filter
       (fun t => String.eqb (tx_reference t) reference && String.eqb (tx_type t) "withdrawal")
       (transactions s)).

(** The vendor notification at the end of the two transfer handlers. *)
Definition notify_vendor (user : option uuid) (title : string) (s : db) : db :=
  match user with
  | Some u => createNotification u "wallet" title (Some "/wallet") s
  | None => s
  end.

(** [handleTransferCompleted(data)]. *)
Definition handleTransferCompleted (now : timestamp) (data : payload) (s : db) : js_end :=
  match js_or (wp_reference data) (js_or (wp_txRef data) (wp_tx_ref data)) with
  | None => Completed s
  | Some reference =>
      match find_withdrawal reference s with
      | None => Completed s
      | Some tx =>
          if String.eqb (tx_status tx) "completed" then Completed s
          else
            let s1 :=
              set_transactions
                (update_where (fun t => Nat.eqb (tx_id t) (tx_id tx))
                   (with_tx_completed None None None None now (MetaWebhook "webhook" None))
                   (transactions s)) s in
            let s2 := update_withdrawal_request (tx_id tx) "completed" (with_wr_completed now) s1 in
            Completed (notify_vendor (tx_user_id tx) "Withdrawal Successful" s2)
      end
  end.

(** [handleTransferFailed(data)]. *)
Definition handleTransferFailed (now : timestamp) (data : payload) (s : db) : js_end :=
  let complete_message := js_or (wp_complete_message data) (wp_completeMessage data) in
  match js_or (wp_reference data) (js_or (wp_txRef data) (wp_tx_ref data)) with
  | None => Completed s
  | Some reference =>
      match find_withdrawal reference s with
      | None => Completed s
      | Some tx =>
          let s1 :=
            update_withdrawal_request (tx_id tx) "failed"
              (with_wr_failed
                 ("System: Transfer failed on Flutterwave. Message: "
                  ++ default "Reason unknown" complete_message
                  ++ ". You can retry or refund manually.")) s in
          let s2 :=
            set_transactions
              (update_where (fun t => Nat.eqb (tx_id t) (tx_id tx))
                 (with_tx_failed
                    (MetaWebhook "webhook" (Some (default "Transfer failed" complete_message))))
                 (transactions s1)) s1 in
          Completed (notify_vendor (tx_user_id tx) "Withdrawal Failed" s2)
      end
  end.

(** The switch on the event name. *)
Definition dispatch_event (env : gateway_env) (now : timestamp) (event : option string)
    (data : payload) (s : db) : js_end :=
  let on (name : string) := bool_decide (event = Some name) in
  if on "charge.completed" || on "BANK_TRANSFER_TRANSACTION" || on "CARD_TRANSACTION" then
    if bool_decide (wp_status data = Some "successful")
    then handleChargeCompleted env now data s
    else Completed s
  else if on "transfer.completed" || on "TRANSFER_COMPLETED" then
    handleTransferCompleted now data s
  else if on "transfer.failed" || on "TRANSFER_FAILED" then
    handleTransferFailed now data s
  else Completed s.

(** The route handler: the answer's status and the store. *)
Definition post_webhook_flutterwave (env : gateway_env) (now : timestamp)
    (verif_hash : option string) (body : webhook_body) (s : db) : nat * db :=
  if negb (bool_decide (is_Some (js_or verif_hash None)))
     || negb (verifyWebhookSignature env verif_hash)
  then (401%nat, s)
  else
    let event := js_or (wb_event body) (wb_event_type body) in
    let data := default (wb_flat body) (wb_data body) in
    let with_type :=
      mkPayload (wp_id data) (wp_tx_ref data) (wp_txRef data) (wp_amount data) (wp_status data)
        (wp_customer_email data)
        (js_or (wp_payment_type data)
           (if bool_decide (wb_event_type body = Some "BANK_TRANSFER_TRANSACTION")
            then Some "banktransfer" else None))
        (wp_reference data) (wp_complete_message data) (wp_completeMessage data)
        (wp_meta_user_id data) in
    match dispatch_event env now event (normalize with_type) s with
    | Completed s' => (200%nat, s')
    | Thrown s' => (500%nat, s')
    end.

(** *** GET /api/auth/verify-email/:token *)

Definition with_email_verified (p : profile) : profile :=
  mkProfile (p_id p) (p_email p) (p_full_name p) true (p_referred_by p) None None.

(** The handler: status, message of the answer, store.  A NULL expiry reads
    as the epoch, as [new Date(null)] does. *)
Definition get_verify_email (now : timestamp) (token : string) (s : db) : nat * string * db :=
  match
    single (List.filter (fun p => bool_decide (p_verification_token p = Some token)) (profiles s))
  with
  | None => (400%nat, "Invalid or expired verification token", s)
  | Some profile =>
      if p_is_verified profile then (200%nat, "Email already verified", s)
      else if default 0 (p_verification_expires profile) <? now then
        (400%nat, "Verification token has expired", s)
      else
        let s1 :=
          set_profiles
            (update_where (fun p => Nat.eqb (p_id p) (p_id profile)) with_email_verified
               (profiles s)) s in
        (200%nat, "Email verified successfully",
         createNotification (p_id profile) "system" "Email Verified!" (Some "/dashboard") s1)
  end.

(** *** Amount validation *)

(** At most two fractional digits. *)
Definition two_decimals (a : Q) : bool := (Qnum a * 100) mod Z.pos (Qden a) =? 0.

(** [validateAmount(value, {min, max})]: whether the result is valid.
    [value] is [None] for an absent or non-numeric input, [max] is [None]
    for no upper bound. *)
Definition validateAmount (value : option Q) (min : Q) (max : option Q) : bool :=
  match value with
  | None => false
  | Some amount =>
      if Qle_bool amount 0 then false
      else if negb (two_decimals amount) then false
      else if Qltb amount min then false
      else match max with Some m => negb (Qltb m amount) | None => true end
  end.

Definition is_digit (c : Ascii.ascii) : bool :=
  let n := Ascii.nat_of_ascii c in (48 <=? n)%nat && (n <=? 57)%nat.

(** [validateBankCode(code)]: three digits. *)
Definition validateBankCode (code : string) : bool :=
  Nat.eqb (String.length code) 3 && forallb is_digit (list_ascii_of_string code).

(** *** POST /api/wallet/initialize-payment *)

Definition deposit_fallback : settings_doc :=
  {[ "minDeposit" := jnum 100; "maxDeposit" := jnum 1000000 ]}.

(** The bounds the handler passes to [validateAmount]. *)
Definition deposit_bounds (s : db) : Q * Q :=
  let config := config_or deposit_fallback s in
  (js_or_default (config !! "minDeposit") 100, js_or_default (config !! "maxDeposit") 1000000).

(** The handler.  [link] is what the gateway answers to the checkout
    initialisation, [None] on its failure. *)
Definition post_initialize_payment (now : timestamp) (userId : uuid) (amount : option Q)
    (link : option string) (s : db) : nat * db :=
  let '(lo, hi) := deposit_bounds s in
  if negb (validateAmount amount lo (Some hi)) then (400%nat, s)
  else
    match link with
    | None => (500%nat, s)
    | Some _ =>
        let tx_ref := "LB_" ++ uuid_text userId ++ "_" ++ pretty now in
        match single (List.filter (fun w => Nat.eqb (w_user_id w) userId) (wallets s)),
              amount ≫= store_money with
        | Some wallet, Some stored =>
            let '(id, s1) := gen_random_uuid s in
            (200%nat,
             default s1
               (insert_transaction_checked (Some tx_ref)
                  (fun ref =>
                     {| tx_id := id;
                        tx_user_id := Some userId;
                        tx_wallet_id := Some (w_id wallet);
                        tx_type := "topup";
                        tx_amount := stored;
                        tx_fee := 0;
                        tx_status := "pending";
                        tx_reference := ref;
                        tx_external_reference := None;
                        tx_balance_before := Some (w_balance wallet);
                        tx_balance_after := None;
                        tx_completed_at := None;
                        tx_metadata_doc := MetaEmpty |}) s1))
        | _, _ => (200%nat, s)
        end
    end.

(** *** POST /api/wallet/withdraw *)

Definition withdraw_fallback : settings_doc :=
  {[ "minWithdrawal" := jnum 1000; "withdrawalFee" := jnum 100 ]}.

(** The minimum passed to [validateAmount] and the fee added to the
    amount. *)
Definition withdraw_bounds (s : db) : Q * Q :=
  let config := config_or withdraw_fallback s in
  (js_or_default (config !! "minWithdrawal") 1000, js_or_default (config !! "withdrawalFee") 0).

Record withdraw_request := mkWithdrawRequest {
  wq_amount : option Q;
  wq_bank_code : option string;
  wq_account_number : option string;
  wq_account_name : option string;
  wq_draw_id : option uuid
}.

(** The handler, for a caller the role middleware has let through.  Of the
    transaction row it inserts, the [metadata] document (bank details, fee,
    linked draw) is not kept, and of the request row the bank details and
    the linked draw. *)
Definition post_withdraw (now : timestamp) (userId : uuid) (isVendor : bool)
    (rq : withdraw_request) (s : db) : nat * db :=
  let '(lo, fee) := withdraw_bounds s in
  if negb (validateAmount (wq_amount rq) lo None) then (400%nat, s)
  else
    match wq_amount rq, js_or (wq_bank_code rq) None, js_or (wq_account_number rq) None,
          js_or (wq_account_name rq) None with
    | Some amount, Some bank_code, Some _, Some _ =>
        if negb (validateBankCode bank_code) then (400%nat, s)
        else
          match single (List.filter (fun w => Nat.eqb (w_user_id w) userId) (wallets s)) with
          | None => (404%nat, s)
          | Some wallet =>
              if w_is_locked wallet then (403%nat, s)
              else
                let currentBalance :=
                  numeric_of_money
                    (if isVendor then w_vendor_balance wallet else w_balance wallet) in
                let totalDebit := (amount + fee)%Q in
                if Qltb currentBalance totalDebit then (400%nat, s)
                else
                  let newBalance := (currentBalance - totalDebit)%Q in
                  match
                    (if isVendor then update_wallet_vendor_balance else update_wallet_balance)
                      (w_id wallet) newBalance s
                  with
                  | None => (500%nat, s)
                  | Some s1 =>
                      let '(id, s2) := gen_random_uuid s1 in
                      match
                        stored ← store_money (- amount);
                        stored_fee ← store_money fee;
                        insert_transaction_checked
                          (Some ("LB_WD_" ++ uuid_text userId ++ "_" ++ pretty now))
                          (fun ref =>
                             {| tx_id := id;
                                tx_user_id := Some userId;
                                tx_wallet_id := Some (w_id wallet);
                                tx_type := "withdrawal";
                                tx_amount := stored;
                                tx_fee := stored_fee;
                                tx_status := "pending";
                                tx_reference := ref;
                                tx_external_reference := None;
                                tx_balance_before := store_money currentBalance;
                                tx_balance_after := store_money newBalance;
                                tx_completed_at := None;
                                tx_metadata_doc := MetaEmpty |}) s2
                      with
                      | None => (500%nat, s2)
                      | Some s3 =>
                          let '(rid, s4) := gen_random_uuid s3 in
                          (200%nat,
                           match store_money amount with
                           | Some a =>
                               set_withdrawal_requests
                                 (withdrawal_requests s4 ++
                                    [mkWithdrawalRequest rid userId (Some id) a "pending"
                                       (Some (match wq_draw_id rq with
                                              | Some _ => "Linked to bundle delivery verification."
                                              | None => "General balance withdrawal."
                                              end))
                                       None]) s4
                           | None => s4
                           end)
                      end
                  end
          end
    | _, _, _, _ => (400%nat, s)
    end.

(** *** POST /api/admin/bundles/:id/approve *)

Definition approve_fallback : settings_doc :=
  {[ "minTicketsPerDraw" := jnum 10; "maxTicketsPerDraw" := jnum 10000;
     "minTicketPrice" := jnum 100; "maxTicketPrice" := jnum 50000 ]}.

(** The two range checks of the handler: [true] when both values are let
    through. *)
Definition approve_bounds_ok (total_tickets ticket_price : Q) (s : db) : bool :=
  let config := config_or approve_fallback s in
  negb (js_lt total_tickets (js_number (config !! "minTicketsPerDraw"))
        || js_gt total_tickets (js_number (config !! "maxTicketsPerDraw")))
  && negb (js_lt ticket_price (js_number (config !! "minTicketPrice"))
           || js_gt ticket_price (js_number (config !! "maxTicketPrice"))).






(** *** The two settings reads *)

(** GET /api/admin/settings. *)
Definition get_admin_settings (s : db) : settings_doc :=
  match platform_settings s with
  | Some doc => doc
  | None =>
      list_to_map
        [ ("platformFee", jnum 15); ("referralBonus", jnum 1000);
          ("referralPercentage", jnum 10); ("minTicketPrice", jnum 500);
          ("maxTicketPrice", jnum 5000); ("defaultTicketPrice", jnum 1000);
          ("maxTicketsPerDraw", jnum 1000); ("minTicketsPerDraw", jnum 10);
          ("autoDrawOnFull", JBool true); ("maxTicketsPerPurchase", jnum 50);
          ("minDeposit", jnum 1000); ("minWithdrawal", jnum 5000);
          ("withdrawalFee", jnum 100); ("minBundlePrice", jnum 50000);
          ("maxBundlePrice", jnum 500000) ]
  end.

(** GET /api/draws/config. *)
Definition get_draws_config (s : db) : settings_doc :=
  match platform_settings s with
  | Some doc => doc
  | None =>
      list_to_map
        [ ("platformFee", jnum 15); ("referralBonus", jnum 500);
          ("referralBonusReferee", jnum 500); ("referralPercentage", jnum 5);
          ("minTicketPrice", jnum 500); ("maxTicketPrice", jnum 5000);
          ("defaultTicketPrice", jnum 1000); ("maxTicketsPerDraw", jnum 1000);
          ("minTicketsPerDraw", jnum 10); ("autoDrawOnFull", JBool true);
          ("maxTicketsPerPurchase", jnum 50); ("minDeposit", jnum 1000);
          ("minWithdrawal", jnum 5000); ("withdrawalFee", jnum 100);
          ("minBundlePrice", jnum 50000); ("maxBundlePrice", jnum 500000) ]
  end.

(** ** Further facts about the store *)

(** Whether the sold count of every draw is the number of its ticket
    rows. *)
Definition sold_counted (s : db) : bool :=
  forallb
    (fun d => d_sold_tickets d =? Z.of_nat (List.length (draw_tickets_of (d_id d) s)))
    (draws s).

(** ** The ticket lists *)







(** ** Verification of the e-mail address *)

(** [req.userProfile]: the profile the authentication middleware attaches
    to the request of user [userId]. *)
Definition userProfile (userId : uuid) (s : db) : option profile :=
  single (List.filter (fun p => Nat.eqb (p_id p) userId) (profiles s)).

(** The verification middleware: it answers 404 without a profile, 403 for
    an unverified one, and hands over to [next] otherwise. *)
Definition requireVerification {A} (profile : option profile) (answer : nat -> A) (next : A)
    : A :=
  match profile with
  | None => answer 404%nat
  | Some p => if p_is_verified p then next else answer 403%nat
  end.

(** POST /api/tickets/buy and POST /api/wallet/initialize-payment as
    mounted: behind the two middlewares, for a request that carries the
    session of [userId]. *)
Definition route_tickets_buy (now : timestamp) (userId : uuid) (rq : buy_request) (s : db)
    : nat * db :=
  requireVerification (userProfile userId s) (fun status => (status, s))
    (post_tickets_buy now userId rq s).

Definition route_initialize_payment (now : timestamp) (userId : uuid) (amount : option Q)
    (link : option string) (s : db) : nat * db :=
  requireVerification (userProfile userId s) (fun status => (status, s))
    (post_initialize_payment now userId amount link s).

Definition with_verification (token : string) (expires : timestamp) (p : profile) : profile :=
  mkProfile (p_id p) (p_email p) (p_full_name p) (p_is_verified p) (p_referred_by p)
    (Some token) (Some expires).

(** POST /api/auth/resend-verification: status, message and store.  [token]
    is the text the random generator gives; time is counted in
    milliseconds.  The mail is sent by a service that reports a failure
    instead of throwing, so the answer does not depend on it. *)
Definition post_resend_verification (now : timestamp) (userId : uuid) (token : string) (s : db)
    : nat * string * db :=
  match single (List.filter (fun p => Nat.eqb (p_id p) userId) (profiles s)) with
  | None => (404%nat, "Profile not found", s)
  | Some profile =>
      if p_is_verified profile then (200%nat, "Email already verified", s)
      else
        (200%nat, "Verification email resent",
         set_profiles
           (update_where (fun p => Nat.eqb (p_id p) userId)
              (with_verification token (now + 24 * 60 * 60 * 1000)) (profiles s)) s)
  end.

(** ** POST /api/admin/users/:id/toggle-status *)

Definition with_is_verified (b : bool) (p : profile) : profile :=
  mkProfile (p_id p) (p_email p) (p_full_name p) b (p_referred_by p) (p_verification_token p)
    (p_verification_expires p).

Definition with_is_locked (b : bool) (w : wallet) : wallet :=
  mkWallet (w_id w) (w_user_id w) (w_balance w) (w_vendor_balance w) b.

(** The handler, for an administrator and a well-formed user id; [action]
    is [None] when the body has none. *)
Definition post_toggle_status (id : uuid) (action : option string) (s : db) : nat * db :=
  let on (name : string) := bool_decide (action = Some name) in
  if negb (on "verify" || on "unverify" || on "lock_wallet" || on "unlock_wallet")
  then (400%nat, s)
  else
    let s1 :=
      if on "verify" || on "unverify" then
        set_profiles
          (update_where (fun p => Nat.eqb (p_id p) id) (with_is_verified (on "verify"))
             (profiles s)) s
      else s in
    let s2 :=
      if on "lock_wallet" || on "unlock_wallet" then
        set_wallets
          (update_where (fun w => Nat.eqb (w_user_id w) id) (with_is_locked (on "lock_wallet"))
             (wallets s1)) s1
      else s1 in
    (200%nat, s2).

(** Whether no draw has sold more tickets than it has. *)
Definition within_capacity (s : db) : bool :=
  forallb (fun d => d_sold_tickets d <=? d_total_tickets d) (draws s).

(** ** The referral record of a registration *)

(** [processReferralBonus(userId, referrerId, wallet, referredBonus)]: the
    balance it returns and the store it leaves.  The INSERT is refused
    under UNIQUE(referred_id) and when the bonus does not fit the column;
    either way the function logs and returns. *)
Definition processReferralBonus (userId referrerId : uuid) (wallet : wallet) (referredBonus : Q)
    (s : db) : money * db :=
  match single (List.filter (fun r => Nat.eqb (r_referred_id r) userId) (referrals s)) with
  | Some _ => (w_balance wallet, s)
  | None =>
      if existsb (fun r => Nat.eqb (r_referred_id r) userId) (referrals s)
      then (w_balance wallet, s)
      else
        match store_money referredBonus with
        | None => (w_balance wallet, s)
        | Some bonus =>
            (w_balance wallet,
             createNotification referrerId "referral" "New Referral!" (Some "/referrals")
               (set_referrals
                  (referrals s
                   ++ [mkReferral referrerId userId "pending" (Some 0) (Some bonus) None]) s))
        end
  end.

(** ** Sample stores *)

(** The stores the statements below are run on.  Users: 2 is a vendor, 3 and
    5 are buyers, 4 has referred 3.  Amounts are in hundredths. *)

Definition sample_profile (id : uuid) (referred_by : option uuid) : profile :=
  mkProfile id ("user" ++ uuid_text id ++ "@example.com") None true referred_by None None.

(** The four users; [referrer] is who referred buyer 3. *)
Definition sample_profiles (referrer : option uuid) : list profile :=
  [ sample_profile 2 None; sample_profile 3 referrer; sample_profile 4 None;
    sample_profile 5 None ].

Definition sample_wallets : list wallet :=
  [ mkWallet 10%nat 3%nat 500000 0 false;
    mkWallet 11%nat 2%nat 0 0 false;
    mkWallet 12%nat 4%nat 0 0 false;
    mkWallet 13%nat 5%nat 100000 0 false ].

Definition sample_draw (id : uuid) (price total sold : Z) (draw_type : string) : draw :=
  mkDraw id (Some 2%nat) "Bundle" price total sold draw_type "active" (Some 5) None None None.

Definition sample_ticket (id draw user : uuid) (number : string) : ticket :=
  mkTicket id draw user number None false 1 None.

(** A timer draw of ten tickets at 500.01 with three sold, and one with
    none sold; no settings row. *)
Definition shop : db :=
  mkDb
    (sample_profiles None) sample_wallets [] None
    [sample_draw 1 50001 10 3 "timer"; sample_draw 2 50001 10 0 "timer"]
    [ sample_ticket 20 1 3 "LB-100001"; sample_ticket 21 1 5 "LB-100002";
      sample_ticket 22 1 3 "LB-100003" ]
    [] [] [] [] 100004 100%nat.



(** A timer draw at 500.01 with its one ticket sold; no settings row. *)
Definition odd_price_shop : db :=
  mkDb
    (sample_profiles None) sample_wallets [] None
    [sample_draw 1 50001 10 1 "timer"]
    [sample_ticket 20 1 3 "LB-100001"]
    [] [] [] [] 100002 100%nat.

(** A vendor's approved withdrawal of 1000.00 awaiting the gateway, and a
    buyer's wallet holding 1000.00. *)
Definition payout_desk : db :=
  mkDb
    (sample_profiles None)
    [ mkWallet 10%nat 3%nat 100000 0 false; mkWallet 11%nat 2%nat 0 0 false;
      mkWallet 12%nat 4%nat 0 0 false; mkWallet 13%nat 5%nat 100000 0 false ]
    [ mkTransaction 50%nat (Some 2%nat) (Some 11%nat) "withdrawal" (-100000) 10000 "pending"
        "LB_WD_1" None None None None MetaEmpty ]
    None [] [] [] [] []
    [mkWithdrawalRequest 60%nat 2%nat (Some 50%nat) 100000 "approved" None None]
    100001 100%nat.

(** The gateway's event for the transfer of that withdrawal. *)
Definition transfer_payload : payload :=
  mkPayload (Some "777") None None (Some 1000%Q) (Some "SUCCESSFUL") None None
    (Some "LB_WD_1") None None None.

Definition transfer_event (event : string) : webhook_body :=
  mkWebhookBody (Some event) None (Some transfer_payload) transfer_payload.

Definition gateway : gateway_env := mkGatewayEnv (Some "secret") false None.

(** A stand-in for the digest, to run the procedures with: the text
    itself. *)
Definition text_digest (x : string) : string := x.






(** A newcomer, user 6, not yet verified, whose link of registration runs
    until time 100, next to the four users. *)
Definition newcomer : profile :=
  mkProfile 6 "user6@example.com" (Some "Ada Obi") false None (Some "t0") (Some 100).

Definition signup_desk : db :=
  mkDb
    (sample_profiles None ++ [newcomer]) sample_wallets [] None
    [] [] [] [] [] [] 100001 100%nat.

(** A charge of 500.00 under the reference of a deposit user 3 asks for at
    time 9, as the gateway reports and confirms it. *)
Definition small_charge : payload :=
  mkPayload (Some "889") (Some "LB_3_9") None (Some 500%Q) (Some "successful")
    None None None None None (Some 3%nat).

Definition confirming_gateway : gateway_env :=
  mkGatewayEnv (Some "secret") false (Some small_charge).





(** * Properties *)

(** ** Tables under UPDATE *)

Lemma update_where_length {A} (cond : A -> bool) (f : A -> A) (rows : list A) :
  List.length (update_where cond f rows) = List.length rows.
Proof. unfold update_where. apply List.length_map. Qed.

Lemma update_where_map {A B} (g : A -> B) (cond : A -> bool) (f : A -> A) (rows : list A) :
  (forall r, g (f r) = g r) ->
  List.map g (update_where cond f rows) = List.map g rows.
Proof.
  intros Hg. unfold update_where. rewrite List.map_map.
  apply List.map_ext. intros r. destruct (cond r); auto.
Qed.


Lemma update_where_In_inv {A} (cond : A -> bool) (f : A -> A) (rows : list A) (r' : A) :
  In r' (update_where cond f rows) ->
  exists r, In r rows /\ r' = if cond r then f r else r.
Proof.
  unfold update_where. rewrite List.in_map_iff. intros (r & Hr & Hin). exists r. auto.
Qed.

(** A lookup by a key that the update keeps finds the updated row. *)
Lemma find_update_where {A} (key : A -> bool) (cond : A -> bool) (f : A -> A) (rows : list A) :
  (forall r, key (f r) = key r) ->
  List.find key (update_where cond f rows)
  = (fun r => if cond r then f r else r) <$> List.find key rows.
Proof.
  intros Hk. induction rows as [|r rows IH]; simpl; [reflexivity|].
  assert (Hr : key (if cond r then f r else r) = key r) by (destruct (cond r); auto).
  rewrite Hr. destruct (key r); [reflexivity | exact IH].
Qed.

Lemma find_some_In {A} (key : A -> bool) (rows : list A) (r : A) :
  List.find key rows = Some r -> In r rows /\ key r = true.
Proof. apply List.find_some. Qed.

(** ** Winner selection *)

Lemma first_by_md5_In seed ts w : first_by_md5 seed ts = Some w -> In w ts.
Proof.
  revert w. induction ts as [|t ts IH]; simpl; intros w H; [discriminate|].
  destruct (first_by_md5 seed ts) as [u|].
  - destruct (String.leb _ _); inversion H; subst; auto.
  - inversion H; auto.
Qed.

Lemma first_by_md5_nonempty seed ts : ts <> [] -> exists w, first_by_md5 seed ts = Some w.
Proof.
  destruct ts as [|t ts]; [congruence|]. intros _. simpl.
  destruct (first_by_md5 seed ts); [destruct (String.leb _ _)|]; eauto.
Qed.

(** ** The vendor credit *)

(** What the credit block leaves: nothing when the vendor has no wallet,
    otherwise the wallet at the stored new balance and one more
    transaction. *)
Lemma credit_vendor_inv now v_draw percent s s2 :
  credit_vendor now v_draw percent s = Some s2 ->
  match d_vendor_id v_draw ≫= fun v => find_wallet_of v s with
  | None => s2 = s
  | Some vw =>
      exists nb amount,
        store_money (numeric_of_money (w_vendor_balance vw) + vendor_payout_of percent v_draw)
        = Some nb /\
        0 <= nb /\
        store_money (vendor_payout_of percent v_draw) = Some amount /\
        s2 = insert_transaction
               (payout_transaction_of now v_draw percent vw (uuid_supply s)
                  (S (uuid_supply s)) amount)
               (set_uuid_supply (S (S (uuid_supply s)))
                  (set_wallets
                     (update_where (fun w => Nat.eqb (w_id w) (w_id vw))
                        (with_vendor_balance nb) (wallets s)) s))
  end.
Proof.
  unfold credit_vendor.
  destruct (d_vendor_id v_draw ≫= _) as [vw|]; [|intros H; congruence].
  unfold update_wallet_vendor_balance.
  destruct (store_money (numeric_of_money _ + _)) as [nb|] eqn:Enb; simpl; [|discriminate].
  destruct (nb <? 0) eqn:Eneg; simpl; [discriminate|].
  destruct (store_money (vendor_payout_of percent v_draw)) as [amount|] eqn:Eam; simpl;
    [|discriminate].
  intros H. injection H as <-. exists nb, amount.
  apply Z.ltb_ge in Eneg. repeat split; auto.
Qed.

Lemma credit_vendor_frame now v_draw percent s s2 :
  credit_vendor now v_draw percent s = Some s2 ->
  draws s2 = draws s /\ tickets s2 = tickets s /\ referrals s2 = referrals s /\
  profiles s2 = profiles s /\ notifications s2 = notifications s /\
  withdrawal_requests s2 = withdrawal_requests s /\
  platform_settings s2 = platform_settings s /\
  draw_audit_log s2 = draw_audit_log s /\
  List.map w_balance (wallets s2) = List.map w_balance (wallets s) /\
  List.map w_id (wallets s2) = List.map w_id (wallets s) /\
  List.map w_user_id (wallets s2) = List.map w_user_id (wallets s).
Proof.
  intros H. apply credit_vendor_inv in H.
  destruct (d_vendor_id v_draw ≫= _) as [vw|].
  - destruct H as (nb & amount & _ & _ & _ & ->). simpl.
    repeat split; auto; apply update_where_map; reflexivity.
  - subst. repeat split; auto.
Qed.

(** ** Inversion of a completed execution *)

Lemma execute_draw_done_inv now id s r s' :
  execute_draw now id s = Returned r s' -> exec_success r = true ->
  exists v_draw w s2,
    find_draw id s = Some v_draw /\
    String.eqb (d_status v_draw) "completed" = false /\
    String.eqb (d_status v_draw) "cancelled" = false /\
    d_sold_tickets v_draw <> 0 /\
    first_by_md5 (uuid_supply s) (draw_tickets_of id s) = Some w /\
    credit_vendor now v_draw (platform_fee_percent s) (set_uuid_supply (S (uuid_supply s)) s)
    = Some s2 /\
    r = ExecDone (t_user_id w) (t_id w) (t_ticket_number w) (d_sold_tickets v_draw)
          (count_distinct (List.map t_user_id (draw_tickets_of id s))) (uuid_supply s)
          (total_revenue_of v_draw) (platform_fee_of (platform_fee_percent s) v_draw)
          (vendor_payout_of (platform_fee_percent s) v_draw) /\
    s' = insert_audit
           (winner_audit id v_draw w (uuid_supply s)
              (count_distinct (List.map t_user_id (draw_tickets_of id s))))
           (insert_audit
              (executed_audit now id v_draw (platform_fee_percent s) (uuid_supply s)
                 (count_distinct (List.map t_user_id (draw_tickets_of id s)))
                 (List.map t_id (order_by_created_at (draw_tickets_of id s))))
              (set_draws
                 (update_where (fun d => Nat.eqb (d_id d) id)
                    (with_completion (t_user_id w) (t_id w) now) (draws s2))
                 (set_tickets
                    (update_where (fun t => Nat.eqb (t_id t) (t_id w)) with_is_winner
                       (tickets s2)) s2))).
Proof.
  unfold execute_draw. intros H Hr.
  destruct (find_draw id s) as [v_draw|]; [|inversion H; subst; discriminate].
  destruct (String.eqb (d_status v_draw) "completed") eqn:E1; [inversion H; subst; discriminate|].
  destruct (String.eqb (d_status v_draw) "cancelled") eqn:E2; [inversion H; subst; discriminate|].
  destruct (d_sold_tickets v_draw =? 0) eqn:E3; [inversion H; subst; discriminate|].
  cbn [gen_random_uuid] in H. cbv zeta in H.
  change (draw_tickets_of id (set_uuid_supply (S (uuid_supply s)) s))
    with (draw_tickets_of id s) in H.
  change (platform_fee_percent (set_uuid_supply (S (uuid_supply s)) s))
    with (platform_fee_percent s) in H.
  destruct (first_by_md5 (uuid_supply s) (draw_tickets_of id s)) as [w|] eqn:Ew;
    [|inversion H; subst; discriminate].
  destruct (credit_vendor now v_draw (platform_fee_percent s) _) as [s2|] eqn:Ec;
    [|discriminate].
  inversion H; subst. clear H.
  apply Z.eqb_neq in E3.
  exists v_draw, w, s2. repeat split; auto.
Qed.

(** ** The winner of a completed draw *)

Lemma distinct_cons_notin (i : uuid) (rest : list uuid) :
  distinct (i :: rest) = true -> ~ In i rest /\ distinct rest = true.
Proof.
  simpl. rewrite andb_true_iff, negb_true_iff. intros [Hn Hd]. split; [|exact Hd].
  intros Hin. assert (existsb (Nat.eqb i) rest = true); [|congruence].
  apply existsb_exists. exists i. split; [exact Hin | apply Nat.eqb_refl].
Qed.




Lemma consistent_inv s :
  consistent s = true ->
  distinct (List.map t_id (tickets s)) = true /\
  (forall t, In t (tickets s) -> (t_id t < uuid_supply s)%nat) /\
  (forall t, In t (tickets s) -> t_is_winner t = true ->
             draw_completed (t_draw_id t) s = true) /\
  distinct (List.map w_id (wallets s)) = true /\
  (forall t, In t (transactions s) -> (tx_id t < uuid_supply s)%nat).
Proof.
  unfold consistent. rewrite !andb_true_iff, !forallb_forall.
  intros [[[[Hd Hf] Hw] Hwd] Htx]. repeat split; auto.
  - intros t Ht. apply Nat.ltb_lt. auto.
  - intros t Ht Hflag. specialize (Hw t Ht). rewrite Hflag in Hw. exact Hw.
  - intros t Ht. apply Nat.ltb_lt. auto.
Qed.


(** ** Payout conservation *)

Lemma find_wallet_after_vendor_credit (v : uuid) (vw : wallet) (nb : money) (ws : list wallet) :
  List.find (fun w => Nat.eqb (w_user_id w) v) ws = Some vw ->
  List.find (fun w => Nat.eqb (w_user_id w) v)
    (update_where (fun w => Nat.eqb (w_id w) (w_id vw)) (with_vendor_balance nb) ws)
  = Some (with_vendor_balance nb vw).
Proof.
  intros H. rewrite find_update_where by reflexivity. rewrite H. simpl.
  rewrite Nat.eqb_refl. reflexivity.
Qed.

(** C2, as the code has it.  For an execution that completes a draw, the
    fee and the payout it records (in the answer, in the [draw_executed]
    audit row and in the payout transaction) add up to the revenue
    [sold_tickets * ticket_price] exactly, the fee being the revenue times
    the percentage in effect: [platformFee] of the settings row, 15 when
    the row or key is missing or the value is not a number.  The vendor's
    wallet, when there is one, ends at the previous [vendor_balance] plus
    the payout brought to the two decimals of the column; without a wallet
    nothing is credited. *)
Theorem execute_draw_payout_conservation now id s d winner wt num tot parts seed rev fee payout s' :
  find_draw id s = Some d ->
  execute_draw now id s = Returned (ExecDone winner wt num tot parts seed rev fee payout) s' ->
  let percent :=
    match platform_settings s ≫= fun doc => doc !! "platformFee" with
    | Some (JNum p) => decimal_value p
    | _ => 15%Q
    end in
  (rev == inject_Z (d_sold_tickets d) * numeric_of_money (d_ticket_price d))%Q /\
  (fee == rev * (percent / 100))%Q /\
  (fee + payout == rev)%Q /\
  (exists ids,
      In (mkAudit id "draw_executed" None
            (DetailsExecuted (d_sold_tickets d) parts seed ids now rev fee percent payout))
         (draw_audit_log s')) /\
  match d_vendor_id d ≫= fun v => find_wallet_of v s with
  | Some vw =>
      exists vw' amount txid ref,
        (d_vendor_id d ≫= fun v => find_wallet_of v s') = Some vw' /\
        store_money (numeric_of_money (w_vendor_balance vw) + payout)
        = Some (w_vendor_balance vw') /\
        w_balance vw' = w_balance vw /\
        store_money payout = Some amount /\
        transactions s'
        = (transactions s ++ [payout_transaction_of now d percent vw txid ref amount])%list
  | None => wallets s' = wallets s /\ transactions s' = transactions s
  end.
Proof.
  intros Hd H percent.
  destruct (execute_draw_done_inv _ _ _ _ _ H eq_refl)
    as (v_draw & w & s2 & Hfind & _ & _ & _ & _ & Hcv & Hr & ->).
  rewrite Hd in Hfind. injection Hfind as <-.
  assert (Hp : platform_fee_percent s = percent).
  { unfold platform_fee_percent, percent, sql_decimal_of.
    destruct (platform_settings s) as [doc|]; simpl; [|reflexivity].
    destruct (doc !! "platformFee") as [[p|b]|]; reflexivity. }
  rewrite Hp in *. injection Hr as -> -> -> -> -> -> -> -> ->.
  split; [reflexivity|]. split; [reflexivity|].
  split; [unfold vendor_payout_of; ring|].
  split.
  { eexists. simpl. apply List.in_or_app. left. apply List.in_or_app. right.
    left. reflexivity. }
  apply credit_vendor_inv in Hcv.
  change (find_wallet_of ?v (set_uuid_supply ?n s)) with (find_wallet_of v s) in Hcv.
  destruct (d_vendor_id d) as [v|] eqn:Ev; simpl in *.
  - destruct (find_wallet_of v s) as [vw|] eqn:Evw.
    + destruct Hcv as (nb & amount & Hnb & _ & Ham & ->).
      exists (with_vendor_balance nb vw), amount, (S (uuid_supply s)), (S (S (uuid_supply s))).
      repeat split; auto.
      unfold find_wallet_of in *. simpl.
      apply find_wallet_after_vendor_credit. exact Evw.
    + subst s2. simpl. auto.
  - subst s2. simpl. auto.
Qed.

(** ** The purchase, statement by statement *)

Lemma ticket_number_taken_used (id : uuid) (v : string) (s : db) :
  ticket_number_taken id v s
  = existsb (String.eqb v)
      (List.map t_ticket_number (List.filter (fun t => Nat.eqb (t_draw_id t) id) (tickets s))).
Proof.
  unfold ticket_number_taken. induction (tickets s) as [|t l IH]; [reflexivity|].
  simpl. destruct (Nat.eqb (t_draw_id t) id); simpl; rewrite IH; reflexivity.
Qed.

Lemma upcoming_ticket_numbers_S (n : nat) (s s3 : db) :
  ticket_number_seq s3 = ticket_number_seq s + 1 ->
  upcoming_ticket_numbers (S n) s
  = format_ticket_number (ticket_number_seq s) :: upcoming_ticket_numbers n s3.
Proof.
  intros H. unfold upcoming_ticket_numbers. cbn [List.seq List.map].
  rewrite Z.add_0_r. f_equal.
  rewrite <- List.seq_shift, List.map_map. apply List.map_ext.
  intros k. rewrite H. f_equal. lia.
Qed.

Lemma ticket_number_taken_ext (id : uuid) (v : string) (s s' : db) :
  tickets s = tickets s' -> ticket_number_taken id v s = ticket_number_taken id v s'.
Proof.
  unfold ticket_number_taken. intros ->. reflexivity.
Qed.

(** The loop gets through exactly when the upcoming numbers are free. *)
Lemma issue_tickets_free n now u id txid :
  forall acc s,
    ticket_numbers_free id n s = bool_decide (is_Some (issue_tickets n now u id txid acc s)).
Proof.
  induction n as [|n IH]; intros acc s.
  - reflexivity.
  - cbn [issue_tickets gen_random_uuid nextval_ticket_number_seq]. cbv zeta.
    match goal with
    | |- context [if ticket_number_taken id ?v ?s2 then _ else _] =>
        rewrite (ticket_number_taken_ext id v s2 s eq_refl);
        change v with (format_ticket_number (ticket_number_seq s))
    end.
    match goal with
    | |- context [issue_tickets n now u id txid ?acc' ?s3] =>
        unfold ticket_numbers_free at 1;
        rewrite (upcoming_ticket_numbers_S n s s3) by reflexivity;
        specialize (IH acc' s3)
    end.
    cbn [numbers_free]. rewrite <- ticket_number_taken_used.
    destruct (ticket_number_taken id (format_ticket_number (ticket_number_seq s)) s);
      [reflexivity|].
    simpl negb. rewrite andb_true_l. rewrite <- IH.
    unfold ticket_numbers_free. f_equal.
    cbn [tickets set_tickets set_ticket_number_seq set_uuid_supply].
    rewrite List.filter_app, List.map_app. cbn [List.filter t_draw_id].
    rewrite Nat.eqb_refl. reflexivity.
Qed.

Lemma issue_tickets_spec n now u id txid :
  forall acc s refs s',
    issue_tickets n now u id txid acc s = Some (refs, s') ->
    exists new,
      refs = (acc ++ List.map ticket_ref_of new)%list /\
      tickets s' = (tickets s ++ new)%list /\
      List.length new = n /\
      Forall (fun t => t_draw_id t = id /\ t_user_id t = u /\ t_transaction_id t = Some txid /\
                       t_is_winner t = false /\ t_slot_index t = None /\
                       (uuid_supply s <= t_id t < uuid_supply s + n)%nat) new /\
      List.map t_id new = List.seq (uuid_supply s) n /\
      uuid_supply s' = (uuid_supply s + n)%nat /\
      untouched s' = untouched s /\
      wallets s' = wallets s /\
      transactions s' = transactions s /\
      draws s' = draws s /\
      referrals s' = referrals s /\
      draw_audit_log s' = draw_audit_log s.
Proof.
  induction n as [|n IH]; intros acc s refs s' H.
  - injection H as <- <-. exists []. simpl. rewrite !List.app_nil_r, Nat.add_0_r.
    repeat split; auto.
  - cbn [issue_tickets gen_random_uuid nextval_ticket_number_seq] in H. cbv zeta in H.
    destruct (ticket_number_taken _ _ _); [discriminate|].
    destruct (IH _ _ _ _ H)
      as (new & Hf & Ht & Hl & Hall & Hids & Hs & Hu & Hw & Htx & Hd & Hr & Ha).
    exists (mkTicket (uuid_supply s) id u (format_ticket_number (ticket_number_seq s))
              (Some txid) false now None :: new).
    rewrite Hf, Ht, Hs, Hu, Hw, Htx, Hd, Hr, Ha.
    simpl in Hall, Hids. simpl. rewrite <- !List.app_assoc. simpl.
    repeat split; auto; try lia.
    + constructor.
      * simpl. repeat split; auto; lia.
      * eapply List.Forall_impl; [|exact Hall]. simpl. intros t Ht'. intuition lia.
    + f_equal. exact Hids.
Qed.

(** The purchase is recorded exactly when the debit leaves no negative
    balance and the upcoming ticket numbers are free. *)
Lemma record_purchase_recorded now u id q d w s :
  bool_decide (is_Some (record_purchase now u id q d w s))
  = negb (w_balance w - d_ticket_price d * q <? 0)
    && ticket_numbers_free id (Z.to_nat q) s.
Proof.
  unfold record_purchase.
  destruct (w_balance w - d_ticket_price d * q <? 0); [reflexivity|].
  cbn [gen_random_uuid]. cbv zeta.
  match goal with
  | |- context [issue_tickets ?n now u id ?txid [] ?s4] =>
      change (ticket_numbers_free id (Z.to_nat q) s) with (ticket_numbers_free id n s4);
      rewrite (issue_tickets_free n now u id txid [] s4);
      destruct (issue_tickets n now u id txid [] s4) as [[v_tickets s5]|]
  end; reflexivity.
Qed.

Lemma record_purchase_spec now u id q d w s r :
  record_purchase now u id q d w s = Some r ->
  exists refs s7 new,
    record_purchase now u id q d w s = Some (uuid_supply s, refs, s7) /\
    refs = List.map ticket_ref_of new /\
    tickets s7 = (tickets s ++ new)%list /\
    List.length new = Z.to_nat q /\
    Forall (fun t => t_draw_id t = id /\ t_user_id t = u /\
                     t_transaction_id t = Some (uuid_supply s) /\
                     t_is_winner t = false /\ t_slot_index t = None /\
                     (S (S (uuid_supply s)) <= t_id t < uuid_supply s7)%nat) new /\
    List.map t_id new = List.seq (S (S (uuid_supply s))) (Z.to_nat q) /\
    uuid_supply s7 = (S (S (uuid_supply s)) + Z.to_nat q)%nat /\
    wallets s7
    = update_where (fun x => Nat.eqb (w_id x) (w_id w))
        (with_balance (w_balance w - d_ticket_price d * q)) (wallets s) /\
    transactions s7
    = (transactions s
       ++ [purchase_transaction_of now u id q d w (uuid_supply s) (S (uuid_supply s))])%list /\
    draws s7
    = update_where (fun x => Nat.eqb (d_id x) id) (with_sold_tickets (d_sold_tickets d + q))
        (draws s) /\
    referrals s7 = referrals s /\
    untouched s7 = untouched s.
Proof.
  unfold record_purchase.
  destruct (w_balance w - d_ticket_price d * q <? 0) eqn:E; [discriminate|].
  cbn [gen_random_uuid]. cbv zeta.
  match goal with
  | |- context [issue_tickets ?n now u id ?txid [] ?s4] =>
      destruct (issue_tickets n now u id txid [] s4) as [[v_tickets s5]|] eqn:Ei;
      [|discriminate];
      destruct (issue_tickets_spec n now u id txid [] s4 _ _ Ei)
        as (new & Hf & Ht & Hl & Hall & Hids & Hs & Hu & Hw & Htx & Hd & Hr & Ha)
  end.
  intros _. cbn [fst snd] in *.
  eexists _, _, new. split; [reflexivity|].
  cbn [tickets draws wallets transactions referrals uuid_supply untouched profiles
       platform_settings notifications withdrawal_requests insert_audit set_draw_audit_log
       set_draws].
  unfold untouched in Hu.
  rewrite Ht, Hs, Hw, Htx, Hd, Hr. simpl in *.
  repeat split; auto; congruence.
Qed.

(** ** What an execution leaves alone *)

Lemma execute_draw_rejected_inv now id s r s' :
  execute_draw now id s = Returned r s' -> exec_success r = false ->
  s' = s \/ s' = set_uuid_supply (S (uuid_supply s)) s.
Proof.
  unfold execute_draw. intros H Hr.
  destruct (find_draw id s) as [v_draw|]; [|inversion H; auto].
  destruct (String.eqb (d_status v_draw) "completed"); [inversion H; auto|].
  destruct (String.eqb (d_status v_draw) "cancelled"); [inversion H; auto|].
  destruct (d_sold_tickets v_draw =? 0); [inversion H; auto|].
  cbn [gen_random_uuid] in H. cbv zeta in H.
  destruct (first_by_md5 _ _); [|inversion H; auto].
  destruct (credit_vendor _ _ _ _); [|discriminate].
  inversion H; subst. discriminate.
Qed.

Lemma balance_of_update_vendor (wid vid : uuid) (nb : money) (s : db) (ws : list wallet) :
  w_balance <$> List.find (fun w => Nat.eqb (w_id w) wid)
                  (update_where (fun w => Nat.eqb (w_id w) vid) (with_vendor_balance nb) ws)
  = w_balance <$> List.find (fun w => Nat.eqb (w_id w) wid) ws.
Proof.
  rewrite find_update_where by reflexivity.
  destruct (List.find _ ws) as [w|]; simpl; [|reflexivity].
  destruct (Nat.eqb (w_id w) vid); reflexivity.
Qed.

Lemma filter_app_singleton_false {A} (f : A -> bool) (l : list A) (x : A) :
  f x = false -> List.filter f (l ++ [x]) = List.filter f l.
Proof. intros H. rewrite List.filter_app. simpl. rewrite H. apply List.app_nil_r. Qed.

Lemma execute_draw_frame now id s r s' :
  execute_draw now id s = Returned r s' ->
  List.map ticket_core (tickets s') = List.map ticket_core (tickets s) /\
  referrals s' = referrals s /\
  untouched s' = untouched s /\
  (forall wid, balance_of wid s' = balance_of wid s) /\
  List.map w_id (wallets s') = List.map w_id (wallets s) /\
  bonus_transactions s' = bonus_transactions s /\
  (forall id', d_sold_tickets <$> find_draw id' s' = d_sold_tickets <$> find_draw id' s) /\
  (uuid_supply s <= uuid_supply s')%nat.
Proof.
  intros H. destruct (exec_success r) eqn:Hr.
  - destruct (execute_draw_done_inv _ _ _ _ _ H Hr)
      as (v_draw & w & s2 & _ & _ & _ & _ & _ & Hcv & _ & ->).
    pose proof (credit_vendor_frame _ _ _ _ _ Hcv)
      as (Hd & Ht & Hrf & Hp & Hn & Hwr & Hps & Ha & Hb & Hid & Hu).
    apply credit_vendor_inv in Hcv.
    change (find_wallet_of ?v (set_uuid_supply ?n s)) with (find_wallet_of v s) in Hcv.
    unfold untouched, balance_of, bonus_transactions, find_draw. simpl in *.
    rewrite Ht, Hrf, Hp, Hn, Hwr, Hps, Hd.
    split; [apply update_where_map; reflexivity|].
    split; [reflexivity|]. split; [reflexivity|].
    assert (Hrest :
      (forall wid, w_balance <$> List.find (fun w => Nat.eqb (w_id w) wid) (wallets s2)
                   = w_balance <$> List.find (fun w => Nat.eqb (w_id w) wid) (wallets s)) /\
      List.filter (fun t => String.eqb (tx_type t) "bonus") (transactions s2)
      = List.filter (fun t => String.eqb (tx_type t) "bonus") (transactions s) /\
      (uuid_supply s <= uuid_supply s2)%nat).
    { destruct (d_vendor_id v_draw ≫= _) as [vw|].
      - destruct Hcv as (nb & amount & _ & _ & _ & ->). simpl.
        split; [intros wid; apply balance_of_update_vendor; exact s|].
        split; [apply filter_app_singleton_false; reflexivity | lia].
      - subst s2. simpl. auto. }
    destruct Hrest as (Hbal & Hbonus & Hsup).
    repeat split; auto.
    intros id'. rewrite find_update_where by reflexivity.
    destruct (List.find _ (draws s)) as [d0|]; simpl; [|reflexivity].
    destruct (Nat.eqb (d_id d0) id); reflexivity.
  - destruct (execute_draw_rejected_inv _ _ _ _ _ H Hr) as [-> | ->];
      repeat split; auto; simpl; lia.
Qed.

(** ** Rounding to the column scale *)

Lemma round_half_away_lower (q : Q) (c : Z) : (inject_Z c <= q)%Q -> c <= round_half_away q.
Proof.
  destruct q as [n d]. unfold Qle, round_half_away. simpl. intros H.
  assert (Hd : 0 < Z.pos d) by lia.
  destruct (Z.lt_trichotomy n 0) as [Hn | [Hn | Hn]].
  - rewrite Z.sgn_neg, Z.abs_neq by lia.
    assert (Hx : (2 * - n + Z.pos d) / (2 * Z.pos d) < - c + 1).
    { apply Z.div_lt_upper_bound; nia. }
    lia.
  - subst n. simpl. nia.
  - rewrite Z.sgn_pos, Z.abs_eq by lia.
    assert (Hx : c <= (2 * n + Z.pos d) / (2 * Z.pos d)).
    { apply Z.div_le_lower_bound; nia. }
    lia.
Qed.

(** A positive amount added to a stored balance never stores less. *)
Lemma store_money_lower (c : money) (b : Q) (nb : money) :
  store_money (numeric_of_money c + b) = Some nb -> 0 < Qnum b -> c <= nb.
Proof.
  unfold store_money. intros H Hb.
  destruct (Z.abs _ <? 10 ^ 15); [|discriminate]. injection H as <-.
  apply round_half_away_lower.
  destruct b as [n d]. unfold Qle, numeric_of_money. simpl in *. nia.
Qed.


(** ** The referral branch, statement by statement *)

Lemma credit_bonus_inv now user wid prefix meta bonus s s1 :
  credit_bonus now user wid prefix meta bonus s = Some s1 ->
  exists w nb amount,
    List.find (fun w => Nat.eqb (w_id w) wid) (wallets s) = Some w /\
    store_money (numeric_of_money (w_balance w) + bonus) = Some nb /\
    0 <= nb /\
    store_money bonus = Some amount /\
    s1 = insert_transaction
           (bonus_transaction (uuid_supply s) (S (uuid_supply s)) now user wid prefix amount
              meta)
           (set_uuid_supply (S (S (uuid_supply s)))
              (set_wallets
                 (update_where (fun w => Nat.eqb (w_id w) wid) (with_balance nb) (wallets s))
                 s)).
Proof.
  unfold credit_bonus.
  destruct (List.find _ (wallets s)) as [w|]; [|discriminate].
  unfold update_wallet_balance.
  destruct (store_money (numeric_of_money _ + _)) as [nb|] eqn:Enb; simpl; [|discriminate].
  destruct (nb <? 0) eqn:Eneg; simpl; [discriminate|].
  destruct (store_money bonus) as [amount|] eqn:Eam; simpl; [|discriminate].
  intros H. injection H as <-. exists w, nb, amount.
  apply Z.ltb_ge in Eneg. repeat split; auto.
Qed.

Lemma balance_of_update_balance (wid wid' : uuid) (nb : money) (ws : list wallet) :
  w_balance <$> List.find (fun w => Nat.eqb (w_id w) wid')
                  (update_where (fun w => Nat.eqb (w_id w) wid) (with_balance nb) ws)
  = if Nat.eqb wid' wid
    then (fun _ => nb) <$> List.find (fun w => Nat.eqb (w_id w) wid') ws
    else w_balance <$> List.find (fun w => Nat.eqb (w_id w) wid') ws.
Proof.
  rewrite find_update_where by reflexivity.
  destruct (List.find _ ws) as [w|] eqn:E; simpl.
  - apply List.find_some in E. destruct E as [_ E]. apply Nat.eqb_eq in E. subst wid'.
    destruct (Nat.eqb (w_id w) wid); reflexivity.
  - destruct (Nat.eqb wid' wid); reflexivity.
Qed.

(** What one credited bonus changes. *)
Lemma credit_bonus_effect now user wid prefix meta bonus s s1 :
  credit_bonus now user wid prefix meta bonus s = Some s1 ->
  exists c nb amount,
    balance_of wid s = Some c /\
    store_money (numeric_of_money c + bonus) = Some nb /\
    store_money bonus = Some amount /\
    (forall wid', balance_of wid' s1
                  = if Nat.eqb wid' wid then Some nb else balance_of wid' s) /\
    transactions s1
    = (transactions s
       ++ [bonus_transaction (uuid_supply s) (S (uuid_supply s)) now user wid prefix amount
             meta])%list /\
    uuid_supply s1 = S (S (uuid_supply s)) /\
    tickets s1 = tickets s /\ draws s1 = draws s /\ referrals s1 = referrals s /\
    untouched s1 = untouched s /\
    List.map w_id (wallets s1) = List.map w_id (wallets s).
Proof.
  intros H. apply credit_bonus_inv in H.
  destruct H as (w & nb & amount & Hw & Hnb & _ & Ham & ->).
  exists (w_balance w), nb, amount. unfold balance_of. simpl. rewrite Hw. simpl.
  repeat split; auto.
  - intros wid'. rewrite balance_of_update_balance.
    destruct (Nat.eqb wid' wid) eqn:E; [|reflexivity].
    apply Nat.eqb_eq in E. subst wid'. rewrite Hw. reflexivity.
  - apply update_where_map. reflexivity.
Qed.

Lemma is_positive_inv (v : option Q) :
  is_positive v = true -> exists b, v = Some b /\ 0 < Qnum b.
Proof.
  destruct v as [b|]; simpl; [|discriminate]. intros H. exists b. split; [reflexivity|].
  apply Z.ltb_lt. exact H.
Qed.

(** The branch is left untaken -- nothing read, nothing written -- unless
    the buyer was referred and has no other completed purchase. *)
Lemma process_referral_skipped now u txid w vars s :
  (find_profile u s ≫= p_referred_by) = None \/ other_completed_purchase u txid s = true ->
  process_referral now u txid w vars s = (find_profile u s, vars, s).
Proof.
  unfold process_referral. intros H.
  destruct (find_profile u s) as [p|]; simpl in *; [|reflexivity].
  destruct (p_referred_by p) as [ref|]; [|reflexivity].
  destruct H as [H|H]; [discriminate|]. rewrite H. reflexivity.
Qed.

Lemma process_referral_entered now u txid w vars s ref :
  (find_profile u s ≫= p_referred_by) = Some ref ->
  other_completed_purchase u txid s = false ->
  process_referral now u txid w vars s
  = match referral_block now u ref w vars s with
    | (vars', Some s') => (find_profile u s, vars', s')
    | (vars', None) => (find_profile u s, vars', s)
    end.
Proof.
  unfold process_referral. intros Hp Ho.
  destruct (find_profile u s) as [p|]; simpl in *; [|discriminate].
  rewrite Hp, Ho. reflexivity.
Qed.

Lemma credit_referrer_effect now u ref rb s s1 :
  credit_referrer now u ref rb s = Some s1 ->
  let guard := bool_decide (is_Some (find_wallet_of ref s)) && is_positive rb in
  let rwid := default 0%nat (w_id <$> find_wallet_of ref s) in
  (forall wid', balance_of wid' s1
                = credited_balance guard rwid rb (fun x => balance_of x s) wid') /\
  (exists X,
      transactions s1 = (transactions s ++ X)%list /\
      uuid_supply s1 = (uuid_supply s + 2 * List.length X)%nat /\
      if guard
      then exists amount,
             store_money (default 0%Q rb) = Some amount /\
             X = [bonus_transaction (uuid_supply s) (S (uuid_supply s)) now ref rwid "REF_"
                    amount (MetaReferrerBonus u)]
      else X = []) /\
  (uuid_supply s <= uuid_supply s1 <= S (S (uuid_supply s)))%nat /\
  tickets s1 = tickets s /\ draws s1 = draws s /\ referrals s1 = referrals s /\
  untouched s1 = untouched s /\
  List.map w_id (wallets s1) = List.map w_id (wallets s).
Proof.
  intros H. cbv zeta. unfold credit_referrer in H.
  assert (Hskip :
    bool_decide (is_Some (find_wallet_of ref s)) && is_positive rb = false -> s1 = s ->
    (forall wid', balance_of wid' s1
       = credited_balance (bool_decide (is_Some (find_wallet_of ref s)) && is_positive rb)
           (default 0%nat (w_id <$> find_wallet_of ref s)) rb (fun x => balance_of x s) wid') /\
    (exists X,
        transactions s1 = (transactions s ++ X)%list /\
        uuid_supply s1 = (uuid_supply s + 2 * List.length X)%nat /\
        if bool_decide (is_Some (find_wallet_of ref s)) && is_positive rb
        then exists amount,
               store_money (default 0%Q rb) = Some amount /\
               X = [bonus_transaction (uuid_supply s) (S (uuid_supply s)) now ref
                      (default 0%nat (w_id <$> find_wallet_of ref s)) "REF_" amount
                      (MetaReferrerBonus u)]
        else X = []) /\
    (uuid_supply s <= uuid_supply s1 <= S (S (uuid_supply s)))%nat /\
    tickets s1 = tickets s /\ draws s1 = draws s /\ referrals s1 = referrals s /\
    untouched s1 = untouched s /\
    List.map w_id (wallets s1) = List.map w_id (wallets s)).
  { intros Hg ->. rewrite Hg. unfold credited_balance. simpl.
    repeat split; auto; try lia. exists []. rewrite List.app_nil_r. simpl. auto. }
  destruct (find_wallet_of ref s) as [rw|] eqn:Erw.
  - destruct (is_positive rb) eqn:Eb.
    + destruct (is_positive_inv _ Eb) as (b & -> & Hb).
      simpl in Eb, H.
      apply credit_bonus_effect in H.
      destruct H as (c & nb & amount & Hc & Hnb & Ham & Hbal & Htx & Hs & Ht & Hd & Hr & Hu & Hid).
      rewrite bool_decide_eq_true_2 by eauto.
      cbn [andb fmap option_fmap option_map default].
      repeat split; auto; try lia.
      * intros wid'. rewrite Hbal. unfold credited_balance. simpl.
        destruct (Nat.eqb wid' (w_id rw)); [|reflexivity].
        rewrite Hc. simpl. symmetry. exact Hnb.
      * exists [bonus_transaction (uuid_supply s) (S (uuid_supply s)) now ref (w_id rw)
                  "REF_" amount (MetaReferrerBonus u)].
        split; [exact Htx|]. split; [simpl; lia|]. exists amount. auto.
    + apply Hskip; [apply andb_false_r|].
      destruct rb as [b|]; simpl in Eb, H; congruence.
  - apply Hskip; [|cbn in H; congruence].
    rewrite bool_decide_eq_false_2; [reflexivity|]. intros [x Hx]. discriminate.
Qed.

Lemma credit_referee_effect now u wid fb s s1 :
  credit_referee now u wid fb s = Some s1 ->
  (forall wid', balance_of wid' s1
                = credited_balance (is_positive fb) wid fb (fun x => balance_of x s) wid') /\
  (exists Y,
      transactions s1 = (transactions s ++ Y)%list /\
      uuid_supply s1 = (uuid_supply s + 2 * List.length Y)%nat /\
      if is_positive fb
      then exists amount,
             store_money (default 0%Q fb) = Some amount /\
             Y = [bonus_transaction (uuid_supply s) (S (uuid_supply s)) now u wid "WELCOME_"
                    amount MetaRefereeBonus]
      else Y = []) /\
  (uuid_supply s <= uuid_supply s1 <= S (S (uuid_supply s)))%nat /\
  tickets s1 = tickets s /\ draws s1 = draws s /\ referrals s1 = referrals s /\
  untouched s1 = untouched s /\
  List.map w_id (wallets s1) = List.map w_id (wallets s).
Proof.
  unfold credit_referee. intros H.
  destruct fb as [b|]; simpl in *.
  - destruct (0 <? Qnum b) eqn:Eb.
    + apply credit_bonus_effect in H.
      destruct H as (c & nb & amount & Hc & Hnb & Ham & Hbal & Htx & Hs & Ht & Hd & Hr & Hu & Hid).
      repeat split; auto; try lia.
      * intros wid'. rewrite Hbal. unfold credited_balance. simpl.
        destruct (Nat.eqb wid' wid); [|reflexivity].
        rewrite Hc. simpl. symmetry. exact Hnb.
      * exists [bonus_transaction (uuid_supply s) (S (uuid_supply s)) now u wid "WELCOME_"
                  amount MetaRefereeBonus].
        split; [exact Htx|]. split; [simpl; lia|]. exists amount. auto.
    + injection H as <-. repeat split; auto. exists []. rewrite List.app_nil_r. simpl. auto.
  - injection H as <-. repeat split; auto. exists []. rewrite List.app_nil_r. simpl. auto.
Qed.

Lemma credited_balance_ext guard wid bonus (bal bal' : uuid -> option money) wid' :
  (forall x, bal x = bal' x) ->
  credited_balance guard wid bonus bal wid' = credited_balance guard wid bonus bal' wid'.
Proof.
  intros H. unfold credited_balance. destruct (guard && Nat.eqb wid' wid); rewrite H; reflexivity.
Qed.

(** The block when it runs to its end. *)
Lemma referral_block_kept now u ref w vars s vars' s' :
  referral_block now u ref w vars s = (vars', Some s') ->
  exists rb fb rbm fbm X Y,
    select_referral_bonuses s = Some (rb, fb) /\
    v_referrer_bonus vars' = rb /\ v_referee_bonus vars' = fb /\
    store_nullable_money rb = Some rbm /\ store_nullable_money fb = Some fbm /\
    referrals s'
    = update_where (fun r => Nat.eqb (r_referred_id r) u) (with_referral_completed rbm fbm now)
        (referrals s) /\
    transactions s' = (transactions s ++ X ++ Y)%list /\
    (let guard := bool_decide (is_Some (find_wallet_of ref s)) && is_positive rb in
     let rwid := default 0%nat (w_id <$> find_wallet_of ref s) in
     (if guard
      then exists amount i j,
             store_money (default 0%Q rb) = Some amount /\
             X = [bonus_transaction i j now ref rwid "REF_" amount (MetaReferrerBonus u)] /\
             (uuid_supply s <= i < uuid_supply s')%nat
      else X = []) /\
     (if is_positive fb
      then exists amount i j,
             store_money (default 0%Q fb) = Some amount /\
             Y = [bonus_transaction i j now u (w_id w) "WELCOME_" amount MetaRefereeBonus] /\
             (uuid_supply s <= i < uuid_supply s')%nat
      else Y = []) /\
     forall wid',
       balance_of wid' s'
       = credited_balance (is_positive fb) (w_id w) fb
           (credited_balance guard rwid rb (fun x => balance_of x s)) wid') /\
    (uuid_supply s <= uuid_supply s')%nat /\
    tickets s' = tickets s /\ draws s' = draws s /\ untouched s' = untouched s /\
    List.map w_id (wallets s') = List.map w_id (wallets s).
Proof.
  unfold referral_block. intros H.
  destruct (select_referral_bonuses s) as [[rb fb]|] eqn:Esel; [|inversion H].
  destruct (credit_referrer now u ref rb s) as [s1|] eqn:E1; [|inversion H].
  destruct (credit_referee now u (w_id w) fb s1) as [s2|] eqn:E2; [|inversion H].
  unfold complete_referral in H.
  destruct (store_nullable_money rb) as [rbm|] eqn:Erb; [|inversion H].
  destruct (store_nullable_money fb) as [fbm|] eqn:Efb; [|inversion H].
  injection H as Hv <-.
  pose proof (credit_referrer_effect _ _ _ _ _ _ E1)
    as (Hb1 & (X & Htx1 & Hsx & HX) & Hs1 & Ht1 & Hd1 & Hr1 & Hu1 & Hid1).
  pose proof (credit_referee_effect _ _ _ _ _ _ E2)
    as (Hb2 & (Y & Htx2 & Hsy & HY) & Hs2 & Ht2 & Hd2 & Hr2 & Hu2 & Hid2).
  exists rb, fb, rbm, fbm, X, Y. simpl.
  split; [reflexivity|].
  split; [subst vars'; destruct (is_positive fb); reflexivity|].
  split; [subst vars'; destruct (is_positive fb); reflexivity|].
  split; [assumption|]. split; [assumption|].
  split; [rewrite Hr2, Hr1; reflexivity|].
  split; [rewrite Htx2, Htx1, List.app_assoc; reflexivity|].
  split.
  { split.
    - destruct (bool_decide _ && is_positive rb).
      + destruct HX as (amount & Ham & ->). exists amount, (uuid_supply s), (S (uuid_supply s)).
        simpl in Hsx. repeat split; auto; lia.
      + exact HX.
    - split.
      + destruct (is_positive fb).
        * destruct HY as (amount & Ham & ->).
          exists amount, (uuid_supply s1), (S (uuid_supply s1)).
          simpl in Hsy. repeat split; auto; lia.
        * exact HY.
      + intros wid'.
        change (balance_of wid' (set_referrals ?r s2)) with (balance_of wid' s2).
        rewrite Hb2. apply credited_balance_ext. exact Hb1. }
  repeat split; try congruence; try lia.
  change (untouched (set_referrals ?r s2)) with (untouched s2). congruence.
Qed.

(** ** The purchase procedure as a whole *)

Lemma check_purchase_inr_inv u id q s d w :
  check_purchase u id q s = inr (d, w) ->
  1 <= q <= max_tickets_per_purchase s /\
  find_draw id s = Some d /\
  d_status d = "active" /\
  d_vendor_id d <> Some u /\
  d_sold_tickets d + q <= d_total_tickets d /\
  find_wallet_of u s = Some w /\
  d_ticket_price d * q <= w_balance w /\
  w_is_locked w = false.
Proof.
  unfold check_purchase.
  destruct (_ || _) eqn:Eq; [discriminate|].
  apply orb_false_iff in Eq. destruct Eq as [Eq1 Eq2].
  apply Z.ltb_ge in Eq1. apply Z.ltb_ge in Eq2.
  destruct (find_draw id s) as [v_draw|]; [|discriminate].
  destruct (negb _) eqn:Es; [discriminate|].
  apply negb_false_iff, String.eqb_eq in Es.
  destruct (bool_decide _) eqn:Ev; [discriminate|]. apply bool_decide_eq_false in Ev.
  destruct (d_total_tickets v_draw <? _) eqn:Et; [discriminate|]. apply Z.ltb_ge in Et.
  destruct (find_wallet_of u s) as [v_wallet|]; [|discriminate].
  destruct (w_balance v_wallet <? _) eqn:Eb; [discriminate|]. apply Z.ltb_ge in Eb.
  destruct (w_is_locked v_wallet) eqn:El; [discriminate|].
  intros H. injection H as <- <-. repeat split; auto; lia.
Qed.



(** A successful call, unfolded into its phases. *)
Lemma buy_tickets_v2_done_inv now u id q s r s' :
  buy_tickets_v2 now u id q s = Returned (BuyDone r) s' ->
  exists d w refs s7 prof vars s8,
    check_purchase u id q s = inr (d, w) /\
    record_purchase now u id q d w s = Some (uuid_supply s, refs, s7) /\
    process_referral now u (uuid_supply s) w (initial_vars d w q) s7 = (prof, vars, s8) /\
    ((String.eqb (d_draw_type d) "slot_complete"
      && (d_total_tickets d <=? d_sold_tickets d + q) = true /\
      exists er, execute_draw now id s8 = Returned er s' /\
                 r = mkBuySuccess refs (d_ticket_price d * q) (v_new_balance vars) true
                       (Some er) (uuid_supply s)
                       (sql_and (Some (bool_decide (is_Some (prof ≫= p_referred_by))))
                          (sql_positive (v_referrer_bonus vars)))
                       (v_referrer_bonus vars) (v_referee_bonus vars)
                       (prof ≫= p_referred_by))
     \/
     (String.eqb (d_draw_type d) "slot_complete"
      && (d_total_tickets d <=? d_sold_tickets d + q) = false /\
      s' = s8 /\
      r = mkBuySuccess refs (d_ticket_price d * q) (v_new_balance vars) false None
            (uuid_supply s)
            (sql_and (Some (bool_decide (is_Some (prof ≫= p_referred_by))))
               (sql_positive (v_referrer_bonus vars)))
            (v_referrer_bonus vars) (v_referee_bonus vars) (prof ≫= p_referred_by))).
Proof.
  unfold buy_tickets_v2. intros H.
  destruct (check_purchase u id q s) as [e|[d w]] eqn:Ec; [discriminate|].
  destruct (check_purchase_inr_inv _ _ _ _ _ _ Ec) as (Hq & _ & _ & _ & _ & _ & Hb & _).
  destruct (record_purchase now u id q d w s) as [r0|] eqn:Er; [|discriminate].
  destruct (record_purchase_spec now u id q d w s r0 Er) as (refs & s7 & new & Hrec & _).
  rewrite Er in Hrec. injection Hrec as ->. rename Er into Hrec.
  destruct (process_referral now u (uuid_supply s) w (initial_vars d w q) s7)
    as [[prof vars] s8] eqn:Ep.
  exists d, w, refs, s7, prof, vars, s8.
  split; [reflexivity|]. split; [exact Hrec|]. split; [exact Ep|].
  destruct (String.eqb (d_draw_type d) "slot_complete"
            && (d_total_tickets d <=? d_sold_tickets d + q)) eqn:Ex.
  - left. split; [reflexivity|].
    destruct (execute_draw now id s8) as [er s9|e]; [|discriminate].
    exists er. unfold purchase_response in H. injection H as <- <-. auto.
  - right. split; [reflexivity|].
    unfold purchase_response in H. injection H as <- <-. auto.
Qed.

Lemma credited_balance_inv guard wid bonus (bal : uuid -> option money) wid' c' :
  credited_balance guard wid bonus bal wid' = Some c' ->
  (guard = true -> 0 < Qnum (default 0%Q bonus)) ->
  exists c, bal wid' = Some c /\ c <= c'.
Proof.
  unfold credited_balance. intros H Hg.
  destruct guard; simpl in H.
  - destruct (Nat.eqb wid' wid) eqn:E.
    + apply Nat.eqb_eq in E. subst wid'.
      destruct (bal wid) as [c|]; simpl in H; [|discriminate].
      exists c. split; [reflexivity|]. eapply store_money_lower; eauto.
    + exists c'. split; [exact H | lia].
  - exists c'. split; [exact H | lia].
Qed.

Lemma find_by_id_some (k : uuid) (l l' : list wallet) :
  List.map w_id l = List.map w_id l' ->
  is_Some (List.find (fun w => Nat.eqb (w_id w) k) l) ->
  is_Some (List.find (fun w => Nat.eqb (w_id w) k) l').
Proof.
  revert l'. induction l as [|x l IH]; intros [|y l'] Hm Hs; simpl in *; try discriminate.
  - destruct Hs as [? Hs]. discriminate.
  - injection Hm as Hxy Hm. rewrite <- Hxy.
    destruct (Nat.eqb (w_id x) k); [eauto|]. apply IH; auto.
Qed.

Lemma balance_of_some_ids wid s s' :
  List.map w_id (wallets s') = List.map w_id (wallets s) ->
  is_Some (balance_of wid s) -> is_Some (balance_of wid s').
Proof.
  unfold balance_of. intros Hm Hs. apply fmap_is_Some. apply fmap_is_Some in Hs.
  eapply find_by_id_some; [symmetry; exact Hm | exact Hs].
Qed.

(** What the referral branch may change: bonus transactions at the end of
    the table, balances that only grow, the referral row. *)
Lemma process_referral_frame now u txid w vars s prof vars' s' :
  process_referral now u txid w vars s = (prof, vars', s') ->
  prof = find_profile u s /\
  tickets s' = tickets s /\ draws s' = draws s /\ untouched s' = untouched s /\
  List.map w_id (wallets s') = List.map w_id (wallets s) /\
  (uuid_supply s <= uuid_supply s')%nat /\
  (exists extra,
      transactions s' = (transactions s ++ extra)%list /\
      Forall (fun t => tx_type t = "bonus" /\ (uuid_supply s <= tx_id t < uuid_supply s')%nat)
        extra) /\
  (forall wid c, balance_of wid s = Some c ->
                 exists c', balance_of wid s' = Some c' /\ c <= c').
Proof.
  intros H.
  assert (Hsame : (prof, s') = (find_profile u s, s) ->
    prof = find_profile u s /\
    tickets s' = tickets s /\ draws s' = draws s /\ untouched s' = untouched s /\
    List.map w_id (wallets s') = List.map w_id (wallets s) /\
    (uuid_supply s <= uuid_supply s')%nat /\
    (exists extra,
        transactions s' = (transactions s ++ extra)%list /\
        Forall (fun t => tx_type t = "bonus" /\ (uuid_supply s <= tx_id t < uuid_supply s')%nat)
          extra) /\
    (forall wid c, balance_of wid s = Some c ->
                   exists c', balance_of wid s' = Some c' /\ c <= c')).
  { intros Heq. injection Heq as -> ->. repeat split; auto.
    - exists []. rewrite List.app_nil_r. split; [reflexivity | constructor].
    - intros wid c Hc. exists c. split; [exact Hc | lia]. }
  destruct (find_profile u s ≫= p_referred_by) as [ref|] eqn:Eref.
  - destruct (other_completed_purchase u txid s) eqn:Eo.
    + rewrite process_referral_skipped in H by auto. apply Hsame. congruence.
    + rewrite (process_referral_entered _ _ _ _ _ _ ref) in H by auto.
      destruct (referral_block now u ref w vars s) as [vars1 [sb|]] eqn:Eb.
      * injection H as <- _ <-.
        destruct (referral_block_kept _ _ _ _ _ _ _ _ Eb)
          as (rb & fb & rbm & fbm & X & Y & _ & _ & _ & _ & _ & _ & Htx & (HX & HY & Hbal)
              & Hsup & Ht & Hd & Hu & Hid).
        repeat split; auto.
        -- exists (X ++ Y)%list. split; [exact Htx|].
           apply Forall_app. split.
           ++ destruct (bool_decide _ && is_positive rb); [|subst X; constructor].
              destruct HX as (amount & i & j & _ & -> & Hi). repeat constructor; simpl; lia.
           ++ destruct (is_positive fb); [|subst Y; constructor].
              destruct HY as (amount & i & j & _ & -> & Hi). repeat constructor; simpl; lia.
        -- intros wid c Hc.
           destruct (balance_of_some_ids wid s sb Hid) as [c2 Hc2]; [eauto|].
           pose proof Hc2 as Hc2'. rewrite Hbal in Hc2'.
           apply credited_balance_inv in Hc2'.
           ++ destruct Hc2' as (c1 & Hc1 & Hle2).
              apply credited_balance_inv in Hc1.
              ** destruct Hc1 as (c0 & Hc0 & Hle1).
                 exists c2. split; [exact Hc2|]. rewrite Hc in Hc0. injection Hc0 as <-. lia.
              ** intros Hg. apply andb_true_iff in Hg. destruct Hg as [_ Hg].
                 destruct (is_positive_inv _ Hg) as (b & -> & Hb). exact Hb.
           ++ intros Hg. destruct (is_positive_inv _ Hg) as (b & -> & Hb). exact Hb.
      * apply Hsame. congruence.
  - rewrite process_referral_skipped in H by auto. apply Hsame. congruence.
Qed.



Lemma buy_rejected_no_effect now u id q s e s' :
  buy_tickets_v2 now u id q s = Returned (BuyRejected e) s' -> s' = s.
Proof.
  unfold buy_tickets_v2.
  destruct (check_purchase u id q s) as [e0|[d w]]; [intros H; injection H; auto|].
  destruct (record_purchase now u id q d w s) as [[[txid refs] s7]|]; [|discriminate].
  destruct (process_referral _ _ _ _ _ _) as [[prof vars] s8].
  destruct (_ && _).
  - destruct (execute_draw now id s8); discriminate.
  - discriminate.
Qed.


(** ** The referral bonus *)


Lemma filter_bonus_singleton i j now user wid prefix amount meta :
  List.filter (fun t => String.eqb (tx_type t) "bonus")
    [bonus_transaction i j now user wid prefix amount meta]
  = [bonus_transaction i j now user wid prefix amount meta].
Proof. reflexivity. Qed.


(** ** The webhook endpoint *)



(** The two transfer handlers never throw. *)
Lemma handleTransferCompleted_completes now data s :
  exists s', handleTransferCompleted now data s = Completed s'.
Proof.
  unfold handleTransferCompleted.
  destruct (js_or _ _); [|eauto]. destruct (find_withdrawal _ _); [|eauto].
  destruct (String.eqb _ _); eauto.
Qed.

Lemma handleTransferFailed_completes now data s :
  exists s', handleTransferFailed now data s = Completed s'.
Proof.
  unfold handleTransferFailed.
  destruct (js_or _ _); [|eauto]. destruct (find_withdrawal _ _); eauto.
Qed.




(** ** Transfer events and the withdrawal request *)

(** An update to a status outside the CHECK list changes no row. *)
Lemma update_withdrawal_request_unchanged txid v f s :
  withdrawal_requests_status_check v = false ->
  withdrawal_requests (update_withdrawal_request txid v f s) = withdrawal_requests s.
Proof.
  intros Hv. unfold update_withdrawal_request. rewrite Hv. simpl. rewrite andb_true_r.
  destruct (existsb _ _) eqn:E; [reflexivity|]. simpl.
  unfold update_where.
  rewrite <- (List.map_id (withdrawal_requests s)) at 2.
  apply List.map_ext_in. intros r Hin.
  destruct (bool_decide (wr_transaction_id r = Some txid)) eqn:Er; [|reflexivity].
  exfalso. assert (existsb (fun r => bool_decide (wr_transaction_id r = Some txid))
                     (withdrawal_requests s) = true); [|congruence].
  apply existsb_exists. exists r. auto.
Qed.

Lemma createNotification_withdrawal_requests u ty ti a s :
  withdrawal_requests (createNotification u ty ti a s) = withdrawal_requests s.
Proof.
  unfold createNotification, insert_notification. simpl.
  destruct (notifications_type_check ty); reflexivity.
Qed.

(** Whatever transfer event arrives, the rows of [withdrawal_requests] stay
    as they are: "completed" and "failed" are not in the CHECK list of the
    status column. *)
Lemma transfer_handlers_withdrawal_requests now data s s' :
  handleTransferCompleted now data s = Completed s'
  \/ handleTransferFailed now data s = Completed s' ->
  withdrawal_requests s' = withdrawal_requests s.
Proof.
  unfold handleTransferCompleted, handleTransferFailed, notify_vendor.
  intros [H|H];
    destruct (js_or _ _); try (injection H as <-; reflexivity);
    destruct (find_withdrawal _ _) as [tx|]; try (injection H as <-; reflexivity).
  - destruct (String.eqb _ _); injection H as <-; [reflexivity|].
    destruct (tx_user_id tx); rewrite ?createNotification_withdrawal_requests;
      rewrite update_withdrawal_request_unchanged by reflexivity; reflexivity.
  - injection H as <-.
    destruct (tx_user_id tx); rewrite ?createNotification_withdrawal_requests; simpl;
      rewrite update_withdrawal_request_unchanged by reflexivity; reflexivity.
Qed.

(** ** The scheduler *)

Lemma execute_draw_notifications now id s r s' :
  execute_draw now id s = Returned r s' -> notifications s' = notifications s.
Proof.
  intros H. destruct (execute_draw_frame _ _ _ _ _ H) as (_ & _ & Hu & _).
  unfold untouched in Hu. congruence.
Qed.

Lemma scheduler_process_draw_notifications now s d :
  notifications (scheduler_process_draw now s d) = notifications s.
Proof.
  unfold scheduler_process_draw.
  destruct (d_sold_tickets d =? 0); [reflexivity|].
  destruct (execute_draw now (d_id d) s) as [r s'|e] eqn:E; [|reflexivity].
  pose proof (execute_draw_notifications _ _ _ _ _ E) as Hn.
  destruct r; [exact Hn|]. unfold insert_notification. simpl. exact Hn.
Qed.

(** No run of the scheduler adds a row to [notifications]: the type
    "draw_won" it inserts is refused by the CHECK list of the column. *)
Lemma drawScheduler_tick_notifications now s :
  notifications (drawScheduler_tick now s) = notifications s.
Proof.
  unfold drawScheduler_tick. generalize (expired_timer_draws now s).
  intros l. revert s. induction l as [|d l IH]; intros s; simpl; [reflexivity|].
  rewrite IH. apply scheduler_process_draw_notifications.
Qed.

(** An expired timer draw without sales is cancelled, with the time of the
    tick as its completion time, and never completed. *)
Lemma scheduler_cancels_unsold now s d :
  find_draw (d_id d) s = Some d ->
  d_sold_tickets d = 0 ->
  find_draw (d_id d) (scheduler_process_draw now s d) = Some (with_cancellation now d).
Proof.
  intros Hd H0. unfold scheduler_process_draw. rewrite H0. simpl.
  unfold find_draw in *. simpl. rewrite find_update_where by reflexivity.
  rewrite Hd. simpl. rewrite Nat.eqb_refl. reflexivity.
Qed.

(** ** Email verification *)

(** C9, as the code has it.  A token that no profile, or more than one,
    holds is answered 400; the token of a verified profile is answered 200
    and nothing is written; an expired token is answered 400; otherwise the
    profile becomes verified with token and expiry cleared, and the answer
    is 200. *)
Theorem get_verify_email_cases now token s :
  let holders :=
    List.filter (fun p => bool_decide (p_verification_token p = Some token)) (profiles s) in
  let answer := get_verify_email now token s in
  (List.length holders <> 1%nat ->
   answer = (400%nat, "Invalid or expired verification token", s)) /\
  (forall p,
      holders = [p] ->
      (p_is_verified p = true -> answer = (200%nat, "Email already verified", s)) /\
      (p_is_verified p = false -> default 0 (p_verification_expires p) < now ->
       answer = (400%nat, "Verification token has expired", s)) /\
      (p_is_verified p = false -> now <= default 0 (p_verification_expires p) ->
       fst (fst answer) = 200%nat /\
       profiles (snd answer)
       = update_where (fun x => Nat.eqb (p_id x) (p_id p)) with_email_verified (profiles s) /\
       find_profile (p_id p) (snd answer)
       = with_email_verified <$> find_profile (p_id p) s)).
Proof.
  cbv zeta. unfold get_verify_email. split.
  - intros Hlen. destruct (List.filter _ _) as [|p [|p' l]]; simpl in *; congruence.
  - intros p ->. simpl. split; [|split].
    + intros ->. reflexivity.
    + intros -> He. apply Z.ltb_lt in He. rewrite He. reflexivity.
    + intros -> He. apply Z.ltb_ge in He. rewrite He. simpl.
      split; [reflexivity|].
      unfold createNotification, insert_notification. simpl.
      split; [reflexivity|].
      unfold find_profile. simpl. rewrite find_update_where by reflexivity.
      destruct (List.find _ (profiles s)) as [x|] eqn:Ex; simpl; [|reflexivity].
      apply List.find_some in Ex. destruct Ex as [_ Ex]. rewrite Ex. reflexivity.
Qed.

(** ** The purchase endpoint and the slots *)

Lemma distinct_NoDup (l : list uuid) : distinct l = true <-> List.NoDup l.
Proof.
  induction l as [|i l IH]; simpl.
  - split; [constructor | reflexivity].
  - rewrite andb_true_iff, negb_true_iff, IH. split.
    + intros [Hn Hd]. constructor; [|exact Hd].
      intros Hin. assert (existsb (Nat.eqb i) l = true); [|congruence].
      apply existsb_exists. exists i. split; [exact Hin | apply Nat.eqb_refl].
    + intros Hnd. inversion Hnd as [|? ? Hn Hd]; subst. split; [|exact Hd].
      destruct (existsb (Nat.eqb i) l) eqn:E; [|reflexivity].
      apply existsb_exists in E. destruct E as (x & Hx & Hix). apply Nat.eqb_eq in Hix.
      subst x. contradiction.
Qed.




Lemma core_draw (t u : ticket) : ticket_core t = ticket_core u -> t_draw_id t = t_draw_id u.
Proof. unfold ticket_core. congruence. Qed.












(** ** The transfer events and the status of the withdrawal request *)

(** C7.  Both transfer handlers run to their end and leave the
    [withdrawal_requests] table exactly as it was: the statuses they write,
    [completed] and [failed], are outside the list the column's CHECK
    allows, so the update of the paired row is refused. *)
Theorem transfer_events_keep_withdrawal_requests now data s :
  (exists s', handleTransferCompleted now data s = Completed s' /\
              withdrawal_requests s' = withdrawal_requests s) /\
  (exists s', handleTransferFailed now data s = Completed s' /\
              withdrawal_requests s' = withdrawal_requests s).
Proof.
  split.
  - destruct (handleTransferCompleted_completes now data s) as [s' H].
    exists s'. split; [exact H|].
    apply (transfer_handlers_withdrawal_requests now data). left. exact H.
  - destruct (handleTransferFailed_completes now data s) as [s' H].
    exists s'. split; [exact H|].
    apply (transfer_handlers_withdrawal_requests now data). right. exact H.
Qed.

(** ** The scheduler tick *)

(** C8.  A tick writes no notification at all: the type it gives the
    winner's notification, [draw_won], is outside the list the column's
    CHECK allows.  The rest of the loop body is as described: a selected
    draw without a sold ticket is cancelled with a completion timestamp, and
    for one with sold tickets the store is the one the execution procedure
    returns. *)
Theorem drawScheduler_tick_sends_nothing now s :
  notifications (drawScheduler_tick now s) = notifications s /\
  (forall d,
      find_draw (d_id d) s = Some d -> d_sold_tickets d = 0 ->
      find_draw (d_id d) (scheduler_process_draw now s d) = Some (with_cancellation now d)) /\
  (forall d r s',
      d_sold_tickets d <> 0 ->
      execute_draw now (d_id d) s = Returned r s' ->
      scheduler_process_draw now s d = s').
Proof.
  split; [apply drawScheduler_tick_notifications|]. split.
  - intros d Hd H0. apply scheduler_cancels_unsold; assumption.
  - intros d r s' Hsold H. unfold scheduler_process_draw.
    apply Z.eqb_neq in Hsold. rewrite Hsold, H.
    destruct r; reflexivity.
Qed.

(** ** The fallbacks for a missing settings row *)

(** C5.  Without a settings row the handlers fall back on literals of their
    own, which are not one table: deposits are bounded by 100 and 1000000,
    withdrawals start at 1000 with a fee of 100, a purchase takes at most 50
    tickets, an approval lets through 10 to 10000 tickets at 100 to 50000 each,
    and the administrator's settings read answers 1000 and 10 for the
    referral bonus and percentage, where the public configuration read
    answers 500 and 5 and a minimum deposit of 1000. *)
Theorem fallbacks_without_settings s :
  platform_settings s = None ->
  deposit_bounds s = (100%Q, 1000000%Q) /\
  withdraw_bounds s = (1000%Q, 100%Q) /\
  max_tickets_per_purchase s = 50 /\
  (forall total price,
      approve_bounds_ok total price s
      = Qle_bool 10 total && Qle_bool total 10000
        && (Qle_bool 100 price && Qle_bool price 50000)) /\
  get_admin_settings s !! "referralBonus" = Some (jnum 1000) /\
  get_admin_settings s !! "referralPercentage" = Some (jnum 10) /\
  get_draws_config s !! "referralBonus" = Some (jnum 500) /\
  get_draws_config s !! "referralPercentage" = Some (jnum 5) /\
  get_draws_config s !! "minDeposit" = Some (jnum 1000) /\
  get_draws_config s !! "minWithdrawal" = Some (jnum 5000).
Proof.
  intros H.
  unfold deposit_bounds, withdraw_bounds, max_tickets_per_purchase, approve_bounds_ok,
    get_admin_settings, get_draws_config, config_or.
  rewrite H.
  split; [vm_compute; reflexivity|]. split; [vm_compute; reflexivity|].
  split; [reflexivity|]. split.
  - intros total price.
    change (js_number (approve_fallback !! "minTicketsPerDraw")) with (Some 10%Q).
    change (js_number (approve_fallback !! "maxTicketsPerDraw")) with (Some 10000%Q).
    change (js_number (approve_fallback !! "minTicketPrice")) with (Some 100%Q).
    change (js_number (approve_fallback !! "maxTicketPrice")) with (Some 50000%Q).
    unfold js_lt, js_gt, Qltb.
    destruct (Qle_bool 10 total), (Qle_bool total 10000), (Qle_bool 100 price),
      (Qle_bool price 50000); reflexivity.
  - repeat split; vm_compute; reflexivity.
Qed.

(** ** The integrity facts are kept *)

Lemma consistent_intro s :
  distinct (List.map t_id (tickets s)) = true ->
  (forall t, In t (tickets s) -> (t_id t < uuid_supply s)%nat) ->
  (forall t, In t (tickets s) -> t_is_winner t = true ->
             draw_completed (t_draw_id t) s = true) ->
  distinct (List.map w_id (wallets s)) = true ->
  (forall t, In t (transactions s) -> (tx_id t < uuid_supply s)%nat) ->
  consistent s = true.
Proof.
  intros Hd Hf Hw Hwd Htx. unfold consistent.
  rewrite !andb_true_iff, !forallb_forall. repeat split; auto.
  - intros t Ht. apply Nat.ltb_lt. auto.
  - intros t Ht. destruct (t_is_winner t) eqn:E; [simpl; auto | reflexivity].
  - intros t Ht. apply Nat.ltb_lt. auto.
Qed.

(** An update of draws that keeps ids and never leaves [completed] keeps
    every completed draw completed. *)
Lemma draw_completed_update (k : uuid) (cond : draw -> bool) (f : draw -> draw) (s s' : db) :
  draws s' = update_where cond f (draws s) ->
  (forall d, d_id (f d) = d_id d) ->
  (forall d, d_status d = "completed" -> d_status (f d) = "completed") ->
  draw_completed k s = true -> draw_completed k s' = true.
Proof.
  intros Hds Hid Hst. unfold draw_completed, find_draw. rewrite Hds.
  rewrite find_update_where by (intros r; rewrite Hid; reflexivity).
  destruct (List.find _ (draws s)) as [d|]; simpl; [|discriminate].
  intros H. apply String.eqb_eq in H.
  destruct (cond d); [|apply String.eqb_eq; exact H].
  apply String.eqb_eq. auto.
Qed.

Lemma draw_completed_same_draws (k : uuid) (s s' : db) :
  draws s' = draws s -> draw_completed k s' = draw_completed k s.
Proof.
  intros H. unfold draw_completed, find_draw. rewrite H. reflexivity.
Qed.

(** Two rows of a table with distinct keys that share a key are one row. *)
Lemma distinct_same_id (l : list ticket) (a b : ticket) :
  distinct (List.map t_id l) = true -> In a l -> In b l -> t_id a = t_id b -> a = b.
Proof.
  induction l as [|x l IH]; intros Hd Ha Hb Hab; [destruct Ha|].
  cbn [List.map] in Hd. apply distinct_cons_notin in Hd. destruct Hd as [Hx Hd].
  destruct Ha as [<-|Ha], Hb as [<-|Hb].
  - reflexivity.
  - exfalso. apply Hx. rewrite Hab. apply List.in_map. exact Hb.
  - exfalso. apply Hx. rewrite <- Hab. apply List.in_map. exact Ha.
  - auto.
Qed.

(** The execution procedure keeps the integrity facts. *)
Lemma execute_draw_keeps_consistent now id s r s' :
  consistent s = true -> execute_draw now id s = Returned r s' -> consistent s' = true.
Proof.
  intros Hc H.
  destruct (consistent_inv _ Hc) as (Hd & Hf & Hw & Hwd & Htx).
  destruct (exec_success r) eqn:Er.
  - destruct (execute_draw_done_inv _ _ _ _ _ H Er)
      as (v_draw & w & s2 & Hfd & _ & _ & _ & Hfirst & Hcv & _ & ->).
    destruct (credit_vendor_frame _ _ _ _ _ Hcv)
      as (Hdr & Htk & _ & _ & _ & _ & _ & _ & _ & Hwid & _).
    simpl in Hdr, Htk.
    assert (Hs2 : (S (uuid_supply s) <= uuid_supply s2)%nat /\
                  forall t, In t (transactions s2) -> (tx_id t < uuid_supply s2)%nat).
    { pose proof (credit_vendor_inv _ _ _ _ _ Hcv) as Hinv.
      destruct (d_vendor_id v_draw ≫= _) as [vw|].
      - destruct Hinv as (nb & amount & _ & _ & _ & ->). simpl. split; [lia|].
        intros t Ht. apply List.in_app_or in Ht. destruct Ht as [Ht|[<-|[]]].
        + specialize (Htx t Ht). lia.
        + simpl. lia.
      - subst s2. simpl. split; [lia|]. intros t Ht. specialize (Htx t Ht). lia. }
    destruct Hs2 as [Hsup Htx2].
    apply first_by_md5_In in Hfirst. unfold draw_tickets_of in Hfirst.
    apply List.filter_In in Hfirst. destruct Hfirst as [Hwin Hwd'].
    apply Nat.eqb_eq in Hwd'.
    apply consistent_intro; simpl.
    + rewrite update_where_map by reflexivity. rewrite Htk. exact Hd.
    + intros t Ht. apply update_where_In_inv in Ht. destruct Ht as (t0 & Ht0 & ->).
      rewrite Htk in Ht0. specialize (Hf t0 Ht0).
      destruct (Nat.eqb (t_id t0) (t_id w)); simpl; lia.
    + intros t Ht Hflag. apply update_where_In_inv in Ht. destruct Ht as (t0 & Ht0 & ->).
      rewrite Htk in Ht0.
      assert (Hdone : draw_completed id
                        (set_draws
                           (update_where (fun d => Nat.eqb (d_id d) id)
                              (with_completion (t_user_id w) (t_id w) now) (draws s2)) s2)
                      = true).
      { unfold draw_completed, find_draw. simpl. rewrite Hdr.
        rewrite find_update_where by reflexivity.
        unfold find_draw in Hfd. rewrite Hfd. simpl.
        apply find_some_In in Hfd. destruct Hfd as [_ Hk]. rewrite Hk. reflexivity. }
      destruct (Nat.eqb (t_id t0) (t_id w)) eqn:Eid.
      * apply Nat.eqb_eq in Eid.
        assert (t0 = w) by (eapply distinct_same_id; eauto).
        subst t0. simpl. rewrite Hwd'. exact Hdone.
      * specialize (Hw t0 Ht0 Hflag).
        apply (draw_completed_update (t_draw_id t0) (fun d => Nat.eqb (d_id d) id)
                 (with_completion (t_user_id w) (t_id w) now) s);
          [simpl; rewrite Hdr; reflexivity | reflexivity | reflexivity | exact Hw].
    + rewrite Hwid. exact Hwd.
    + intros t Ht. apply Htx2. exact Ht.
  - assert (Er' : exec_success r = false) by exact Er.
    destruct (execute_draw_rejected_inv _ _ _ _ _ H Er') as [-> | ->]; [exact Hc|].
    apply consistent_intro; simpl; auto.
    + intros t Ht. specialize (Hf t Ht). lia.
    + intros t Ht. specialize (Htx t Ht). lia.
Qed.

(** The purchase procedure keeps the integrity facts. *)
Lemma buy_tickets_v2_keeps_consistent now u id q s r s' :
  consistent s = true -> buy_tickets_v2 now u id q s = Returned r s' -> consistent s' = true.
Proof.
  intros Hc H. destruct r as [e|r].
  { rewrite (buy_rejected_no_effect _ _ _ _ _ _ _ H). exact Hc. }
  destruct (buy_tickets_v2_done_inv _ _ _ _ _ _ _ H)
    as (d & w & refs & s7 & prof & vars & s8 & Hchk & Hrec & Hp & Hexec).
  destruct (check_purchase_inr_inv _ _ _ _ _ _ Hchk) as (Hq & _ & _ & _ & _ & _ & Hb & _).
  destruct (record_purchase_spec now u id q d w s _ Hrec)
    as (refs' & s7' & new & Hrec' & _ & Htk & _ & Hall & Hids & Hsup & Hwl & Htxs & Hdr & _).
  rewrite Hrec in Hrec'. injection Hrec' as <- <-.
  destruct (process_referral_frame _ _ _ _ _ _ _ _ _ Hp)
    as (_ & Htk8 & Hdr8 & _ & Hwid8 & Hsup8 & (extra & Htx8 & Hextra) & _).
  destruct (consistent_inv _ Hc) as (Hd & Hf & Hw & Hwd & Htx).
  assert (Hc8 : consistent s8 = true).
  { apply consistent_intro.
    - rewrite Htk8, Htk, List.map_app. apply distinct_NoDup. apply List.NoDup_app.
      + apply distinct_NoDup. exact Hd.
      + rewrite Hids. apply List.seq_NoDup.
      + intros a Ha Hn. rewrite Hids in Hn. apply List.in_seq in Hn.
        apply List.in_map_iff in Ha. destruct Ha as (t & <- & Ht).
        specialize (Hf t Ht). lia.
    - intros t Ht. rewrite Htk8, Htk in Ht. apply List.in_app_or in Ht.
      destruct Ht as [Ht|Ht].
      + specialize (Hf t Ht). lia.
      + rewrite List.Forall_forall in Hall. specialize (Hall t Ht). lia.
    - intros t Ht Hflag. rewrite Htk8, Htk in Ht. apply List.in_app_or in Ht.
      destruct Ht as [Ht|Ht].
      + rewrite (draw_completed_same_draws _ s7 s8 Hdr8).
        apply (draw_completed_update (t_draw_id t) (fun x => Nat.eqb (d_id x) id)
                 (with_sold_tickets (d_sold_tickets d + q)) s);
          [exact Hdr | reflexivity | intros d0 H0; exact H0 | auto].
      + rewrite List.Forall_forall in Hall. specialize (Hall t Ht).
        destruct Hall as (_ & _ & _ & Hno & _). congruence.
    - rewrite Hwid8, Hwl. rewrite update_where_map by reflexivity. exact Hwd.
    - intros t Ht. rewrite Htx8, Htxs in Ht.
      apply List.in_app_or in Ht. destruct Ht as [Ht|Ht].
      + apply List.in_app_or in Ht. destruct Ht as [Ht|[<-|[]]].
        * specialize (Htx t Ht). lia.
        * simpl. lia.
      + rewrite List.Forall_forall in Hextra. specialize (Hextra t Ht). lia. }
  destruct Hexec as [(_ & er & Ee & _) | (_ & -> & _)]; [|exact Hc8].
  eapply execute_draw_keeps_consistent; eauto.
Qed.

Lemma createNotification_consistent u ty ti a s :
  consistent (createNotification u ty ti a s) = consistent s.
Proof.
  unfold createNotification, insert_notification. simpl.
  destruct (notifications_type_check ty); reflexivity.
Qed.

Lemma purchase_notifications_consistent u id qty r s :
  consistent (purchase_notifications u id qty r s) = consistent s.
Proof.
  unfold purchase_notifications.
  repeat match goal with
         | |- context [match ?x with _ => _ end] => destruct x
         | |- context [if ?x then _ else _] => destruct x
         end;
    rewrite ?createNotification_consistent; reflexivity.
Qed.

Lemma update_ticket_slot_consistent tid i s :
  consistent s = true -> consistent (update_ticket_slot tid i s) = true.
Proof.
  intros Hc. unfold update_ticket_slot. cbv zeta.
  destruct (existsb _ (tickets s)); [exact Hc|].
  destruct (consistent_inv _ Hc) as (Hd & Hf & Hw & Hwd & Htx).
  apply consistent_intro; simpl; auto.
  - rewrite update_where_map by reflexivity. exact Hd.
  - intros t Ht. apply update_where_In_inv in Ht. destruct Ht as (t0 & Ht0 & ->).
    specialize (Hf t0 Ht0). destruct (Nat.eqb (t_id t0) tid); exact Hf.
  - intros t Ht Hflag. apply update_where_In_inv in Ht. destruct Ht as (t0 & Ht0 & ->).
    specialize (Hw t0 Ht0).
    destruct (Nat.eqb (t_id t0) tid); simpl in *; apply Hw; exact Hflag.
Qed.

Lemma assign_slots_consistent created :
  forall slots s, consistent s = true -> consistent (assign_slots created slots s) = true.
Proof.
  induction created as [|t created IH]; intros slots s Hc; [exact Hc|].
  destruct slots as [|i slots]; [exact Hc|].
  simpl. apply IH. apply update_ticket_slot_consistent. exact Hc.
Qed.

(** The purchase endpoint keeps the integrity facts. *)
Lemma post_tickets_buy_keeps_consistent now u rq s :
  consistent s = true -> consistent (snd (post_tickets_buy now u rq s)) = true.
Proof.
  intros Hc. unfold post_tickets_buy.
  destruct (rq_draw_id rq) as [draw_id|]; [|exact Hc].
  destruct (requested_qty rq) as [qty|]; [|exact Hc].
  destruct (_ || _); [exact Hc|].
  cbv zeta.
  destruct (match rq_slot_indices rq with Some _ => _ | None => false end); [exact Hc|].
  destruct (buy_tickets_v2 now u draw_id qty s) as [[e|r] s1|e] eqn:Ebuy; simpl.
  - eapply buy_tickets_v2_keeps_consistent; eauto.
  - rewrite purchase_notifications_consistent.
    pose proof (buy_tickets_v2_keeps_consistent _ _ _ _ _ _ _ Hc Ebuy) as Hc1.
    destruct (rq_slot_indices rq); [apply assign_slots_consistent|]; exact Hc1.
  - exact Hc.
Qed.

(** * Further properties *)

(** ** What the two procedures keep and leave alone *)

(** The integrity facts of the store are kept by the execution procedure,
    by the purchase procedure and by the purchase endpoint, whatever they
    answer. *)
Theorem procedures_keep_integrity now s :
  consistent s = true ->
  (forall id r s', execute_draw now id s = Returned r s' -> consistent s' = true) /\
  (forall u id q r s', buy_tickets_v2 now u id q s = Returned r s' -> consistent s' = true) /\
  (forall u rq, consistent (snd (post_tickets_buy now u rq s)) = true).
Proof.
  intros Hc. split; [|split].
  - intros id r s' H. eapply execute_draw_keeps_consistent; eauto.
  - intros u id q r s' H. eapply buy_tickets_v2_keeps_consistent; eauto.
  - intros u rq. apply post_tickets_buy_keeps_consistent. exact Hc.
Qed.

(** An execution, whatever it answers, changes no ticket beyond its winner
    flag, no spendable balance, no wallet id, no referral, profile, setting,
    notification or withdrawal request, no bonus transaction and no sold
    count; an execution that answers without success has written no row at
    all, it has at most drawn the seed. *)
Theorem execute_draw_leaves_alone now id s r s' :
  execute_draw now id s = Returned r s' ->
  List.map ticket_core (tickets s') = List.map ticket_core (tickets s) /\
  referrals s' = referrals s /\
  untouched s' = untouched s /\
  (forall wid, balance_of wid s' = balance_of wid s) /\
  List.map w_id (wallets s') = List.map w_id (wallets s) /\
  bonus_transactions s' = bonus_transactions s /\
  (forall id', d_sold_tickets <$> find_draw id' s' = d_sold_tickets <$> find_draw id' s) /\
  (exec_success r = false -> s' = s \/ s' = set_uuid_supply (S (uuid_supply s)) s).
Proof.
  intros H.
  destruct (execute_draw_frame _ _ _ _ _ H) as (H1 & H2 & H3 & H4 & H5 & H6 & H7 & _).
  repeat split; auto.
  intros Hr. eapply execute_draw_rejected_inv; eauto.
Qed.

(** A purchase goes through only within the rules: the quantity is within
    the per-purchase range, the draw exists and is active, the buyer is not
    its vendor, the tickets asked for are still available, the buyer's
    wallet is unlocked and covers the cost, and the cost charged is the
    price times the quantity. *)
Theorem buy_tickets_v2_only_within_rules now u id q s r s' :
  buy_tickets_v2 now u id q s = Returned (BuyDone r) s' ->
  exists d w,
    find_draw id s = Some d /\
    find_wallet_of u s = Some w /\
    1 <= q <= max_tickets_per_purchase s /\
    d_status d = "active" /\
    d_vendor_id d <> Some u /\
    d_sold_tickets d + q <= d_total_tickets d /\
    w_is_locked w = false /\
    d_ticket_price d * q <= w_balance w /\
    bs_total_cost r = d_ticket_price d * q /\
    ticket_numbers_free id (Z.to_nat q) s = true.
Proof.
  intros H.
  destruct (buy_tickets_v2_done_inv _ _ _ _ _ _ _ H)
    as (d & w & refs & s7 & prof & vars & s8 & Hchk & Hrec & _ & Hexec).
  destruct (check_purchase_inr_inv _ _ _ _ _ _ Hchk)
    as (Hq & Hd & Hst & Hv & Hfit & Hw & Hb & Hl).
  exists d, w. repeat split; auto; try lia.
  - destruct Hexec as [(_ & er & _ & ->) | (_ & _ & ->)]; reflexivity.
  - pose proof (record_purchase_recorded now u id q d w s) as Hrp.
    rewrite Hrec in Hrp.
    rewrite bool_decide_eq_true_2 in Hrp by eauto.
    symmetry in Hrp. apply andb_true_iff in Hrp. tauto.
Qed.

(** ** The winner can be recomputed *)

Lemma ascii_compare_N (a b : Ascii.ascii) :
  Ascii.compare a b = N.compare (Ascii.N_of_ascii a) (Ascii.N_of_ascii b).
Proof. reflexivity. Qed.

Lemma string_compare_eq_refl (a : string) : String.compare a a = Eq.
Proof.
  induction a as [|c a IH]; [reflexivity|].
  simpl. rewrite ascii_compare_N, N.compare_refl. exact IH.
Qed.

(** The order of [String.leb] is transitive. *)
Lemma string_leb_trans (a b c : string) :
  String.leb a b = true -> String.leb b c = true -> String.leb a c = true.
Proof.
  unfold String.leb. revert b c.
  induction a as [|x a IH]; intros [|y b] [|z c]; simpl; try congruence.
  rewrite !ascii_compare_N.
  destruct (N.compare_spec (Ascii.N_of_ascii x) (Ascii.N_of_ascii y)) as [Exy|Lxy|Gxy];
    destruct (N.compare_spec (Ascii.N_of_ascii y) (Ascii.N_of_ascii z)) as [Eyz|Lyz|Gyz];
    try congruence; intros Hab Hbc.
  - rewrite Exy, Eyz, N.compare_refl. apply (IH b c); assumption.
  - rewrite Exy. apply N.compare_lt_iff in Lyz. rewrite Lyz. reflexivity.
  - rewrite <- Eyz. apply N.compare_lt_iff in Lxy. rewrite Lxy. reflexivity.
  - assert (L : (Ascii.N_of_ascii x < Ascii.N_of_ascii z)%N) by lia.
    apply N.compare_lt_iff in L. rewrite L. reflexivity.
Qed.

Lemma string_leb_refl (a : string) : String.leb a a = true.
Proof. unfold String.leb. rewrite string_compare_eq_refl. reflexivity. Qed.

(** [ORDER BY md5(...) LIMIT 1] yields a row of least digest. *)
Lemma first_by_md5_least seed ts w :
  first_by_md5 seed ts = Some w ->
  forall t, In t ts ->
    String.leb (md5 (uuid_text (t_id w) ++ uuid_text seed))
               (md5 (uuid_text (t_id t) ++ uuid_text seed)) = true.
Proof.
  revert w. induction ts as [|x ts IH]; intros w H t Hin; [destruct Hin|].
  simpl in H. destruct (first_by_md5 seed ts) as [u|] eqn:E.
  - destruct (String.leb (md5 (uuid_text (t_id x) ++ uuid_text seed))
                (md5 (uuid_text (t_id u) ++ uuid_text seed))) eqn:El;
      injection H as Hw; subst w.
    + destruct Hin as [Hx|Hin]; [subst t; apply string_leb_refl|].
      eapply string_leb_trans; [exact El | apply IH; auto].
    + destruct Hin as [Hx|Hin]; [subst t|apply IH; auto].
      destruct (String.leb_total (md5 (uuid_text (t_id u) ++ uuid_text seed))
                  (md5 (uuid_text (t_id x) ++ uuid_text seed))) as [L|L]; [exact L|].
      congruence.
  - injection H as Hw; subst w.
    destruct ts as [|y ts'].
    + destruct Hin as [Hx|[]]. subst t. apply string_leb_refl.
    + simpl in E. destruct (first_by_md5 seed ts'); [destruct (String.leb _ _)|]; discriminate.
Qed.

Lemma insert_by_created_at_In (t x : ticket) (l : list ticket) :
  In x (insert_by_created_at t l) <-> x = t \/ In x l.
Proof.
  induction l as [|u l IH]; simpl; [intuition|].
  destruct (t_created_at t <? t_created_at u); simpl; rewrite ?IH; intuition.
Qed.

Lemma order_by_created_at_In (x : ticket) (l : list ticket) :
  In x (order_by_created_at l) <-> In x l.
Proof.
  unfold order_by_created_at.
  assert (G : forall acc, In x (List.fold_left (fun acc t => insert_by_created_at t acc) l acc)
                          <-> In x acc \/ In x l).
  { induction l as [|t l IH]; intros acc; simpl; [intuition|].
    rewrite IH, insert_by_created_at_In. intuition. }
  rewrite G. simpl. intuition.
Qed.

(** The winner of an execution can be recomputed from the audit log: the
    [draw_executed] row holds the seed and the ids of exactly the tickets of
    the draw, the [winner_selected] row holds the winning ticket, and that
    ticket is one of the ids and has the least digest of id and seed among
    them. *)
Theorem execute_draw_winner_recomputable now id s winner wt num tot parts seed rev fee payout s' :
  execute_draw now id s
  = Returned (ExecDone winner wt num tot parts seed rev fee payout) s' ->
  exists ids percent,
    In (mkAudit id "draw_executed" None
          (DetailsExecuted tot parts seed ids now rev fee percent payout))
       (draw_audit_log s') /\
    In (mkAudit id "winner_selected" (Some winner)
          (DetailsWinner winner wt num seed tot parts))
       (draw_audit_log s') /\
    (forall i, In i ids <-> exists t, In t (tickets s) /\ t_draw_id t = id /\ t_id t = i) /\
    In wt ids /\
    forall i, In i ids ->
      String.leb (md5 (uuid_text wt ++ uuid_text seed)) (md5 (uuid_text i ++ uuid_text seed))
      = true.
Proof.
  intros H.
  destruct (execute_draw_done_inv _ _ _ _ _ H eq_refl)
    as (v_draw & w & s2 & Hfd & _ & _ & _ & Hfirst & Hcv & Hr & ->).
  injection Hr as -> -> -> -> -> -> -> -> ->.
  exists (List.map t_id (order_by_created_at (draw_tickets_of id s))), (platform_fee_percent s).
  assert (Hids : forall i,
             In i (List.map t_id (order_by_created_at (draw_tickets_of id s)))
             <-> exists t, In t (tickets s) /\ t_draw_id t = id /\ t_id t = i).
  { intros i. rewrite List.in_map_iff. split.
    - intros (t & Hi & Ht). apply (proj1 (order_by_created_at_In _ _)) in Ht.
      unfold draw_tickets_of in Ht. apply List.filter_In in Ht. destruct Ht as [Ht Hd].
      apply Nat.eqb_eq in Hd. eauto.
    - intros (t & Ht & Hd & Hi). exists t. split; [exact Hi|].
      apply (proj2 (order_by_created_at_In _ _)). unfold draw_tickets_of.
      apply List.filter_In. split; [exact Ht | apply Nat.eqb_eq; exact Hd]. }
  split.
  { unfold insert_audit, executed_audit. simpl.
    apply List.in_or_app. left. apply List.in_or_app. right. left. reflexivity. }
  split.
  { unfold insert_audit, winner_audit. simpl.
    apply List.in_or_app. right. left. reflexivity. }
  split; [exact Hids|].
  pose proof (first_by_md5_In _ _ _ Hfirst) as Hw.
  split.
  - apply Hids. unfold draw_tickets_of in Hw. apply List.filter_In in Hw.
    destruct Hw as [Hw Hd]. apply Nat.eqb_eq in Hd. eauto.
  - intros i Hi. apply Hids in Hi. destruct Hi as (t & Ht & Hd & <-).
    apply (first_by_md5_least _ _ _ Hfirst).
    unfold draw_tickets_of. apply List.filter_In.
    split; [exact Ht | apply Nat.eqb_eq; exact Hd].
Qed.

(** ** The sold count *)

Lemma sold_counted_iff s :
  sold_counted s = true <->
  forall d, In d (draws s) ->
            d_sold_tickets d = Z.of_nat (List.length (draw_tickets_of (d_id d) s)).
Proof.
  unfold sold_counted. rewrite forallb_forall. split; intros H d Hd.
  - apply Z.eqb_eq. auto.
  - apply Z.eqb_eq. auto.
Qed.

(** The number of tickets of a draw is read off the rows without their
    winner flags. *)
Lemma draw_tickets_count_core (k : uuid) (l l' : list ticket) :
  List.map ticket_core l = List.map ticket_core l' ->
  List.length (List.filter (fun t => Nat.eqb (t_draw_id t) k) l)
  = List.length (List.filter (fun t => Nat.eqb (t_draw_id t) k) l').
Proof.
  revert l'. induction l as [|x l IH]; intros [|y l'] H; try discriminate; [reflexivity|].
  cbn [List.map] in H. remember (ticket_core x) as cx. remember (ticket_core y) as cy.
  injection H as Hxy Hl. subst cx cy.
  cbn [List.filter]. rewrite (core_draw _ _ Hxy).
  destruct (Nat.eqb (t_draw_id y) k); simpl; rewrite (IH _ Hl); reflexivity.
Qed.

Lemma map_update_where {A B} (g : A -> B) (cond : A -> bool) (f : A -> A) (rows : list A) :
  List.map g (update_where cond f rows)
  = List.map (fun r => g (if cond r then f r else r)) rows.
Proof.
  unfold update_where. apply List.map_map.
Qed.

(** An execution keeps the id and the sold count of every draw row. *)
Lemma execute_draw_draw_counts now id s r s' :
  execute_draw now id s = Returned r s' ->
  List.map (fun d => (d_id d, d_sold_tickets d)) (draws s')
  = List.map (fun d => (d_id d, d_sold_tickets d)) (draws s).
Proof.
  intros H. destruct (exec_success r) eqn:Er.
  - destruct (execute_draw_done_inv _ _ _ _ _ H Er)
      as (v_draw & w & s2 & _ & _ & _ & _ & _ & Hcv & _ & ->).
    destruct (credit_vendor_frame _ _ _ _ _ Hcv) as (Hdr & _).
    simpl in *. rewrite update_where_map by reflexivity. rewrite Hdr. reflexivity.
  - destruct (execute_draw_rejected_inv _ _ _ _ _ H Er) as [-> | ->]; reflexivity.
Qed.

Lemma execute_draw_keeps_sold_counted now id s r s' :
  sold_counted s = true -> execute_draw now id s = Returned r s' -> sold_counted s' = true.
Proof.
  intros H0 H. apply sold_counted_iff. intros d' Hd'.
  pose proof (execute_draw_draw_counts _ _ _ _ _ H) as Hc.
  destruct (execute_draw_frame _ _ _ _ _ H) as (Hcore & _).
  apply (List.in_map (fun d => (d_id d, d_sold_tickets d))) in Hd'.
  rewrite Hc in Hd'. apply List.in_map_iff in Hd'. destruct Hd' as (d0 & E & Hd0).
  injection E as Eid Esold. rewrite <- Esold, <- Eid.
  rewrite (proj1 (sold_counted_iff s) H0 d0 Hd0).
  unfold draw_tickets_of. f_equal. symmetry.
  apply draw_tickets_count_core. exact Hcore.
Qed.

Lemma buy_tickets_v2_keeps_sold_counted now u id q s r s' :
  sold_counted s = true -> buy_tickets_v2 now u id q s = Returned r s' ->
  sold_counted s' = true.
Proof.
  intros Hs H. destruct r as [e|r].
  { rewrite (buy_rejected_no_effect _ _ _ _ _ _ _ H). exact Hs. }
  destruct (buy_tickets_v2_done_inv _ _ _ _ _ _ _ H)
    as (d & w & refs & s7 & prof & vars & s8 & Hchk & Hrec & Hp & Hex).
  destruct (check_purchase_inr_inv _ _ _ _ _ _ Hchk) as (Hq & Hfd & _).
  destruct (record_purchase_spec now u id q d w s _ Hrec)
    as (refs' & s7' & new & Hrec' & _ & Htk & Hlen & Hall & _ & _ & _ & _ & Hdr & _).
  rewrite Hrec in Hrec'. injection Hrec' as <- <-.
  destruct (process_referral_frame _ _ _ _ _ _ _ _ _ Hp) as (_ & Htk8 & Hdr8 & _).
  assert (H8 : sold_counted s8 = true).
  { apply sold_counted_iff. intros d' Hd'. rewrite Hdr8, Hdr in Hd'.
    apply update_where_In_inv in Hd'. destruct Hd' as (d0 & Hd0 & ->).
    pose proof (proj1 (sold_counted_iff s) Hs) as Hinv.
    unfold draw_tickets_of. rewrite Htk8, Htk, List.filter_app, List.length_app.
    assert (Hnew : forall k,
               List.length (List.filter (fun t => Nat.eqb (t_draw_id t) k) new)
               = if Nat.eqb id k then Z.to_nat q else 0%nat).
    { intros k. rewrite <- Hlen. clear - Hall.
      induction new as [|t new IH]; [destruct (Nat.eqb id k); reflexivity|].
      apply List.Forall_cons_iff in Hall. destruct Hall as [(Hd & _) Hall].
      cbn [List.filter]. rewrite Hd. specialize (IH Hall).
      destruct (Nat.eqb id k); simpl; rewrite IH; reflexivity. }
    destruct (Nat.eqb (d_id d0) id) eqn:E.
    - apply Nat.eqb_eq in E. simpl. rewrite E, Hnew, Nat.eqb_refl.
      apply find_some_In in Hfd. destruct Hfd as [Hin Hk]. apply Nat.eqb_eq in Hk.
      rewrite (Hinv d Hin). unfold draw_tickets_of. rewrite Hk. lia.
    - rewrite Hnew. rewrite Nat.eqb_sym, E. rewrite (Hinv d0 Hd0).
      unfold draw_tickets_of. lia. }
  destruct Hex as [(_ & er & Ee & _) | (_ & -> & _)]; [|exact H8].
  eapply execute_draw_keeps_sold_counted; eauto.
Qed.

(** Where the sold count of every draw is the number of its tickets, it
    still is after an execution and after a purchase, whatever they
    answer. *)
Theorem procedures_keep_sold_counted now s :
  sold_counted s = true ->
  (forall id r s', execute_draw now id s = Returned r s' -> sold_counted s' = true) /\
  (forall u id q r s', buy_tickets_v2 now u id q s = Returned r s' -> sold_counted s' = true).
Proof.
  intros Hs. split.
  - intros id r s'. apply execute_draw_keeps_sold_counted. exact Hs.
  - intros u id q r s'. apply buy_tickets_v2_keeps_sold_counted. exact Hs.
Qed.

(** ** The slots of a draw *)





(** ** The ticket list of a completed draw *)

Lemma filter_update_where {A} (c k : A -> bool) (g : A -> A) (l : list A) :
  (forall x, In x l -> k (if c x then g x else x) = c x) ->
  List.filter k (update_where c g l) = List.map g (List.filter c l).
Proof.
  induction l as [|a l IH]; simpl; intros H; [reflexivity|].
  rewrite (H a (or_introl eq_refl)).
  destruct (c a); simpl; [f_equal|]; apply IH; intros x Hx; apply H; right; exact Hx.
Qed.

Lemma filter_update_where_kept {A} (c k : A -> bool) (g : A -> A) (l : list A) :
  (forall x, k (g x) = k x) ->
  List.filter k (update_where c g l) = update_where c g (List.filter k l).
Proof.
  intros Hk. induction l as [|a l IH]; simpl; [reflexivity|].
  assert (Ha : k (if c a then g a else a) = k a) by (destruct (c a); auto).
  rewrite Ha. destruct (k a); simpl; [f_equal|]; exact IH.
Qed.

Lemma filter_none {A} (k : A -> bool) (l : list A) :
  (forall x, In x l -> k x = false) -> List.filter k l = [].
Proof.
  induction l as [|a l IH]; simpl; intros H; [reflexivity|].
  rewrite (H a (or_introl eq_refl)). apply IH. intros x Hx. apply H. right. exact Hx.
Qed.







(** ** Verification of the e-mail address *)

Lemma createNotification_profiles u ty ti a s :
  profiles (createNotification u ty ti a s) = profiles s.
Proof.
  unfold createNotification, insert_notification. simpl.
  destruct (notifications_type_check ty); reflexivity.
Qed.

Lemma single_filter_inv {A} (k : A -> bool) (l : list A) (x : A) :
  single (List.filter k l) = Some x -> List.filter k l = [x] /\ In x l /\ k x = true.
Proof.
  unfold single. destruct (List.filter k l) as [|y [|z r]] eqn:E; try discriminate.
  intros Hx. injection Hx as ->. split; [reflexivity|].
  apply (proj1 (List.filter_In _ _ _)). rewrite E. left. reflexivity.
Qed.

(** What a successful verification has done. *)
Lemma get_verify_email_done now token s s2 :
  get_verify_email now token s = (200%nat, "Email verified successfully", s2) ->
  exists p,
    List.filter (fun q => bool_decide (p_verification_token q = Some token)) (profiles s) = [p] /\
    p_is_verified p = false /\
    (default 0 (p_verification_expires p) <? now) = false /\
    profiles s2
    = update_where (fun q => Nat.eqb (p_id q) (p_id p)) with_email_verified (profiles s).
Proof.
  unfold get_verify_email.
  destruct (single _) as [p|] eqn:E; [|intros H; discriminate].
  destruct (single_filter_inv _ _ _ E) as (Hf & _ & _).
  destruct (p_is_verified p) eqn:Ev; [intros H; discriminate|].
  destruct (_ <? now) eqn:Ee; [intros H; discriminate|].
  intros H. injection H as <-. exists p. rewrite createNotification_profiles. auto.
Qed.

(** A verification link works once: after the answer "Email verified
    successfully" the same token is answered as invalid, at any time, and
    writes nothing; every profile of the verified user is marked verified
    and the profiles of the other users are as they were. *)
Theorem get_verify_email_single_use now token s s2 :
  get_verify_email now token s = (200%nat, "Email verified successfully", s2) ->
  (forall now', get_verify_email now' token s2
                = (400%nat, "Invalid or expired verification token", s2)) /\
  exists p,
    In p (profiles s) /\ p_verification_token p = Some token /\
    (forall q, In q (profiles s2) -> p_id q = p_id p ->
               p_is_verified q = true /\ p_verification_token q = None) /\
    List.filter (fun q => negb (Nat.eqb (p_id q) (p_id p))) (profiles s2)
    = List.filter (fun q => negb (Nat.eqb (p_id q) (p_id p))) (profiles s).
Proof.
  intros H. destruct (get_verify_email_done _ _ _ _ H) as (p & Hf & Hv & He & Hp).
  assert (Hin : In p (profiles s) /\ bool_decide (p_verification_token p = Some token) = true).
  { apply (proj1 (List.filter_In
                      (fun q => bool_decide (p_verification_token q = Some token)) p
                      (profiles s))).
    rewrite Hf. left. reflexivity. }
  destruct Hin as [Hin Htok]. apply bool_decide_eq_true in Htok.
  split.
  - intros now'. unfold get_verify_email. rewrite Hp.
    rewrite filter_none; [reflexivity|].
    intros q Hq. apply update_where_In_inv in Hq. destruct Hq as (q0 & Hq0 & ->).
    destruct (Nat.eqb (p_id q0) (p_id p)) eqn:E; [reflexivity|].
    apply bool_decide_eq_false. intros Hq.
    assert (Hq' : In q0 [p]).
    { rewrite <- Hf. apply List.filter_In. split; [exact Hq0|].
      apply bool_decide_eq_true. exact Hq. }
    destruct Hq' as [->|[]]. rewrite Nat.eqb_refl in E. discriminate.
  - exists p. split; [exact Hin|]. split; [exact Htok|]. split.
    + intros q Hq Hid. rewrite Hp in Hq. apply update_where_In_inv in Hq.
      destruct Hq as (q0 & Hq0 & ->).
      destruct (Nat.eqb (p_id q0) (p_id p)) eqn:E; [split; reflexivity|].
      apply Nat.eqb_neq in E. contradiction.
    + rewrite Hp. clear. induction (profiles s) as [|a l IH]; simpl; [reflexivity|].
      destruct (Nat.eqb (p_id a) (p_id p)) eqn:E; simpl.
      * rewrite E. simpl. exact IH.
      * rewrite E. simpl. f_equal. exact IH.
Qed.

(** A resent verification from end to end.  For an unverified user and a
    token no profile holds, the resend is answered 200; until then and
    until the link is opened, the purchase and deposit routes answer the
    user 403 and write nothing; the link opened within 24 hours verifies
    the user, after which both routes reach their handlers; opened later it
    is answered as expired and writes nothing; and a token the user held
    before, held by no other user, is no longer valid. *)
Theorem resend_verification_round_trip now userId token p s :
  userProfile userId s = Some p ->
  p_is_verified p = false ->
  (forall q, In q (profiles s) -> p_verification_token q <> Some token) ->
  exists s1,
    post_resend_verification now userId token s = (200%nat, "Verification email resent", s1) /\
    (forall t rq link amount,
        route_tickets_buy t userId rq s = (403%nat, s) /\
        route_tickets_buy t userId rq s1 = (403%nat, s1) /\
        route_initialize_payment t userId amount link s1 = (403%nat, s1)) /\
    (forall now', now' <= now + 86400000 ->
       exists s2,
         get_verify_email now' token s1 = (200%nat, "Email verified successfully", s2) /\
         userProfile userId s2 = Some (with_email_verified p) /\
         forall t rq link amount,
           route_tickets_buy t userId rq s2 = post_tickets_buy t userId rq s2 /\
           route_initialize_payment t userId amount link s2
           = post_initialize_payment t userId amount link s2) /\
    (forall now', now + 86400000 < now' ->
       get_verify_email now' token s1 = (400%nat, "Verification token has expired", s1)) /\
    (forall old now',
        p_verification_token p = Some old -> old <> token ->
        (forall q, In q (profiles s) -> p_verification_token q = Some old -> p_id q = userId) ->
        get_verify_email now' old s1 = (400%nat, "Invalid or expired verification token", s1)).
Proof.
  intros Hu Hv Hfresh. unfold userProfile in Hu.
  destruct (single_filter_inv _ _ _ Hu) as (Hf & Hin & Hid). apply Nat.eqb_eq in Hid.
  unfold post_resend_verification. rewrite Hu, Hv.
  eexists. split; [reflexivity|].
  set (exp := now + 24 * 60 * 60 * 1000).
  remember (set_profiles _ s) as s1 eqn:Hs1.
  assert (Hby_id : List.filter (fun q => Nat.eqb (p_id q) userId) (profiles s1)
                   = [with_verification token exp p]).
  { rewrite Hs1. simpl. rewrite filter_update_where; [rewrite Hf; reflexivity|].
    intros x _. destruct (Nat.eqb (p_id x) userId) eqn:E; [exact E | exact E]. }
  assert (Hby_token :
            List.filter (fun q => bool_decide (p_verification_token q = Some token)) (profiles s1)
            = [with_verification token exp p]).
  { rewrite Hs1. simpl. rewrite filter_update_where; [rewrite Hf; reflexivity|].
    intros x Hx. destruct (Nat.eqb (p_id x) userId); simpl.
    - apply bool_decide_eq_true. reflexivity.
    - apply bool_decide_eq_false. apply Hfresh. exact Hx. }
  split.
  { intros t rq link amount. unfold route_tickets_buy, route_initialize_payment, userProfile.
    rewrite Hu, Hby_id. simpl. rewrite Hv. auto. }
  split; [|split].
  - intros now' Hnow. unfold get_verify_email. rewrite Hby_token. simpl. rewrite Hv.
    assert (He : (exp <? now') = false) by (apply Z.ltb_ge; unfold exp; lia).
    rewrite He. eexists. split; [reflexivity|].
    assert (Hp2 : forall x, userProfile userId
                    (createNotification x "system" "Email Verified!" (Some "/dashboard")
                       (set_profiles
                          (update_where (fun q => Nat.eqb (p_id q) (p_id p)) with_email_verified
                             (profiles s1)) s1))
                  = Some (with_email_verified p)).
    { intros x. unfold userProfile. rewrite createNotification_profiles. simpl. rewrite Hid.
      rewrite filter_update_where.
      - rewrite Hby_id. reflexivity.
      - intros y _. destruct (Nat.eqb (p_id y) userId) eqn:E; exact E. }
    split; [apply Hp2|].
    intros t rq link amount. unfold route_tickets_buy, route_initialize_payment.
    rewrite Hp2. split; reflexivity.
  - intros now' Hnow. unfold get_verify_email. rewrite Hby_token. simpl. rewrite Hv.
    assert (He : (exp <? now') = true) by (apply Z.ltb_lt; unfold exp; lia).
    rewrite He. reflexivity.
  - intros old now' Hold Hne Honly. unfold get_verify_email.
    rewrite filter_none; [reflexivity|].
    intros q Hq. rewrite Hs1 in Hq. simpl in Hq. apply update_where_In_inv in Hq.
    destruct Hq as (q0 & Hq0 & ->). apply bool_decide_eq_false.
    destruct (Nat.eqb (p_id q0) userId) eqn:E.
    + simpl. congruence.
    + intros Hq. apply Nat.eqb_neq in E. apply E. apply Honly; assumption.
Qed.

(** ** Gateway events delivered again *)

Lemma createNotification_transactions u ty ti a s :
  transactions (createNotification u ty ti a s) = transactions s.
Proof.
  unfold createNotification, insert_notification. simpl.
  destruct (notifications_type_check ty); reflexivity.
Qed.

(** Under UNIQUE(reference) at most one row carries a reference. *)
Lemma filter_by_reference (ref : string) (l : list transaction) :
  List.NoDup (List.map tx_reference l) ->
  List.filter (fun t => String.eqb (tx_reference t) ref) l = []
  \/ exists t, List.filter (fun t => String.eqb (tx_reference t) ref) l = [t].
Proof.
  induction l as [|a l IH]; simpl; intros Hnd; [left; reflexivity|].
  apply List.NoDup_cons_iff in Hnd. destruct Hnd as [Hn Hnd].
  destruct (String.eqb (tx_reference a) ref) eqn:E.
  - right. exists a. f_equal. apply filter_none. intros x Hx.
    destruct (String.eqb (tx_reference x) ref) eqn:Ex; [|reflexivity].
    apply String.eqb_eq in E, Ex. exfalso. apply Hn. rewrite E, <- Ex.
    apply List.in_map. exact Hx.
  - apply IH. exact Hnd.
Qed.

(** A charge event whose reference is on record as completed is dropped. *)
Lemma handleChargeCompleted_dropped env now data verified ref t s :
  env_verification env = Some verified ->
  js_or (wp_tx_ref verified) (js_or (wp_tx_ref data) (wp_txRef data)) = Some ref ->
  List.filter (fun t => String.eqb (tx_reference t) ref) (transactions s) = [t] ->
  tx_status t = "completed" ->
  handleChargeCompleted env now data s = Completed s.
Proof.
  intros Hv Hr Hf Hs. unfold handleChargeCompleted. rewrite Hv. cbv zeta. rewrite Hr.
  cbn [mbind option_bind]. rewrite Hf. cbn [single fmap option_fmap option_map]. rewrite Hs.
  reflexivity.
Qed.

Lemma update_wallet_balance_transactions wid v s s1 :
  update_wallet_balance wid v s = Some s1 -> transactions s1 = transactions s.
Proof.
  unfold update_wallet_balance. destruct (store_money v); [|discriminate].
  destruct (_ <? 0); [discriminate|]. intros H. injection H as <-. reflexivity.
Qed.

Lemma handleChargeCompleted_outcome env now now' data verified ref amount s :
  env_verification env = Some verified ->
  js_or (wp_tx_ref verified) (js_or (wp_tx_ref data) (wp_txRef data)) = Some ref ->
  store_money (amount_or_zero (wp_amount verified)) = Some amount ->
  (List.filter (fun t => String.eqb (tx_reference t) ref) (transactions s) = []
   \/ exists t, List.filter (fun t => String.eqb (tx_reference t) ref) (transactions s) = [t]
                /\ tx_status t = "pending") ->
  match handleChargeCompleted env now data s with
  | Completed s' =>
      (s' = s /\ handleChargeCompleted env now' data s = Completed s)
      \/ exists t', List.filter (fun t => String.eqb (tx_reference t) ref) (transactions s') = [t']
                    /\ tx_status t' = "completed"
  | Thrown _ => True
  end.
Proof.
  intros Hv Hr Ha Hcases. unfold handleChargeCompleted. rewrite Hv. cbv zeta. rewrite Hr.
  cbn [mbind option_bind].
  set (existingTx := single (List.filter (fun t => String.eqb (tx_reference t) ref) (transactions s))).
  assert (Hex : bool_decide (tx_status <$> existingTx = Some "completed") = false).
  { unfold existingTx. destruct Hcases as [->|(t & -> & Hp)]; simpl; [reflexivity|].
    rewrite Hp. reflexivity. }
  rewrite Hex. clearbody existingTx.
  match goal with
  | |- context [match ?u with Some userId => _ | None => Completed s end] =>
      destruct u as [userId|]; [|left; split; reflexivity]
  end.
  destruct (single (List.filter (fun w => Nat.eqb (w_user_id w) userId) (wallets s)))
    as [wallet|]; [|left; split; reflexivity].
  destruct (single (List.filter _ (transactions s))) as [done|]; [left; split; reflexivity|].
  destruct (update_wallet_balance _ _ s) as [s1|] eqn:Eup; [|exact I].
  pose proof (update_wallet_balance_transactions _ _ _ _ Eup) as Ht1.
  right. rewrite createNotification_transactions, Ht1, Ha.
  destruct Hcases as [Hf|(t & Hf & Hp)].
  - assert (Hpend : List.filter
                      (fun t => String.eqb (tx_reference t) ref && String.eqb (tx_status t) "pending")
                      (transactions s) = []).
    { apply filter_none. intros x Hx.
      destruct (String.eqb (tx_reference x) ref) eqn:Ex; [|reflexivity].
      exfalso. assert (Hi : In x []); [|destruct Hi].
      rewrite <- Hf. apply List.filter_In. auto. }
    rewrite Hpend. cbn [single gen_random_uuid].
    unfold insert_transaction_checked. cbn [transactions set_uuid_supply]. rewrite Ht1.
    assert (Hno : existsb (fun u => String.eqb (tx_reference u) ref) (transactions s) = false).
    { apply not_true_is_false. intros He. apply existsb_exists in He.
      destruct He as (x & Hx & Ex). assert (Hi : In x []); [|destruct Hi].
      rewrite <- Hf. apply List.filter_In. auto. }
    rewrite Hno. cbn [tx_type tx_status]. 
    change (transactions_type_check "topup") with true.
    change (transactions_status_check "completed") with true.
    cbn [andb default from_option insert_transaction transactions set_transactions].
    cbv [id insert_transaction]. cbn [transactions set_transactions set_uuid_supply].
    rewrite ?Ht1, List.filter_app, Hf. simpl. rewrite String.eqb_refl.
    eexists. split; reflexivity.
  - assert (Hpend : List.filter
                      (fun t => String.eqb (tx_reference t) ref && String.eqb (tx_status t) "pending")
                      (transactions s) = [t]).
    { clear - Hf Hp. revert Hf. induction (transactions s) as [|a l IH]; simpl; [discriminate|].
      destruct (String.eqb (tx_reference a) ref) eqn:Ea; simpl.
      - intros H. injection H as -> Hl. rewrite Hp. simpl. f_equal.
        apply filter_none. intros x Hx.
        destruct (String.eqb (tx_reference x) ref) eqn:Ex; [|reflexivity].
        exfalso. assert (Hi : In x []); [|destruct Hi].
        rewrite <- Hl. apply List.filter_In. auto.
      - exact IH. }
    rewrite Hpend. cbn [single transactions set_transactions].
    rewrite ?Ht1. rewrite filter_update_where_kept by reflexivity.
    rewrite Hf. unfold update_where. simpl. rewrite Nat.eqb_refl.
    eexists. split; reflexivity.
Qed.

(** A charge event delivered again changes nothing.  The gateway confirms
    the payment and names its reference, references are unique in the
    table, and the transaction on record under the reference, if there is
    one, is pending or completed: then whatever the first delivery has
    left, a second delivery of the same event leaves the store as it is, so
    that the wallet is credited at most once. *)
Theorem charge_event_replay env now data verified ref amount s s' :
  env_verification env = Some verified ->
  js_or (wp_tx_ref verified) (js_or (wp_tx_ref data) (wp_txRef data)) = Some ref ->
  store_money (amount_or_zero (wp_amount verified)) = Some amount ->
  List.NoDup (List.map tx_reference (transactions s)) ->
  (forall t, In t (transactions s) -> tx_reference t = ref ->
             tx_status t = "pending" \/ tx_status t = "completed") ->
  handleChargeCompleted env now data s = Completed s' ->
  forall now', handleChargeCompleted env now' data s' = Completed s'.
Proof.
  intros Hv Hr Ha Hnd Hst H now'.
  assert (Hcases :
            (exists t, List.filter (fun t => String.eqb (tx_reference t) ref) (transactions s) = [t]
                       /\ tx_status t = "completed")
            \/ (List.filter (fun t => String.eqb (tx_reference t) ref) (transactions s) = []
                \/ exists t, List.filter (fun t => String.eqb (tx_reference t) ref)
                               (transactions s) = [t]
                             /\ tx_status t = "pending")).
  { destruct (filter_by_reference ref _ Hnd) as [Hf|(t & Hf)]; [right; left; exact Hf|].
    assert (Hin : In t (transactions s) /\ String.eqb (tx_reference t) ref = true).
    { apply (proj1 (List.filter_In (fun t => String.eqb (tx_reference t) ref) t
                      (transactions s))).
      rewrite Hf. left. reflexivity. }
    destruct Hin as [Hin Href]. apply String.eqb_eq in Href.
    destruct (Hst t Hin Href); [right; right | left]; eauto. }
  destruct Hcases as [(t & Hf & Hdone)|Hcases].
  - rewrite (handleChargeCompleted_dropped _ _ _ _ _ _ _ Hv Hr Hf Hdone) in H.
    injection H as <-. eapply handleChargeCompleted_dropped; eauto.
  - pose proof (handleChargeCompleted_outcome env now now' data verified ref amount s
                  Hv Hr Ha Hcases) as Hout.
    rewrite H in Hout. destruct Hout as [[-> Hre]|(t' & Hf' & Hdone)]; [exact Hre|].
    eapply handleChargeCompleted_dropped; eauto.
Qed.

(** A completed transfer delivered again changes nothing: whatever the
    first [transfer.completed] event has left, the same event is dropped
    from then on, so that the vendor is notified once. *)
Theorem transfer_completed_replay now data s s' :
  handleTransferCompleted now data s = Completed s' ->
  forall now', handleTransferCompleted now' data s' = Completed s'.
Proof.
  unfold handleTransferCompleted. intros H now'.
  destruct (js_or (wp_reference data) _) as [reference|]; [|injection H as <-; reflexivity].
  destruct (find_withdrawal reference s) as [tx|] eqn:Ef;
    [|injection H as <-; rewrite Ef; reflexivity].
  destruct (String.eqb (tx_status tx) "completed") eqn:Es.
  { injection H as <-. rewrite Ef, Es. reflexivity. }
  injection H as <-.
  assert (Hf : find_withdrawal reference
                 (notify_vendor (tx_user_id tx) "Withdrawal Successful"
                    (update_withdrawal_request (tx_id tx) "completed" (with_wr_completed now)
                       (set_transactions
                          (update_where (fun t => Nat.eqb (tx_id t) (tx_id tx))
                             (with_tx_completed None None None None now
                                (MetaWebhook "webhook" None))
                             (transactions s)) s)))
               = Some (with_tx_completed None None None None now (MetaWebhook "webhook" None) tx)).
  { unfold find_withdrawal in *.
    assert (Ht : forall u x, transactions (notify_vendor u "Withdrawal Successful"
                               (update_withdrawal_request (tx_id tx) "completed"
                                  (with_wr_completed now) x)) = transactions x).
    { intros u x. unfold notify_vendor. destruct u; rewrite ?createNotification_transactions;
        unfold update_withdrawal_request; destruct (_ && _); reflexivity. }
    rewrite Ht. cbn [transactions set_transactions].
    rewrite filter_update_where_kept by reflexivity.
    destruct (single_filter_inv _ _ _ Ef) as (-> & _ & _).
    unfold update_where. simpl. rewrite Nat.eqb_refl. reflexivity. }
  rewrite Hf. reflexivity.
Qed.

(** ** A deposit from end to end *)

Lemma balance_of_credited (wid : uuid) (b : money) (w : wallet) (l : list wallet) :
  In w l -> w_id w = wid ->
  w_balance <$> List.find (fun x => Nat.eqb (w_id x) wid)
                  (update_where (fun x => Nat.eqb (w_id x) wid) (with_balance b) l)
  = Some b.
Proof.
  intros Hin Hid. rewrite find_update_where by reflexivity.
  destruct (List.find (fun x => Nat.eqb (w_id x) wid) l) as [x|] eqn:E.
  - simpl. apply List.find_some in E. destruct E as [_ E]. rewrite E. reflexivity.
  - exfalso. apply (List.find_none _ _ E) in Hin. rewrite Hid, Nat.eqb_refl in Hin.
    discriminate.
Qed.

Lemma balance_of_other (wid wid' : uuid) (b : money) (l : list wallet) :
  wid' <> wid ->
  w_balance <$> List.find (fun x => Nat.eqb (w_id x) wid')
                  (update_where (fun x => Nat.eqb (w_id x) wid) (with_balance b) l)
  = w_balance <$> List.find (fun x => Nat.eqb (w_id x) wid') l.
Proof.
  intros Hne. rewrite find_update_where by reflexivity.
  destruct (List.find (fun x => Nat.eqb (w_id x) wid') l) as [x|] eqn:E; [|reflexivity].
  simpl. apply List.find_some in E. destruct E as [_ E]. apply Nat.eqb_eq in E.
  destruct (Nat.eqb (w_id x) wid) eqn:E'; [|reflexivity].
  apply Nat.eqb_eq in E'. congruence.
Qed.

(** A deposit from the request to the credit.  A user asks for a
    deposit the validation lets through, the checkout link is given and
    the reference is new to the table: the request leaves one pending
    top-up.  When the gateway then reports the charge under that reference
    and confirms an amount, the user's wallet is credited with the amount
    the gateway has confirmed, no other balance moves, and the pending
    row is now the completed record of the payment. *)
Theorem deposit_round_trip
    now now' u a link env data verified v paid newbal stored w s :
  let ref := "LB_" ++ uuid_text u ++ "_" ++ pretty now in
  validateAmount (Some a) (fst (deposit_bounds s)) (Some (snd (deposit_bounds s))) = true ->
  store_money a = Some stored ->
  single (List.filter (fun x => Nat.eqb (w_user_id x) u) (wallets s)) = Some w ->
  existsb (fun t => String.eqb (tx_reference t) ref) (transactions s) = false ->
  env_verification env = Some verified ->
  wp_tx_ref verified = Some ref ->
  wp_amount verified = Some v ->
  store_money v = Some paid ->
  store_money (numeric_of_money (w_balance w) + v) = Some newbal ->
  0 <= newbal ->
  List.filter
    (fun t =>
       bool_decide (tx_wallet_id t = Some (w_id w))
       && bool_decide (tx_external_reference t = Some (id_text (wp_id data)))
       && String.eqb (tx_status t) "completed") (transactions s) = [] ->
  exists s1 s2 t,
    post_initialize_payment now u (Some a) (Some link) s = (200%nat, s1) /\
    List.filter (fun t => String.eqb (tx_reference t) ref) (transactions s1)
    = [mkTransaction (uuid_supply s) (Some u) (Some (w_id w)) "topup" stored 0 "pending" ref
         None (Some (w_balance w)) None None MetaEmpty] /\
    handleChargeCompleted env now' data s1 = Completed s2 /\
    balance_of (w_id w) s2 = Some newbal /\
    (forall wid, wid <> w_id w -> balance_of wid s2 = balance_of wid s) /\
    List.filter (fun t => String.eqb (tx_reference t) ref) (transactions s2) = [t] /\
    tx_status t = "completed" /\ tx_amount t = paid /\ tx_user_id t = Some u /\
    tx_balance_after t = Some newbal.
Proof.
  intros ref Hval Hst Hw Hfresh Hv Href Hamt Hpaid Hnew Hpos Hnone.
  unfold post_initialize_payment.
  destruct (deposit_bounds s) as [lo hi]. cbn [fst snd] in Hval. rewrite Hval.
  cbn [negb]. rewrite Hw. cbn [mbind option_bind]. rewrite Hst.
  cbn [gen_random_uuid]. unfold insert_transaction_checked.
  cbn [transactions set_uuid_supply]. fold ref. rewrite Hfresh.
  cbn [tx_type tx_status].
  change (transactions_type_check "topup") with true.
  change (transactions_status_check "pending") with true.
  cbn [andb default from_option]. cbv [id].
  set (newtx := mkTransaction (uuid_supply s) (Some u) (Some (w_id w)) "topup" stored 0
                  "pending" ref None (Some (w_balance w)) None None MetaEmpty).
  set (s1 := insert_transaction newtx (set_uuid_supply (S (uuid_supply s)) s)).
  assert (Hold : List.filter (fun t => String.eqb (tx_reference t) ref) (transactions s) = []).
  { apply filter_none. intros x Hx. apply not_true_is_false. intros Ex.
    assert (existsb (fun t => String.eqb (tx_reference t) ref) (transactions s) = true);
      [|congruence].
    apply existsb_exists. eauto. }
  assert (Ht1 : transactions s1 = (transactions s ++ [newtx])%list) by reflexivity.
  assert (Hf1 : List.filter (fun t => String.eqb (tx_reference t) ref) (transactions s1)
                = [newtx]).
  { rewrite Ht1, List.filter_app, Hold. simpl. rewrite String.eqb_refl. reflexivity. }
  assert (Hne : String.eqb ref "" = false) by reflexivity.
  destruct (single_filter_inv _ _ _ Hw) as (_ & Hwin & _).
  set (done := with_tx_completed (Some paid) (Some (id_text (wp_id data))) (Some (w_balance w))
                 (Some newbal) now' (MetaWebhook "webhook" None) newtx).
  set (s2 := createNotification u "wallet" "Wallet Funded" (Some "/wallet")
               (set_transactions
                  (update_where (fun t => Nat.eqb (tx_id t) (tx_id newtx))
                     (with_tx_completed (Some paid) (Some (id_text (wp_id data)))
                        (Some (w_balance w)) (Some newbal) now' (MetaWebhook "webhook" None))
                     (transactions s1))
                  (set_wallets
                     (update_where (fun x => Nat.eqb (w_id x) (w_id w)) (with_balance newbal)
                        (wallets s1)) s1))).
  exists s1, s2, done. split; [reflexivity|]. split; [exact Hf1|].
  split.
  { unfold handleChargeCompleted. rewrite Hv. cbv zeta. rewrite Href, Hamt.
    assert (Hjs : js_or (Some ref) (js_or (wp_tx_ref data) (wp_txRef data)) = Some ref).
    { unfold js_or at 1. rewrite Hne. reflexivity. }
    rewrite Hjs. cbn [mbind option_bind]. rewrite Hf1.
    cbn [single fmap option_fmap option_map tx_status newtx].
    change (bool_decide (Some "pending" = Some "completed")) with false. cbv iota.
    change (Some newtx ≫= tx_user_id) with (Some u). cbv iota beta.
    change (wallets s1) with (wallets s). rewrite Hw.
    assert (Hnone1 : List.filter
              (fun t =>
                 bool_decide (tx_wallet_id t = Some (w_id w))
                 && bool_decide (tx_external_reference t = Some (id_text (wp_id data)))
                 && String.eqb (tx_status t) "completed") (transactions s1) = []).
    { rewrite Ht1, List.filter_app, Hnone. simpl. rewrite andb_false_r. reflexivity. }
    rewrite Hnone1. cbn [single amount_or_zero default from_option]. cbv [id].
    unfold update_wallet_balance. rewrite Hnew.
    assert (Hge : (newbal <? 0) = false) by (apply Z.ltb_ge; exact Hpos).
    rewrite Hge. cbn [transactions set_wallets].
    assert (Hpend : List.filter
              (fun t => String.eqb (tx_reference t) ref && String.eqb (tx_status t) "pending")
              (transactions s1) = [newtx]).
    { rewrite Ht1, List.filter_app. rewrite filter_none.
      - simpl. rewrite String.eqb_refl. reflexivity.
      - intros x Hx. destruct (String.eqb (tx_reference x) ref) eqn:Ex; [|reflexivity].
        exfalso. assert (Hi : In x []); [|destruct Hi].
        rewrite <- Hold. apply List.filter_In. auto. }
    rewrite Hpend. cbn [single]. rewrite Hpaid. reflexivity. }
  assert (Hw2 : wallets s2
                = update_where (fun x => Nat.eqb (w_id x) (w_id w)) (with_balance newbal)
                    (wallets s)).
  { unfold s2, createNotification, insert_notification.
    destruct (notifications_type_check "wallet"); reflexivity. }
  split.
  { unfold balance_of. rewrite Hw2. eapply balance_of_credited; eauto. }
  split.
  { intros wid Hwid. unfold balance_of. rewrite Hw2. apply balance_of_other. exact Hwid. }
  split.
  { unfold s2. rewrite createNotification_transactions. cbn [transactions set_transactions].
    rewrite filter_update_where_kept by reflexivity. rewrite Hf1.
    unfold update_where. simpl. rewrite Nat.eqb_refl. reflexivity. }
  repeat split; reflexivity.
Qed.

(** ** Locked wallets *)

Lemma post_toggle_status_lock id s :
  post_toggle_status id (Some "lock_wallet") s
  = (200%nat,
     set_wallets
       (update_where (fun w => Nat.eqb (w_user_id w) id) (with_is_locked true) (wallets s)) s).
Proof. reflexivity. Qed.

Lemma post_toggle_status_unlock id s :
  post_toggle_status id (Some "unlock_wallet") s
  = (200%nat,
     set_wallets
       (update_where (fun w => Nat.eqb (w_user_id w) id) (with_is_locked false) (wallets s)) s).
Proof. reflexivity. Qed.

Lemma check_purchase_locked id d q s :
  exists e,
    check_purchase id d q
      (set_wallets
         (update_where (fun w => Nat.eqb (w_user_id w) id) (with_is_locked true) (wallets s)) s)
    = inl e.
Proof.
  unfold check_purchase.
  change (max_tickets_per_purchase (set_wallets _ s)) with (max_tickets_per_purchase s).
  change (find_draw d (set_wallets _ s)) with (find_draw d s).
  destruct (_ || _); [eauto|].
  destruct (find_draw d s) as [v_draw|]; [|eauto].
  destruct (negb _); [eauto|].
  destruct (bool_decide _); [eauto|].
  destruct (_ <? _); [eauto|].
  unfold find_wallet_of. cbn [wallets set_wallets].
  rewrite find_update_where by reflexivity.
  destruct (List.find _ (wallets s)) as [w|] eqn:E; [|simpl; eauto].
  apply List.find_some in E. destruct E as [_ E].
  cbn [fmap option_fmap option_map]. rewrite E. cbn [w_balance w_is_locked with_is_locked].
  destruct (_ <? _); eauto.
Qed.

Lemma unlock_after_lock (id : uuid) (ws : list wallet) :
  forallb (fun w => negb (Nat.eqb (w_user_id w) id) || negb (w_is_locked w)) ws = true ->
  update_where (fun w => Nat.eqb (w_user_id w) id) (with_is_locked false)
    (update_where (fun w => Nat.eqb (w_user_id w) id) (with_is_locked true) ws)
  = ws.
Proof.
  unfold update_where. induction ws as [|w ws IH]; [reflexivity|].
  cbn [forallb List.map]. intros H. apply andb_true_iff in H. destruct H as [Hw H].
  f_equal; [|apply IH; exact H].
  destruct (Nat.eqb (w_user_id w) id) eqn:E; cbn [with_is_locked w_user_id]; rewrite E.
  - destruct w as [a b c d l]. cbn in *. destruct l; [discriminate | reflexivity].
  - reflexivity.
Qed.

(** A wallet the administrator has locked cannot be spent from.  After
    the lock, every purchase by the user is rejected by the procedure and
    answered 400 by the purchase endpoint, and nothing is written.
    Unlocking a wallet that was not locked before the lock brings the store
    back to what it was. *)
Theorem wallet_lock_blocks_purchases id s :
  let s1 := snd (post_toggle_status id (Some "lock_wallet") s) in
  fst (post_toggle_status id (Some "lock_wallet") s) = 200%nat /\
  (forall now d q, exists e, buy_tickets_v2 now id d q s1 = Returned (BuyRejected e) s1) /\
  (forall now rq, post_tickets_buy now id rq s1 = (400%nat, s1)) /\
  (forallb (fun w => negb (Nat.eqb (w_user_id w) id) || negb (w_is_locked w)) (wallets s) = true ->
   snd (post_toggle_status id (Some "unlock_wallet") s1) = s).
Proof.
  rewrite post_toggle_status_lock. cbn [fst snd].
  set (s1 := set_wallets _ s).
  assert (Hbuy : forall now d q, exists e,
               buy_tickets_v2 now id d q s1 = Returned (BuyRejected e) s1).
  { intros now d q. destruct (check_purchase_locked id d q s) as (e & He).
    exists e. unfold buy_tickets_v2. fold s1 in He. rewrite He. reflexivity. }
  split; [reflexivity|]. split; [exact Hbuy|]. split.
  - intros now rq. unfold post_tickets_buy.
    destruct (rq_draw_id rq) as [d|]; [|reflexivity].
    destruct (requested_qty rq) as [qty|]; [|reflexivity].
    destruct (_ || _); [reflexivity|].
    destruct (match rq_slot_indices rq with Some _ => _ | None => false end); [reflexivity|].
    destruct (Hbuy now d qty) as (e & ->). reflexivity.
  - intros Hfree. rewrite post_toggle_status_unlock. cbn [snd].
    unfold s1. cbn [wallets set_wallets]. rewrite unlock_after_lock by exact Hfree.
    destruct s. reflexivity.
Qed.

(** Nor can it be withdrawn from: after the lock no withdrawal of the user
    is accepted, whatever it asks and whichever balance it names, and the
    request writes nothing. *)
Theorem wallet_lock_blocks_withdrawals id s :
  let s1 := snd (post_toggle_status id (Some "lock_wallet") s) in
  forall now isVendor rq,
    fst (post_withdraw now id isVendor rq s1) <> 200%nat /\
    snd (post_withdraw now id isVendor rq s1) = s1.
Proof.
  rewrite post_toggle_status_lock. cbn [fst snd].
  set (s1 := set_wallets _ s).
  intros now isVendor rq. unfold post_withdraw.
  destruct (withdraw_bounds s1) as [lo fee].
  destruct (negb _); [split; [discriminate | reflexivity]|].
  destruct (wq_amount rq), (js_or (wq_bank_code rq) None), (js_or (wq_account_number rq) None),
    (js_or (wq_account_name rq) None); try (split; [discriminate | reflexivity]).
  destruct (negb _); [split; [discriminate | reflexivity]|].
  destruct (single _) as [w|] eqn:E; [|split; [discriminate | reflexivity]].
  destruct (single_filter_inv _ _ _ E) as (_ & Hin & Hu).
  unfold s1 in Hin. cbn [wallets set_wallets] in Hin.
  apply update_where_In_inv in Hin. destruct Hin as (w0 & _ & ->).
  assert (Hl : w_is_locked (if Nat.eqb (w_user_id w0) id then with_is_locked true w0 else w0)
               = true).
  { destruct (Nat.eqb (w_user_id w0) id) eqn:E0; [reflexivity|].
    rewrite E0 in Hu. discriminate. }
  rewrite Hl. split; [discriminate | reflexivity].
Qed.

(** ** A whole tick of the scheduler *)

Lemma find_draw_In_distinct (d : draw) (s : db) :
  distinct (List.map d_id (draws s)) = true -> In d (draws s) ->
  find_draw (d_id d) s = Some d.
Proof.
  unfold find_draw. induction (draws s) as [|a l IH]; intros Hd Hin; [destruct Hin|].
  cbn [List.map distinct] in Hd. apply andb_true_iff in Hd. destruct Hd as [Hn Hd].
  apply negb_true_iff in Hn. cbn [List.find].
  destruct Hin as [->|Hin]; [rewrite Nat.eqb_refl; reflexivity|].
  destruct (Nat.eqb (d_id a) (d_id d)) eqn:E; [|apply IH; assumption].
  apply Nat.eqb_eq in E. exfalso.
  assert (existsb (Nat.eqb (d_id a)) (List.map d_id l) = true); [|congruence].
  apply existsb_exists. exists (d_id d). split; [apply List.in_map; exact Hin|].
  apply Nat.eqb_eq. exact E.
Qed.




(** What an execution does to the table of draws. *)
Lemma execute_draw_draws now id s r s' :
  execute_draw now id s = Returned r s' ->
  draws s' = draws s
  \/ exists w,
       In w (tickets s) /\ t_draw_id w = id /\
       draws s' = update_where (fun x => Nat.eqb (d_id x) id)
                    (with_completion (t_user_id w) (t_id w) now) (draws s).
Proof.
  intros H. destruct (exec_success r) eqn:Er.
  - destruct (execute_draw_done_inv _ _ _ _ _ H Er)
      as (v_draw & w & s2 & _ & _ & _ & _ & Hfirst & Hcv & _ & ->).
    destruct (credit_vendor_frame _ _ _ _ _ Hcv) as (Hdr & _).
    apply first_by_md5_In in Hfirst. unfold draw_tickets_of in Hfirst.
    apply List.filter_In in Hfirst. destruct Hfirst as [Hin Hd]. apply Nat.eqb_eq in Hd.
    right. exists w. split; [exact Hin|]. split; [exact Hd|].
    simpl in *. rewrite Hdr. reflexivity.
  - left. destruct (execute_draw_rejected_inv _ _ _ _ _ H Er) as [-> | ->]; reflexivity.
Qed.




(** ** No draw is oversold *)

Lemma within_capacity_iff s :
  within_capacity s = true <->
  forall d, In d (draws s) -> d_sold_tickets d <= d_total_tickets d.
Proof.
  unfold within_capacity. rewrite forallb_forall. split; intros H d Hd.
  - apply Z.leb_le. auto.
  - apply Z.leb_le. auto.
Qed.

Lemma execute_draw_keeps_capacity now id s r s' :
  within_capacity s = true -> execute_draw now id s = Returned r s' ->
  within_capacity s' = true.
Proof.
  intros Hw H. apply within_capacity_iff. intros d Hd.
  pose proof (proj1 (within_capacity_iff s) Hw) as Hinv.
  destruct (execute_draw_draws _ _ _ _ _ H) as [Hdr|(w & _ & _ & Hdr)]; rewrite Hdr in Hd.
  - auto.
  - apply update_where_In_inv in Hd. destruct Hd as (d0 & Hd0 & ->).
    specialize (Hinv d0 Hd0). destruct (Nat.eqb (d_id d0) id); exact Hinv.
Qed.

Lemma buy_tickets_v2_keeps_capacity now u id q s r s' :
  within_capacity s = true -> distinct (List.map d_id (draws s)) = true ->
  buy_tickets_v2 now u id q s = Returned r s' -> within_capacity s' = true.
Proof.
  intros Hw Hdd H. destruct r as [e|r].
  { rewrite (buy_rejected_no_effect _ _ _ _ _ _ _ H). exact Hw. }
  destruct (buy_tickets_v2_done_inv _ _ _ _ _ _ _ H)
    as (d & w & refs & s7 & prof & vars & s8 & Hchk & Hrec & Hp & Hex).
  destruct (check_purchase_inr_inv _ _ _ _ _ _ Hchk) as (_ & Hfd & _ & _ & Hroom & _).
  destruct (record_purchase_spec now u id q d w s _ Hrec)
    as (refs' & s7' & new & Hrec' & _ & _ & _ & _ & _ & _ & _ & _ & Hdr & _).
  rewrite Hrec in Hrec'. injection Hrec' as <- <-.
  destruct (process_referral_frame _ _ _ _ _ _ _ _ _ Hp) as (_ & _ & Hdr8 & _).
  assert (H8 : within_capacity s8 = true).
  { apply within_capacity_iff. intros d' Hd'. rewrite Hdr8, Hdr in Hd'.
    apply update_where_In_inv in Hd'. destruct Hd' as (d0 & Hd0 & ->).
    destruct (Nat.eqb (d_id d0) id) eqn:E.
    - apply Nat.eqb_eq in E. pose proof (find_draw_In_distinct d0 s Hdd Hd0) as Hf0.
      rewrite E, Hfd in Hf0. injection Hf0 as ->. simpl. exact Hroom.
    - apply (proj1 (within_capacity_iff s) Hw). exact Hd0. }
  destruct Hex as [(_ & er & Ee & _) | (_ & -> & _)]; [|exact H8].
  eapply execute_draw_keeps_capacity; eauto.
Qed.

(** No draw is ever oversold.  Where every sold count is the number of the
    draw's tickets and no draw has sold more than it has, the same holds
    after a purchase and after an execution, whatever they answer: no draw
    has more ticket rows than [total_tickets]. *)
Theorem draws_never_oversold now s :
  sold_counted s = true ->
  within_capacity s = true ->
  distinct (List.map d_id (draws s)) = true ->
  (forall u id q r s',
      buy_tickets_v2 now u id q s = Returned r s' ->
      forall d, In d (draws s') ->
                d_sold_tickets d <= d_total_tickets d /\
                Z.of_nat (List.length (draw_tickets_of (d_id d) s')) <= d_total_tickets d) /\
  (forall id r s',
      execute_draw now id s = Returned r s' ->
      forall d, In d (draws s') ->
                d_sold_tickets d <= d_total_tickets d /\
                Z.of_nat (List.length (draw_tickets_of (d_id d) s')) <= d_total_tickets d).
Proof.
  intros Hs Hw Hdd.
  assert (Hboth : forall s', sold_counted s' = true -> within_capacity s' = true ->
            forall d, In d (draws s') ->
                      d_sold_tickets d <= d_total_tickets d /\
                      Z.of_nat (List.length (draw_tickets_of (d_id d) s')) <= d_total_tickets d).
  { intros s' Hs' Hw' d Hd.
    pose proof (proj1 (within_capacity_iff s') Hw' d Hd) as Hle.
    pose proof (proj1 (sold_counted_iff s') Hs' d Hd) as Heq.
    split; [exact Hle | rewrite <- Heq; exact Hle]. }
  split.
  - intros u id q r s' H. apply Hboth.
    + eapply buy_tickets_v2_keeps_sold_counted; eauto.
    + eapply buy_tickets_v2_keeps_capacity; eauto.
  - intros id r s' H. apply Hboth.
    + eapply execute_draw_keeps_sold_counted; eauto.
    + eapply execute_draw_keeps_capacity; eauto.
Qed.

(** ** Validated amounts *)

Lemma round_half_away_whole (c : Z) (d : positive) :
  round_half_away ((c * Z.pos d) # d) = c.
Proof.
  unfold round_half_away. cbn [Qnum Qden].
  rewrite Z.abs_mul. rewrite (Z.abs_eq (Z.pos d)) by lia.
  replace (2 * (Z.abs c * Z.pos d) + Z.pos d) with (Z.pos d + Z.abs c * (2 * Z.pos d)) by lia.
  rewrite Z.div_add by lia. rewrite Z.div_small by lia.
  rewrite Z.sgn_mul. replace (Z.sgn (Z.pos d)) with 1 by reflexivity.
  rewrite Z.mul_1_r, Z.add_0_l. rewrite Z.mul_comm. apply Z.abs_sgn.
Qed.

(** A numeric that is a whole number of hundredths is brought to the scale
    of a money column without rounding, and so is its opposite. *)
Lemma whole_cents (a : Q) (c : Z) :
  Qnum a * 100 = c * Z.pos (Qden a) ->
  (a == numeric_of_money c)%Q /\
  round_half_away (a * 100)%Q = c /\
  round_half_away (- a * 100)%Q = - c.
Proof.
  destruct a as [n d]. cbn [Qnum Qden]. intros Hc. split; [|split].
  - unfold numeric_of_money, Qeq. cbn [Qnum Qden]. lia.
  - unfold Qmult. cbn [Qnum Qden]. rewrite Pos.mul_1_r, Hc. apply round_half_away_whole.
  - unfold Qmult, Qopp. cbn [Qnum Qden]. rewrite Pos.mul_1_r.
    replace (- n * 100) with (- c * Z.pos d) by lia. apply round_half_away_whole.
Qed.

Lemma validateAmount_inv (a lo : Q) (hi : option Q) :
  validateAmount (Some a) lo hi = true ->
  exists c : Z,
    0 < c /\ Qnum a * 100 = c * Z.pos (Qden a) /\
    (lo <= a)%Q /\ (forall m, hi = Some m -> (a <= m)%Q).
Proof.
  unfold validateAmount.
  destruct (Qle_bool a 0) eqn:E0; [discriminate|].
  destruct (negb (two_decimals a)) eqn:E2; [discriminate|].
  destruct (Qltb a lo) eqn:El; [discriminate|].
  intros Hhi.
  apply negb_false_iff in E2. unfold two_decimals in E2. apply Z.eqb_eq in E2.
  assert (Hpos : (0 < a)%Q).
  { apply Qnot_le_lt. intros H. apply Qle_bool_iff in H. congruence. }
  assert (Hlo : (lo <= a)%Q).
  { unfold Qltb in El. apply negb_false_iff in El. apply Qle_bool_iff. exact El. }
  apply Z.mod_divide in E2; [|lia]. destruct E2 as [c Hc].
  assert (Hn : 0 < Qnum a) by (unfold Qlt in Hpos; simpl in Hpos; lia).
  exists c. split; [nia|]. split; [exact Hc|]. split; [exact Hlo|].
  intros m ->. unfold Qltb in Hhi. rewrite negb_involutive in Hhi.
  apply Qle_bool_iff. exact Hhi.
Qed.

(** An amount the validation lets through is a positive whole number of
    hundredths within the bounds, and a money column holds it as it is:
    nothing is rounded away between the request and the table. *)
Theorem validateAmount_exact (a lo : Q) (hi : option Q) :
  validateAmount (Some a) lo hi = true ->
  exists c : Z,
    0 < c /\ (a == numeric_of_money c)%Q /\
    (lo <= a)%Q /\ (forall m, hi = Some m -> (a <= m)%Q) /\
    (c < 10 ^ 15 -> store_money a = Some c).
Proof.
  intros H. destruct (validateAmount_inv _ _ _ H) as (c & Hc0 & Hc & Hlo & Hhi).
  destruct (whole_cents a c Hc) as (Heq & Hr & _).
  exists c. repeat (split; [assumption|]).
  intros Hc15. unfold store_money. rewrite Hr.
  assert (Habs : (Z.abs c <? 10 ^ 15) = true) by (apply Z.ltb_lt; lia).
  rewrite Habs. reflexivity.
Qed.

(** ** The referral record of a registration *)

Lemma createNotification_referrals u ty ti a s :
  referrals (createNotification u ty ti a s) = referrals s.
Proof.
  unfold createNotification, insert_notification. simpl.
  destruct (notifications_type_check ty); reflexivity.
Qed.

Lemma createNotification_wallets u ty ti a s :
  wallets (createNotification u ty ti a s) = wallets s.
Proof.
  unfold createNotification, insert_notification. simpl.
  destruct (notifications_type_check ty); reflexivity.
Qed.

(** Registration records a referral once and pays nothing.  Whatever the
    function is given, it moves no balance and writes no transaction, and
    returns the balance it was passed; where the bonus fits the column, the
    user has a referral row afterwards, a pending one naming the referrer
    and the bonus if none was there before; and once the user has a row, a
    further call, with whatever referrer or bonus, changes nothing. *)
Theorem processReferralBonus_once userId referrerId wallet referredBonus s :
  let s1 := snd (processReferralBonus userId referrerId wallet referredBonus s) in
  fst (processReferralBonus userId referrerId wallet referredBonus s) = w_balance wallet /\
  wallets s1 = wallets s /\ transactions s1 = transactions s /\
  (forall bonus,
      store_money referredBonus = Some bonus ->
      List.filter (fun r => Nat.eqb (r_referred_id r) userId) (referrals s) = [] ->
      referrals s1
      = (referrals s ++ [mkReferral referrerId userId "pending" (Some 0) (Some bonus) None])%list) /\
  (List.filter (fun r => Nat.eqb (r_referred_id r) userId) (referrals s) <> [] -> s1 = s) /\
  (store_money referredBonus <> None ->
   forall referrerId' wallet' referredBonus',
     snd (processReferralBonus userId referrerId' wallet' referredBonus' s1) = s1).
Proof.
  cbv zeta.
  assert (Hex : forall t,
            List.filter (fun r => Nat.eqb (r_referred_id r) userId) (referrals t) <> [] ->
            forall r' w' b', processReferralBonus userId r' w' b' t = (w_balance w', t)).
  { intros t Hne r' w' b'. unfold processReferralBonus.
    destruct (single _); [reflexivity|].
    destruct (existsb _ (referrals t)) eqn:E; [reflexivity|].
    exfalso. apply Hne. apply filter_none. intros x Hx.
    destruct (Nat.eqb (r_referred_id x) userId) eqn:Ex; [|reflexivity].
    assert (existsb (fun r => Nat.eqb (r_referred_id r) userId) (referrals t) = true);
      [|congruence].
    apply existsb_exists. eauto. }
  destruct (List.filter (fun r => Nat.eqb (r_referred_id r) userId) (referrals s))
    as [|r0 rest] eqn:Ef.
  - assert (Hno : existsb (fun r => Nat.eqb (r_referred_id r) userId) (referrals s) = false).
    { apply not_true_is_false. intros He. apply existsb_exists in He.
      destruct He as (x & Hx & Ex). assert (Hi : In x []); [|destruct Hi].
      rewrite <- Ef. apply List.filter_In. auto. }
    assert (Hval : processReferralBonus userId referrerId wallet referredBonus s
                   = (w_balance wallet,
                      match store_money referredBonus with
                      | None => s
                      | Some bonus =>
                          createNotification referrerId "referral" "New Referral!"
                            (Some "/referrals")
                            (set_referrals
                               (referrals s
                                ++ [mkReferral referrerId userId "pending" (Some 0) (Some bonus)
                                      None]) s)
                      end)).
    { unfold processReferralBonus. rewrite Ef, Hno. cbn [single].
      destruct (store_money referredBonus); reflexivity. }
    rewrite Hval. cbn [fst snd].
    destruct (store_money referredBonus) as [bonus|] eqn:Es.
    + split; [reflexivity|].
      split; [rewrite createNotification_wallets; reflexivity|].
      split; [rewrite createNotification_transactions; reflexivity|].
      split.
      { intros b Hb _. injection Hb as <-. rewrite createNotification_referrals. reflexivity. }
      split; [intros H; contradiction|].
      intros _ r' w' b'. rewrite Hex; [reflexivity|].
      rewrite createNotification_referrals. cbn [referrals set_referrals].
      rewrite List.filter_app. cbn [List.filter r_referred_id]. rewrite Nat.eqb_refl.
      intros H. apply List.app_eq_nil in H. destruct H as [_ H]. discriminate.
    + repeat split; try reflexivity; try discriminate; try contradiction.
  - assert (Hne : List.filter (fun r => Nat.eqb (r_referred_id r) userId) (referrals s) <> [])
      by (rewrite Ef; discriminate).
    rewrite (Hex s Hne). cbn [fst snd].
    split; [reflexivity|]. split; [reflexivity|]. split; [reflexivity|].
    split; [intros b _ H; discriminate|]. split; [reflexivity|].
    intros _ r' w' b'. rewrite (Hex s Hne). reflexivity.
Qed.

(** ** Approval of a bundle *)




(** ** Withdrawals *)

End Procedures.

(** * The statements at the sample stores *)

(** ** Purchases *)



(** Past 999999 the sequence repeats its numbers: two tickets bought at once
    get the same one, and the call raises. *)
Lemma buy_tickets_v2_numbers_repeat :
  format_ticket_number 1000000 = "LB-100000" /\
  format_ticket_number 1000001 = "LB-100000" /\
  forall md5,
    buy_tickets_v2 md5 9 3 1 2 (set_ticket_number_seq 1000000 shop)
    = Raised "a statement of the purchase was refused".
Proof.
  split; [vm_compute; reflexivity|]. split; [vm_compute; reflexivity|].
  intros md5. vm_compute. reflexivity.
Qed.

(** ** Executions *)

(** C2 at [shop]: the execution of draw 1, three tickets at 500.01. *)
Lemma execute_draw_payout_conservation_witness :
  find_draw 1 shop = Some (sample_draw 1 50001 10 3 "timer") /\
  exists winner wt num tot parts seed rev fee payout s',
    execute_draw text_digest 9 1 shop
    = Returned (ExecDone winner wt num tot parts seed rev fee payout) s' /\
    (rev == inject_Z 3 * numeric_of_money 50001%Z)%Q /\
    (fee == rev * (15 / 100))%Q /\
    (fee + payout == rev)%Q.
Proof.
  assert (Hd : find_draw 1 shop = Some (sample_draw 1 50001 10 3 "timer")) by reflexivity.
  split; [exact Hd|].
  destruct (execute_draw text_digest 9 1 shop) as [[e|winner wt num tot parts seed rev fee payout] s'|e]
    eqn:E; [vm_compute in E; discriminate | | vm_compute in E; discriminate].
  exists winner, wt, num, tot, parts, seed, rev, fee, payout, s'.
  split; [reflexivity|].
  destruct (execute_draw_payout_conservation text_digest 9 1 shop _ winner wt num tot parts seed
              rev fee payout s' Hd E) as (Hrev & Hfee & Hsum & _).
  split; [exact Hrev|]. split; [exact Hfee | exact Hsum].
Defined.

(** C2 fails at [odd_price_shop]: one ticket at 500.01 under the default
    fee.  The fee recorded is 75.0015, the vendor's balance goes from 0 to
    425.01, and the two do not add up to 500.01. *)
Lemma execute_draw_payout_rounded :
  platform_settings odd_price_shop = None /\
  find_wallet_of 2 odd_price_shop = Some (mkWallet 11 2 0 0 false) /\
  (forall md5,
      exists s',
        execute_draw md5 9 1 odd_price_shop
        = Returned (ExecDone 3 20 "LB-100001" 1 1 100 500.01 75.0015 425.008500) s' /\
        find_wallet_of 2 s' = Some (mkWallet 11 2 0 42501 false)) /\
  ~ (75.0015 + numeric_of_money 42501%Z == inject_Z 1 * numeric_of_money 50001%Z)%Q.
Proof.
  split; [reflexivity|]. split; [reflexivity|]. split.
  - intros md5. eexists. split; vm_compute; reflexivity.
  - vm_compute. discriminate.
Qed.


(** ** Referral bonuses *)



(** ** Fallbacks *)

(** C5 at [shop], which has no settings row. *)
Lemma fallbacks_without_settings_witness :
  platform_settings shop = None /\
  deposit_bounds shop = (100%Q, 1000000%Q) /\
  withdraw_bounds shop = (1000%Q, 100%Q) /\
  approve_bounds_ok 10000 100 shop = true /\
  get_admin_settings shop !! "referralBonus" = Some (jnum 1000) /\
  get_admin_settings shop !! "referralPercentage" = Some (jnum 10).
Proof.
  assert (H : platform_settings shop = None) by reflexivity.
  split; [exact H|].
  destruct (fallbacks_without_settings shop H) as (Hd & Hw & _ & Ha & Hb & Hp & _).
  split; [exact Hd|]. split; [exact Hw|].
  split; [rewrite Ha; reflexivity|]. split; [exact Hb | exact Hp].
Defined.

(** C5 fails at [shop]: without a settings row a deposit of 500 is let
    through and recorded, a withdrawal of 1000 by the vendor is not refused
    for its amount, and a bundle of 10000 tickets at 100 passes the range
    checks of the approval. *)
Lemma fallbacks_below_the_table :
  platform_settings shop = None /\
  (exists s',
      post_initialize_payment 9 3 (Some 500%Q) (Some "https://checkout") shop = (200%nat, s') /\
      List.map (fun t => (tx_type t, tx_amount t, tx_status t)) (transactions s')
      = [("topup", 50000, "pending")]) /\
  validateAmount (Some 1000%Q) (fst (withdraw_bounds shop)) None = true /\
  approve_bounds_ok 10000 100 shop = true /\
  get_admin_settings shop !! "referralBonus" = Some (jnum 1000) /\
  get_admin_settings shop !! "referralPercentage" = Some (jnum 10).
Proof.
  split; [reflexivity|]. split.
  - eexists. split; vm_compute; reflexivity.
  - repeat split; vm_compute; reflexivity.
Qed.

(** ** Webhooks *)


(** C7 fails at [payout_desk]: after the event of the completed transfer
    the withdrawal transaction is completed and the request paired with it
    is still [approved]; after the event of the failed transfer the
    transaction is failed and the request is still [approved]. *)
Lemma transfer_events_leave_request_approved :
  List.map (fun t => (tx_id t, tx_type t, tx_status t)) (transactions payout_desk)
  = [(50%nat, "withdrawal", "pending")] /\
  List.map (fun r => (wr_transaction_id r, wr_status r)) (withdrawal_requests payout_desk)
  = [(Some 50%nat, "approved")] /\
  (exists s',
      post_webhook_flutterwave gateway 9 (Some "secret") (transfer_event "transfer.completed")
        payout_desk = (200%nat, s') /\
      List.map tx_status (transactions s') = ["completed"] /\
      List.map wr_status (withdrawal_requests s') = ["approved"]) /\
  (exists s',
      post_webhook_flutterwave gateway 9 (Some "secret") (transfer_event "transfer.failed")
        payout_desk = (200%nat, s') /\
      List.map tx_status (transactions s') = ["failed"] /\
      List.map wr_status (withdrawal_requests s') = ["approved"]).
Proof.
  split; [reflexivity|]. split; [reflexivity|].
  split; eexists; (split; [vm_compute; reflexivity|]); split; vm_compute; reflexivity.
Qed.

(** ** The scheduler *)

(** C8 fails at [shop]: the tick at time 9 completes draw 1 with the buyer
    of ticket 20 as winner, cancels draw 2, and leaves the notifications
    empty. *)
Lemma drawScheduler_tick_sends_no_notification :
  List.map d_id (expired_timer_draws 9 shop) = [1%nat; 2%nat] /\
  notifications shop = [] /\
  List.map (fun d => (d_id d, d_status d, d_winner_id d, d_winning_ticket_id d, d_completed_at d))
    (draws (drawScheduler_tick text_digest 9 shop))
  = [ (1%nat, "completed", Some 3%nat, Some 20%nat, Some 9);
      (2%nat, "cancelled", None, None, Some 9) ] /\
  notifications (drawScheduler_tick text_digest 9 shop) = [].
Proof.
  repeat split; vm_compute; reflexivity.
Qed.

(** ** Email verification *)

(** C9 fails at [shop]: a token no profile holds is answered 400. *)
Lemma get_verify_email_unknown_token :
  List.filter (fun p => bool_decide (p_verification_token p = Some "unknown")) (profiles shop)
  = [] /\
  get_verify_email 9 "unknown" shop = (400%nat, "Invalid or expired verification token", shop) /\
  fst (fst (get_verify_email 9 "unknown" shop)) <> 404%nat.
Proof.
  split; [|split]; vm_compute; [reflexivity | reflexivity | discriminate].
Qed.

(** ** Slots *)


(** * The further properties at the sample stores *)

(** The integrity facts hold at [shop] and after buyer 3 has bought slots 4
    and 7 of draw 1 there. *)
Lemma procedures_keep_integrity_witness :
  consistent shop = true /\
  consistent
    (snd (post_tickets_buy text_digest 9 3
            (mkBuyRequest (Some 1%nat) QtyAbsent (Some [4; 7])) shop)) = true.
Proof.
  assert (Hc : consistent shop = true) by (vm_compute; reflexivity).
  split; [exact Hc|].
  destruct (procedures_keep_integrity text_digest 9 shop Hc) as (_ & _ & H). apply H.
Defined.

(** The execution of draw 1 at [shop] moves no ticket and no spendable
    balance. *)
Lemma execute_draw_leaves_alone_witness :
  exists r s',
    execute_draw text_digest 9 1 shop = Returned r s' /\
    List.map ticket_core (tickets s') = List.map ticket_core (tickets shop) /\
    forall wid, balance_of wid s' = balance_of wid shop.
Proof.
  destruct (execute_draw text_digest 9 1 shop) as [r s'|e] eqn:E;
    [|vm_compute in E; discriminate].
  exists r, s'. split; [reflexivity|].
  destruct (execute_draw_leaves_alone text_digest 9 1 shop r s' E) as (H1 & _ & _ & H4 & _).
  split; assumption.
Defined.

(** Buyer 3 takes two tickets of draw 1 at [shop], at 500.01 each. *)
Lemma buy_tickets_v2_only_within_rules_witness :
  exists r s',
    buy_tickets_v2 text_digest 9 3 1 2 shop = Returned (BuyDone r) s' /\
    bs_total_cost r = 50001 * 2.
Proof.
  destruct (buy_tickets_v2 text_digest 9 3 1 2 shop) as [[e|r] s'|e] eqn:E;
    [vm_compute in E; discriminate | | vm_compute in E; discriminate].
  exists r, s'. split; [reflexivity|].
  destruct (buy_tickets_v2_only_within_rules text_digest 9 3 1 2 shop r s' E)
    as (d & w & Hd & _ & _ & _ & _ & _ & _ & _ & Hcost & _).
  vm_compute in Hd. injection Hd as <-. exact Hcost.
Defined.

(** The winner of draw 1 at [shop] is the least of the logged tickets. *)
Lemma execute_draw_winner_recomputable_witness :
  exists winner wt num tot parts seed rev fee payout s' ids,
    execute_draw text_digest 9 1 shop
    = Returned (ExecDone winner wt num tot parts seed rev fee payout) s' /\
    In wt ids /\
    forall i, In i ids ->
              String.leb (text_digest (uuid_text wt ++ uuid_text seed))
                (text_digest (uuid_text i ++ uuid_text seed)) = true.
Proof.
  destruct (execute_draw text_digest 9 1 shop)
    as [[e|winner wt num tot parts seed rev fee payout] s'|e] eqn:E;
    [vm_compute in E; discriminate | | vm_compute in E; discriminate].
  destruct (execute_draw_winner_recomputable text_digest 9 1 shop winner wt num tot parts seed
              rev fee payout s' E) as (ids & percent & _ & _ & _ & Hin & Hleast).
  exists winner, wt, num, tot, parts, seed, rev, fee, payout, s', ids.
  split; [reflexivity|]. split; assumption.
Defined.

(** The sold counts of [shop] are right, before and after the execution of
    draw 1. *)
Lemma procedures_keep_sold_counted_witness :
  sold_counted shop = true /\
  exists r s', execute_draw text_digest 9 1 shop = Returned r s' /\ sold_counted s' = true.
Proof.
  assert (Hs : sold_counted shop = true) by (vm_compute; reflexivity).
  split; [exact Hs|].
  destruct (execute_draw text_digest 9 1 shop) as [r s'|e] eqn:E;
    [|vm_compute in E; discriminate].
  exists r, s'. split; [reflexivity|].
  destruct (procedures_keep_sold_counted text_digest 9 shop Hs) as [H _]. eapply H. exact E.
Defined.



(** The newcomer opens the link of registration at time 50, and once
    more. *)
Lemma get_verify_email_single_use_witness :
  exists s2,
    get_verify_email 50 "t0" signup_desk = (200%nat, "Email verified successfully", s2) /\
    get_verify_email 60 "t0" s2 = (400%nat, "Invalid or expired verification token", s2).
Proof.
  destruct (get_verify_email 50 "t0" signup_desk) as [[st msg] s2] eqn:E.
  pose proof E as E'. vm_compute in E'. injection E' as <- <- _.
  exists s2. split; [reflexivity|].
  destruct (get_verify_email_single_use 50 "t0" signup_desk s2 E) as [H _]. apply H.
Defined.

(** The newcomer asks for a new link at time 50 and opens it at time 60. *)
Lemma resend_verification_round_trip_witness :
  userProfile 6 signup_desk = Some newcomer /\
  p_is_verified newcomer = false /\
  exists s1 s2,
    post_resend_verification 50 6 "t1" signup_desk
    = (200%nat, "Verification email resent", s1) /\
    get_verify_email 60 "t1" s1 = (200%nat, "Email verified successfully", s2) /\
    get_verify_email 60 "t0" s1 = (400%nat, "Invalid or expired verification token", s1).
Proof.
  assert (Hu : userProfile 6 signup_desk = Some newcomer) by reflexivity.
  split; [exact Hu|]. split; [reflexivity|].
  assert (Hfresh : forall q, In q (profiles signup_desk) -> p_verification_token q <> Some "t1").
  { intros q Hq. simpl in Hq.
    destruct Hq as [<-|[<-|[<-|[<-|[<-|[]]]]]]; discriminate. }
  destruct (resend_verification_round_trip text_digest 50 6 "t1" newcomer signup_desk
              Hu eq_refl Hfresh) as (s1 & Hsent & _ & Hopen & _ & Hold).
  destruct (Hopen 60) as (s2 & Hverified & _); [vm_compute; discriminate|].
  exists s1, s2. split; [exact Hsent|]. split; [exact Hverified|].
  apply (Hold "t0" 60); [reflexivity | discriminate |].
  intros q Hq Htok. simpl in Hq.
  destruct Hq as [<-|[<-|[<-|[<-|[<-|[]]]]]]; try discriminate Htok. reflexivity.
Defined.

(** The gateway reports the charge of 500.00 for user 3 at [shop], twice. *)
Lemma charge_event_replay_witness :
  exists s',
    handleChargeCompleted confirming_gateway 9 small_charge shop = Completed s' /\
    balance_of 10 s' = Some 550000 /\
    handleChargeCompleted confirming_gateway 10 small_charge s' = Completed s'.
Proof.
  destruct (handleChargeCompleted confirming_gateway 9 small_charge shop) as [s'|s'] eqn:E;
    [|vm_compute in E; discriminate].
  exists s'. split; [reflexivity|]. split.
  { pose proof E as E'. vm_compute in E'. injection E' as <-. reflexivity. }
  apply (charge_event_replay confirming_gateway 9 small_charge small_charge "LB_3_9" 50000
           shop s').
  - reflexivity.
  - reflexivity.
  - vm_compute. reflexivity.
  - constructor.
  - intros t [].
  - exact E.
Defined.

(** The gateway reports the transfer of the withdrawal at [payout_desk],
    twice. *)
Lemma transfer_completed_replay_witness :
  exists s',
    handleTransferCompleted 9 transfer_payload payout_desk = Completed s' /\
    List.map tx_status (transactions s') = ["completed"] /\
    handleTransferCompleted 10 transfer_payload s' = Completed s'.
Proof.
  destruct (handleTransferCompleted 9 transfer_payload payout_desk) as [s'|s'] eqn:E;
    [|vm_compute in E; discriminate].
  exists s'. split; [reflexivity|]. split.
  { pose proof E as E'. vm_compute in E'. injection E' as <-. reflexivity. }
  apply (transfer_completed_replay 9 transfer_payload payout_desk s' E).
Defined.

(** User 3 asks for a deposit of 500.00 at [shop] at time 9; the gateway
    confirms the charge at time 12. *)
Lemma deposit_round_trip_witness :
  validateAmount (Some 500%Q) (fst (deposit_bounds shop)) (Some (snd (deposit_bounds shop)))
  = true /\
  exists s1 s2,
    post_initialize_payment 9 3 (Some 500%Q) (Some "https://checkout") shop = (200%nat, s1) /\
    handleChargeCompleted confirming_gateway 12 small_charge s1 = Completed s2 /\
    balance_of 10 s2 = Some 550000 /\
    balance_of 13 s2 = balance_of 13 shop.
Proof.
  assert (Hv : validateAmount (Some 500%Q) (fst (deposit_bounds shop))
                 (Some (snd (deposit_bounds shop))) = true) by (vm_compute; reflexivity).
  split; [exact Hv|].
  destruct (deposit_round_trip 9 12 3 500%Q "https://checkout" confirming_gateway small_charge
              small_charge 500%Q 50000 550000 50000 (mkWallet 10 3 500000 0 false) shop)
    as (s1 & s2 & t & Hinit & _ & Hcharge & Hbal & Hothers & _).
  - exact Hv.
  - vm_compute. reflexivity.
  - reflexivity.
  - reflexivity.
  - reflexivity.
  - vm_compute. reflexivity.
  - reflexivity.
  - vm_compute. reflexivity.
  - vm_compute. reflexivity.
  - lia.
  - reflexivity.
  - exists s1, s2. split; [exact Hinit|]. split; [exact Hcharge|]. split; [exact Hbal|].
    apply Hothers. discriminate.
Defined.


(** No draw of [shop] is oversold after buyer 3 has taken two tickets of
    draw 1. *)
Lemma draws_never_oversold_witness :
  sold_counted shop = true /\
  within_capacity shop = true /\
  distinct (List.map d_id (draws shop)) = true /\
  exists r s',
    buy_tickets_v2 text_digest 9 3 1 2 shop = Returned r s' /\
    forall d, In d (draws s') ->
              d_sold_tickets d <= d_total_tickets d /\
              Z.of_nat (List.length (draw_tickets_of (d_id d) s')) <= d_total_tickets d.
Proof.
  assert (Hs : sold_counted shop = true) by (vm_compute; reflexivity).
  assert (Hw : within_capacity shop = true) by (vm_compute; reflexivity).
  assert (Hd : distinct (List.map d_id (draws shop)) = true) by (vm_compute; reflexivity).
  split; [exact Hs|]. split; [exact Hw|]. split; [exact Hd|].
  destruct (buy_tickets_v2 text_digest 9 3 1 2 shop) as [r s'|e] eqn:E;
    [|vm_compute in E; discriminate].
  exists r, s'. split; [reflexivity|].
  destruct (draws_never_oversold text_digest 9 shop Hs Hw Hd) as [H _].
  eapply H. exact E.
Defined.

(** A deposit of 1000.00 between 100 and 1000000 is let through and stored as
    100000 hundredths. *)
Lemma validateAmount_exact_witness :
  validateAmount (Some 1000%Q) 100 (Some 1000000%Q) = true /\
  store_money 1000 = Some 100000.
Proof.
  assert (Hv : validateAmount (Some 1000%Q) 100 (Some 1000000%Q) = true)
    by (vm_compute; reflexivity).
  split; [exact Hv|].
  destruct (validateAmount_exact 1000 100 (Some 1000000%Q) Hv) as (c & _ & Hc & _ & _ & Hs).
  assert (Ec : c = 100000) by (unfold Qeq, numeric_of_money in Hc; simpl in Hc; lia).
  subst c. apply Hs. reflexivity.
Defined.


